(** * Electric lock (MSP430): a shallow embedding of main.c and lcd.c

    The program is a bare-metal controller: a polling main loop plus two
    interrupt service routines, all communicating through volatile
    globals and memory-mapped registers.  The embedding keeps that shape:

    - the globals of main.c are the fields of [state], with the C
      initialisers in [startup];
    - memory-mapped registers are a register file [reg -> Z];
    - every C function is a state transformer carrying its source name;
    - the body of [while(1)] is [main_loop_body], one call per iteration;
    - ISRs and loop iterations are run as atomic operations by [step];
      preemption inside a loop iteration and the duration of the busy
      waits are not modelled;
    - which interrupt requests the hardware delivers is decided by the
      enable bits the program itself writes (CCIE, ADC12ENC, ADC12IE0,
      P2IE), as the MSP430 does;
    - the ISR of the button interrupt that main enables is not in
      src/main.c, which ends right after Timer_A_CCR0_ISR; it is
      modelled from the specification ([port2_isr]), and the machine
      takes what is installed at that vector as a parameter
      ([port2_vector]).

    Two ghost fields are added for observation only: [lcd_bus], the
    sequence of bytes driven on the LCD port, and [cmp_log], the indices
    at which [check_password] compared a guess digit with a secret digit. *)

From Equations Require Import Equations.
From Stdlib Require Import ZArith Bool String Ascii List Lia.
From Stdlib Require Import FunctionalExtensionality.
Import ListNotations.
Local Open Scope Z_scope.

(** ** Device header constants

    Bit masks and field values of the device header <msp430.h>, which is
    a vendor file and not part of the repository. *)
Module Hw.
Definition BIT2 : Z := 0x04.
Definition BIT3 : Z := 0x08.
Definition BIT4 : Z := 0x10.
Definition BIT5 : Z := 0x20.
Definition BIT6 : Z := 0x40.
Definition WDTPW : Z := 0x5A00.
Definition WDTHOLD : Z := 0x0080.
Definition ADC12ON : Z := 0x0010.
Definition ADC12ENC : Z := 0x0002.
Definition ADC12SHS_1 : Z := 0x0400.
Definition ADC12CONSEQ_2 : Z := 0x0004.
Definition ADC12INCH_14 : Z := 14.
Definition ADC12IE0 : Z := 0x0001.
Definition ADC12IFG0 : Z := 0x0001.
Definition OUTMOD_4 : Z := 0x0080.
Definition CCIE : Z := 0x0010.
Definition CCIFG : Z := 0x0001.
Definition TASSEL__ACLK : Z := 0x0100.
Definition MC__UP : Z := 0x0010.
Definition MC__STOP : Z := 0x0000.
End Hw.
Import Hw.

(** ** Registers *)

Inductive reg : Type :=
| WDTCTL
| P2DIR | P2IES | P2IFG | P2IE
| P4OUT | P4DIR
| P7SEL
| P8OUT | P8DIR
| ADC12CTL0 | ADC12CTL1 | ADC12MCTL0 | ADC12IE | ADC12IFG | ADC12MEM0
| TA0CTL | TA0CCTL0 | TA0CCR0.

Definition reg_eqb (a b : reg) : bool :=
  match a, b with
  | WDTCTL, WDTCTL | P2DIR, P2DIR | P2IES, P2IES | P2IFG, P2IFG
  | P2IE, P2IE | P4OUT, P4OUT | P4DIR, P4DIR | P7SEL, P7SEL
  | P8OUT, P8OUT | P8DIR, P8DIR | ADC12CTL0, ADC12CTL0
  | ADC12CTL1, ADC12CTL1 | ADC12MCTL0, ADC12MCTL0 | ADC12IE, ADC12IE
  | ADC12IFG, ADC12IFG | ADC12MEM0, ADC12MEM0 | TA0CTL, TA0CTL
  | TA0CCTL0, TA0CCTL0 | TA0CCR0, TA0CCR0 => true
  | _, _ => false
  end.

Definition regfile : Type := reg -> Z.

Definition upd (r : reg) (v : Z) (f : regfile) : regfile :=
  fun r' => if reg_eqb r r' then v else f r'.

(** The macros of main.c and lcd.c that rename ports. *)
Definition LED_PORT : reg := P4OUT.
Definition LED_PORT_DIR : reg := P4DIR.
Definition BUTTON_PORT_DIR : reg := P2DIR.
Definition BUTTON_INT_EN : reg := P2IE.
Definition BUTTON_FLAG : reg := P2IFG.
Definition BUTTON_EDGE_SEL : reg := P2IES.
Definition LCD_PORT : reg := P8OUT.
Definition LCD_PORT_DIR : reg := P8DIR.

Definition ONE_SECOND : Z := 32768 - 1.
Definition ASCII_CONV : Z := 0x30.
Definition LCD_EN : Z := BIT3.
Definition LCD_RS : Z := BIT2.
Definition MASK_UPPER : Z := 0xF0.
Definition MASK_FULL : Z := 0xFF.
Definition MODE_FONT : Z := 0x28.
Definition CURS_BLINK : Z := 0x0C.
Definition SHIFTR : Z := 0x06.
Definition DDRAM : Z := 0x80.
Definition CLEAR_SCREEN : Z := 0x01.

(** ** Fixed-width values *)

(** Conversion to [uint8_t] / [unsigned char] / [char]: the low 8 bits. *)
Definition u8 (v : Z) : Z := v mod 256.

(** [v & ~m] *)
Definition clr (v m : Z) : Z := Z.land v (Z.lnot m).

(** ** The arrays [password] and [guess]: [uint8_t x[4]] *)

Record arr4 : Type := Arr4 { a0 : Z; a1 : Z; a2 : Z; a3 : Z }.

Definition to_list (a : arr4) : list Z := [a0 a; a1 a; a2 a; a3 a].

(** [a[i]] for an index inside the array; [None] is an access past the
    end, which C leaves undefined. *)
Definition get4 (a : arr4) (i : Z) : option Z :=
  if i =? 0 then Some (a0 a)
  else if i =? 1 then Some (a1 a)
  else if i =? 2 then Some (a2 a)
  else if i =? 3 then Some (a3 a)
  else None.

(** [a[i] = v] *)
Definition set4 (a : arr4) (i v : Z) : option arr4 :=
  if i =? 0 then Some (Arr4 v (a1 a) (a2 a) (a3 a))
  else if i =? 1 then Some (Arr4 (a0 a) v (a2 a) (a3 a))
  else if i =? 2 then Some (Arr4 (a0 a) (a1 a) v (a3 a))
  else if i =? 3 then Some (Arr4 (a0 a) (a1 a) (a2 a) v)
  else None.

(** ** Program state *)

Record state : Type := State {
  seconds : Z;               (* volatile uint8_t seconds *)
  password : arr4;           (* volatile uint8_t password[4] *)
  guess : arr4;              (* volatile uint8_t guess[4] *)
  data_cnt : Z;              (* volatile uint8_t data_cnt *)
  pressed : Z;               (* volatile int8_t pressed *)
  correct : Z;               (* volatile uint8_t correct *)
  conversion_allowed : Z;    (* volatile uint8_t conversion_allowed *)
  regs : regfile;            (* memory-mapped registers *)
  lcd_bus : list Z;          (* ghost: bytes driven on LCD_PORT, oldest first *)
  cmp_log : list Z           (* ghost: indices compared by check_password *)
}.

Definition set_seconds (v : Z) (s : state) : state :=
  State v (password s) (guess s) (data_cnt s) (pressed s) (correct s)
        (conversion_allowed s) (regs s) (lcd_bus s) (cmp_log s).
Definition set_guess (v : arr4) (s : state) : state :=
  State (seconds s) (password s) v (data_cnt s) (pressed s) (correct s)
        (conversion_allowed s) (regs s) (lcd_bus s) (cmp_log s).
Definition set_data_cnt (v : Z) (s : state) : state :=
  State (seconds s) (password s) (guess s) v (pressed s) (correct s)
        (conversion_allowed s) (regs s) (lcd_bus s) (cmp_log s).
Definition set_pressed (v : Z) (s : state) : state :=
  State (seconds s) (password s) (guess s) (data_cnt s) v (correct s)
        (conversion_allowed s) (regs s) (lcd_bus s) (cmp_log s).
Definition set_correct (v : Z) (s : state) : state :=
  State (seconds s) (password s) (guess s) (data_cnt s) (pressed s) v
        (conversion_allowed s) (regs s) (lcd_bus s) (cmp_log s).
Definition set_conversion_allowed (v : Z) (s : state) : state :=
  State (seconds s) (password s) (guess s) (data_cnt s) (pressed s)
        (correct s) v (regs s) (lcd_bus s) (cmp_log s).
Definition set_regs (v : regfile) (s : state) : state :=
  State (seconds s) (password s) (guess s) (data_cnt s) (pressed s)
        (correct s) (conversion_allowed s) v (lcd_bus s) (cmp_log s).
Definition set_lcd_bus (v : list Z) (s : state) : state :=
  State (seconds s) (password s) (guess s) (data_cnt s) (pressed s)
        (correct s) (conversion_allowed s) (regs s) v (cmp_log s).
Definition set_cmp_log (v : list Z) (s : state) : state :=
  State (seconds s) (password s) (guess s) (data_cnt s) (pressed s)
        (correct s) (conversion_allowed s) (regs s) (lcd_bus s) v.

(** Register read, [R = v], [R |= m], [R &= ~m], [R ^= m]. *)
Definition rd (r : reg) (s : state) : Z := regs s r.
Definition wr (r : reg) (v : Z) (s : state) : state :=
  set_regs (upd r v (regs s)) s.
Definition wr_or (r : reg) (m : Z) (s : state) : state :=
  wr r (Z.lor (rd r s) m) s.
Definition wr_clr (r : reg) (m : Z) (s : state) : state :=
  wr r (clr (rd r s) m) s.
Definition wr_xor (r : reg) (m : Z) (s : state) : state :=
  wr r (Z.lxor (rd r s) m) s.

(** [LCD_PORT = v]: the port latch is written and the byte appears on the
    display bus. *)
Definition lcd_out (v : Z) (s : state) : state :=
  set_lcd_bus (lcd_bus s ++ [v]) (wr LCD_PORT v s).

(** [__delay_cycles(n)]: a busy wait; it changes no state. *)
Definition __delay_cycles (n : Z) (s : state) : state := s.

(** Sequencing of statements, read left to right. *)
Notation "s '|>' f" := (f s) (at level 45, left associativity, only parsing).

(** Statements that can fail (an array access past the end). *)
Definition bind {A B : Type} (m : option A) (k : A -> option B) : option B :=
  match m with
  | Some a => k a
  | None => None
  end.
Notation "x <- m ;; k" := (bind m (fun x => k))
  (at level 61, m at next level, right associativity).

(** ** lcd.c *)

Definition lcd_reset (s : state) : state :=
  s |> wr LCD_PORT_DIR MASK_FULL
    |> lcd_out MASK_FULL
    |> __delay_cycles 20000
    |> lcd_out (0x30 + LCD_EN)
    |> lcd_out 0x30
    |> __delay_cycles 10000
    |> lcd_out (0x30 + LCD_EN)
    |> lcd_out 0x30
    |> __delay_cycles 1000
    |> lcd_out (0x30 + LCD_EN)
    |> lcd_out 0x30
    |> __delay_cycles 1000
    |> lcd_out (0x20 + LCD_EN)
    |> lcd_out 0x20
    |> __delay_cycles 1000.

(** [lcd_command(char cmd)]: upper nibble first, each nibble strobed with
    LCD_EN. *)
Definition lcd_command (cmd : Z) (s : state) : state :=
  let cmd := u8 cmd in
  s |> lcd_out (Z.lor (Z.land cmd MASK_UPPER) LCD_EN)
    |> lcd_out (Z.land cmd MASK_UPPER)
    |> lcd_out (Z.lor (Z.land (Z.shiftl cmd 4) MASK_UPPER) LCD_EN)
    |> lcd_out (Z.land (Z.shiftl cmd 4) MASK_UPPER)
    |> __delay_cycles 4000.

(** [lcd_display(unsigned char dat)] *)
Definition lcd_display (dat : Z) (s : state) : state :=
  let dat := u8 dat in
  let dat := if (dat >? 0x39) && (dat <? 0x41) then 0x39 else dat in
  s |> lcd_out (Z.lor (Z.lor (Z.land dat MASK_UPPER) LCD_EN) LCD_RS)
    |> lcd_out (Z.lor (Z.land dat MASK_UPPER) LCD_RS)
    |> lcd_out (Z.lor (Z.lor (Z.land (Z.shiftl dat 4) MASK_UPPER) LCD_EN) LCD_RS)
    |> lcd_out (Z.lor (Z.land (Z.shiftl dat 4) MASK_UPPER) LCD_RS)
    |> __delay_cycles 4000.

Definition char_code (c : ascii) : Z := Z.of_nat (nat_of_ascii c).

(** The loop of lcd_text: display characters until the terminating NUL. *)
Fixpoint lcd_text_loop (text : string) (s : state) : state :=
  match text with
  | EmptyString => s
  | String c rest =>
      if char_code c =? 0 then s
      else lcd_text_loop rest (lcd_display (char_code c) s)
  end.

(** [lcd_text(char *text, int pos)] *)
Definition lcd_text (text : string) (pos : Z) (s : state) : state :=
  s |> lcd_command pos |> lcd_text_loop text.

(** Both [for(i=0;i<4;i++)] loops terminate because [4 - i] decreases. *)
Definition iterations_left (i : Z) : nat := Z.to_nat (4 - i).

(** [for(i=0;i<4;i++) lcd_display(ASCII_CONV);] of lcd_begin. *)
Equations? lcd_begin_loop (i : Z) (s : state) : state
  by wf (iterations_left i) lt :=
  lcd_begin_loop i s with Z_lt_dec i 4 := {
    | left _ => lcd_begin_loop (i + 1) (lcd_display ASCII_CONV s)
    | right _ => s }.
Proof.
  change (iterations_left (i + 1) < iterations_left i)%nat.
  unfold iterations_left. lia.
Qed.

Definition lcd_begin (s : state) : state :=
  s |> lcd_command DDRAM
    |> lcd_begin_loop 0
    |> lcd_text "Enter PW" 0xC1
    |> lcd_command DDRAM.

Definition lcd_initialization (s : state) : state :=
  s |> lcd_reset
    |> lcd_command MODE_FONT
    |> lcd_command CURS_BLINK
    |> lcd_command SHIFTR
    |> lcd_command CLEAR_SCREEN
    |> lcd_begin.

(** ** main.c *)

Definition turn_on_led (s : state) : state :=
  let s := wr TA0CTL (Z.lor TASSEL__ACLK MC__UP) s in
  if correct s =? 0 then
    s |> lcd_command 0x01
      |> lcd_text "WRONG" 0x85
      |> __delay_cycles 1000
      |> lcd_text "PASSWORD" 0xC4
      |> wr TA0CCR0 ONE_SECOND
      |> wr_or TA0CCTL0 CCIE
      |> wr_or LED_PORT BIT4
  else if correct s =? 1 then
    s |> lcd_command 0x01
      |> lcd_text "UNLOCKED" 0x84
      |> wr TA0CCR0 ONE_SECOND
      |> wr_or TA0CCTL0 CCIE
      |> wr_or LED_PORT BIT3
  else s.

(** The loop of check_password,
    [for(i=0;i<4;i++){ if(guess[i]!=password[i]){ correct = 0; break; } }].
    Every evaluation of the comparison is recorded in [cmp_log]. *)
Equations? check_loop (i : Z) (s : state) : option state
  by wf (iterations_left i) lt :=
  check_loop i s with Z_lt_dec i 4 := {
    | left _ =>
        g <- get4 (guess s) i ;;
        p <- get4 (password s) i ;;
        let s := set_cmp_log (cmp_log s ++ [i]) s in
        if negb (g =? p) then Some (set_correct 0 s)
        else check_loop (i + 1) s
    | right _ => Some s }.
Proof.
  change (iterations_left (i + 1) < iterations_left i)%nat.
  unfold iterations_left. lia.
Qed.

Definition check_password (s : state) : option state :=
  let s := s |> wr_clr ADC12CTL0 ADC12ENC
             |> wr_clr ADC12IE ADC12IE0
             |> wr TA0CCR0 0
             |> wr TA0CTL MC__STOP
             |> set_data_cnt 0 in
  s <- check_loop 0 s ;;
  Some (turn_on_led s).

(** The part of [main] before the loop. *)
Definition main_init (s : state) : state :=
  s |> wr WDTCTL (Z.lor WDTPW WDTHOLD)
    |> wr_clr LED_PORT BIT3
    |> wr_clr LED_PORT BIT4
    |> wr_clr LED_PORT BIT5
    |> wr_or LED_PORT_DIR BIT3
    |> wr_or LED_PORT_DIR BIT4
    |> wr_or LED_PORT_DIR BIT5
    |> wr_clr BUTTON_PORT_DIR BIT4
    |> wr_or BUTTON_EDGE_SEL BIT4
    |> wr_clr BUTTON_FLAG BIT4
    |> wr_or BUTTON_INT_EN BIT4
    |> wr_or P7SEL BIT6
    |> wr ADC12CTL0 ADC12ON
    |> wr ADC12CTL1 (Z.lor ADC12SHS_1 ADC12CONSEQ_2)
    |> wr ADC12MCTL0 ADC12INCH_14
    |> wr_or ADC12CTL0 ADC12ENC
    |> wr_or ADC12IE ADC12IE0
    |> wr_clr ADC12IFG ADC12IFG0
    |> wr TA0CCTL0 OUTMOD_4
    |> wr_clr TA0CCTL0 CCIE
    |> wr TA0CCR0 8191
    |> wr TA0CTL (Z.lor TASSEL__ACLK MC__UP)
    |> lcd_initialization.

(** [(ADC12MEM0 >> 8) & 0x0F] *)
Definition adc_nibble (s : state) : Z :=
  Z.land (Z.shiftr (rd ADC12MEM0 s) 8) 0x0F.

(** One iteration of [while(1)]. *)
Definition main_loop_body (s : state) : option state :=
  if pressed s =? 1 then
    s <- (if negb (conversion_allowed s =? 0) then
            g <- set4 (guess s) (data_cnt s) (u8 (adc_nibble s)) ;;
            let s := set_guess g s in
            Some (set_data_cnt (u8 (data_cnt s + 1)) s)
          else Some s) ;;
    s <- (if data_cnt s >? 3 then
            check_password (set_conversion_allowed 0 s)
          else Some s) ;;
    Some (set_pressed 0 s)
  else Some s.

(** [ADC12ISR], entered with the value [iv] read from ADC12IV. *)
Definition ADC12ISR (iv : Z) (s : state) : state :=
  let s :=
    if iv =? 6 then
      if negb (conversion_allowed s =? 0) then
        s |> lcd_command (0x80 + data_cnt s)
          |> lcd_display (adc_nibble s + ASCII_CONV)
      else s
    else s in
  s |> wr_xor LED_PORT BIT5
    |> wr_clr ADC12IFG ADC12IFG0.

Definition Timer_A_CCR0_ISR (s : state) : state :=
  let s := set_seconds (u8 (seconds s + 1)) s in
  let s :=
    if seconds s >? 2 then
      let s := if negb (correct s =? 0) then wr_clr LED_PORT BIT3 s
               else wr_clr LED_PORT BIT4 s in
      s |> wr_clr TA0CCTL0 CCIE
        |> lcd_command 0x01
        |> lcd_begin
        |> set_correct 1
        |> set_seconds 0
        |> wr TA0CCR0 8191
        |> wr_or ADC12CTL0 ADC12ENC
        |> set_conversion_allowed 1
        |> wr_or ADC12IE ADC12IE0
    else s in
  s |> wr_clr TA0CCTL0 CCIFG.

(** ** Status bits *)

(** [is_set m v]: the bit selected by the one-bit mask [m] is 1 in [v]. *)
Definition is_set (m v : Z) : bool := Z.testbit v (Z.log2 m).

Definition timer_irq_enabled (s : state) : bool := is_set CCIE (rd TA0CCTL0 s).
Definition adc_enabled (s : state) : bool := is_set ADC12ENC (rd ADC12CTL0 s).
Definition adc_irq_enabled (s : state) : bool := is_set ADC12IE0 (rd ADC12IE s).
Definition led_right (s : state) : bool := is_set BIT3 (rd LED_PORT s).
Definition led_wrong (s : state) : bool := is_set BIT4 (rd LED_PORT s).
Definition led_alive (s : state) : bool := is_set BIT5 (rd LED_PORT s).

(** ** Reading the display bus

    The driver talks to the display controller in 4-bit mode: the upper
    four port bits carry a nibble, LCD_RS tells data from command, and the
    controller takes the nibble when LCD_EN falls.  [lcd_decode] plays the
    controller's side of that protocol, so that what the program sends can
    be stated as commands and characters instead of port bytes. *)

Inductive lcd_xfer : Type :=
| Cmd (b : Z)      (* LCD_RS low: a command byte *)
| Dat (b : Z).     (* LCD_RS high: a character *)

Fixpoint strobes (prev : Z) (bus : list Z) : list (bool * Z) :=
  match bus with
  | [] => []
  | v :: rest =>
      if is_set LCD_EN prev && negb (is_set LCD_EN v)
      then (is_set LCD_RS v, Z.land v MASK_UPPER) :: strobes v rest
      else strobes v rest
  end.

Fixpoint pair_nibbles (l : list (bool * Z)) : list lcd_xfer :=
  match l with
  | (rs, hi) :: (_, lo) :: rest =>
      (if rs then Dat else Cmd) (Z.lor hi (Z.shiftr lo 4)) :: pair_nibbles rest
  | _ => []
  end.

Definition lcd_decode (bus : list Z) : list lcd_xfer :=
  pair_nibbles (strobes 0 bus).

Fixpoint codes (text : string) : list Z :=
  match text with
  | EmptyString => []
  | String c rest => char_code c :: codes rest
  end.

(** Positioning the cursor and writing a text, as transfers. *)
Definition text_at (pos : Z) (text : string) : list lcd_xfer :=
  Cmd pos :: map Dat (codes text).

(** ** The machine: operations and what triggers them *)

(** What is installed at PORT2_VECTOR, the vector of the P2.4 request. *)
Inductive port2_vector : Type :=
| InputLatch.      (* the Input Latch handler described by the specification *)

(** Modelled from the spec: the Input Latch handler, the ISR of
    PORT2_VECTOR, which main.c enables (P2IE, P2IES) and polls for
    ([pressed]) but which is not in src/main.c.  The spec says it
    "unconditionally sets ConfirmFlag = true". *)
Definition port2_isr (v : port2_vector) (s : state) : state :=
  match v with
  | InputLatch => set_pressed 1 s
  end.

Inductive event : Type :=
| Loop                        (* one iteration of while(1) in main *)
| Conversion (raw iv : Z)     (* the ADC12 completes a conversion *)
| Tick                        (* TA0 reaches TA0CCR0 and requests CCR0 *)
| Edge.                       (* a falling edge on the button pin P2.4 *)

(** One atomic operation.  [None]: the event cannot be delivered in this
    state (its enable bit is clear), or the iteration writes past the end
    of [guess]. *)
Definition step (v : port2_vector) (e : event) (s : state) : option state :=
  match e with
  | Loop => main_loop_body s
  | Conversion raw iv =>
      if adc_enabled s then
        let s := s |> wr ADC12MEM0 (raw mod 4096)
                   |> wr_or ADC12IFG ADC12IFG0 in
        if adc_irq_enabled s then Some (ADC12ISR iv s) else Some s
      else None
  | Tick =>
      if timer_irq_enabled s
      then Some (Timer_A_CCR0_ISR (wr_or TA0CCTL0 CCIFG s))
      else None
  | Edge =>
      if is_set BIT4 (rd BUTTON_EDGE_SEL s) then
        let s := wr_or BUTTON_FLAG BIT4 s in
        if is_set BIT4 (rd BUTTON_INT_EN s) then Some (port2_isr v s)
        else Some s
      else Some s
  end.

Fixpoint run (v : port2_vector) (t : list event) (s : state) : option state :=
  match t with
  | [] => Some s
  | e :: t' => s' <- step v e s ;; run v t' s'
  end.

(** The image of the globals after C start-up, over any register
    contents, and the state in which the main loop is entered. *)
Definition startup (hw : regfile) : state :=
  {| seconds := 0;
     password := Arr4 1 2 3 4;
     guess := Arr4 0 0 0 0;
     data_cnt := 0;
     pressed := 0;
     correct := 1;
     conversion_allowed := 1;
     regs := hw;
     lcd_bus := [];
     cmp_log := [] |}.

Definition boot (hw : regfile) : state := main_init (startup hw).

Inductive reachable (v : port2_vector) : state -> Prop :=
| reach_boot : forall hw, reachable v (boot hw)
| reach_step : forall s e s',
    reachable v s -> step v e s = Some s' -> reachable v s'.

(** ** Vocabulary of the proofs *)

(** Driving a sequence of bytes on the LCD port. *)
Definition lcd_emit (bytes : list Z) (s : state) : state :=
  fold_left (fun s v => lcd_out v s) bytes s.

(** The bytes of one command and of one character. *)
Definition command_bytes (cmd : Z) : list Z :=
  let cmd := u8 cmd in
  [ Z.lor (Z.land cmd MASK_UPPER) LCD_EN;
    Z.land cmd MASK_UPPER;
    Z.lor (Z.land (Z.shiftl cmd 4) MASK_UPPER) LCD_EN;
    Z.land (Z.shiftl cmd 4) MASK_UPPER ].

Definition display_bytes (dat : Z) : list Z :=
  let dat := u8 dat in
  let dat := if (dat >? 0x39) && (dat <? 0x41) then 0x39 else dat in
  [ Z.lor (Z.lor (Z.land dat MASK_UPPER) LCD_EN) LCD_RS;
    Z.lor (Z.land dat MASK_UPPER) LCD_RS;
    Z.lor (Z.lor (Z.land (Z.shiftl dat 4) MASK_UPPER) LCD_EN) LCD_RS;
    Z.lor (Z.land (Z.shiftl dat 4) MASK_UPPER) LCD_RS ].

Fixpoint text_bytes (text : string) : list Z :=
  match text with
  | EmptyString => []
  | String c rest =>
      if char_code c =? 0 then []
      else display_bytes (char_code c) ++ text_bytes rest
  end.

(** The bus traffic of lcd_begin: the all-zero entry screen. *)
Definition begin_bytes : list Z :=
  command_bytes DDRAM
  ++ (display_bytes ASCII_CONV ++ display_bytes ASCII_CONV
      ++ display_bytes ASCII_CONV ++ display_bytes ASCII_CONV)
  ++ (command_bytes 0xC1 ++ text_bytes "Enter PW")
  ++ command_bytes DDRAM.

(** The entry screen as transfers: four zeros on the first line, the
    prompt on the second, cursor back on the first digit. *)
Definition entry_screen : list lcd_xfer :=
  text_at DDRAM "0000" ++ text_at 0xC1 "Enter PW" ++ [Cmd DDRAM].

(** The feedback outcome read off the globals: no feedback is shown while
    [conversion_allowed] is set; otherwise [correct] tells which. *)
Inductive feedback : Type := Idle | Success | Failure.

Definition feedback_state (s : state) : feedback :=
  if negb (conversion_allowed s =? 0) then Idle
  else if negb (correct s =? 0) then Success else Failure.

(** Agreement of two arrays at every index. *)
Definition match_all (g p : arr4) : Prop :=
  forall i, 0 <= i < 4 -> get4 g i = get4 p i.

(** [k] is the first index at which the arrays differ. *)
Definition first_mismatch (g p : arr4) (k : Z) : Prop :=
  0 <= k < 4 /\ get4 g k <> get4 p k /\
  forall j, 0 <= j < k -> get4 g j = get4 p j.

(** The indices [0 .. k]. *)
Definition upto (k : Z) : list Z :=
  map Z.of_nat (seq 0 (S (Z.to_nat k))).

(** The entry phase and the feedback window, as the code keeps them. *)
Definition entry_phase (s : state) : Prop :=
  conversion_allowed s = 1 /\ correct s = 1 /\ seconds s = 0 /\
  timer_irq_enabled s = false /\
  adc_enabled s = true /\ adc_irq_enabled s = true /\
  led_right s = false /\ led_wrong s = false.

Definition feedback_window (s : state) : Prop :=
  conversion_allowed s = 0 /\ data_cnt s = 0 /\
  (correct s = 0 \/ correct s = 1) /\ 0 <= seconds s <= 2 /\
  timer_irq_enabled s = true /\
  adc_enabled s = false /\ adc_irq_enabled s = false /\
  led_right s = (correct s =? 1) /\ led_wrong s = (correct s =? 0).

(** The invariant of the machine between operations. *)
Definition Inv (s : state) : Prop :=
  0 <= data_cnt s <= 3 /\
  (pressed s = 0 \/ pressed s = 1) /\
  is_set BIT4 (rd BUTTON_INT_EN s) = true /\
  is_set BIT4 (rd BUTTON_EDGE_SEL s) = true /\
  (entry_phase s \/ feedback_window s).

(** Number of timer ticks in a trace. *)
Definition ticks (t : list event) : Z :=
  Z.of_nat (length (filter (fun e => match e with Tick => true | _ => false end) t)).

(** What the comparison loop computes: whether all four digits agree, and
    the indices it looked at. *)
Definition check_outcome (g p : arr4) : bool * list Z :=
  if negb (a0 g =? a0 p) then (false, [0])
  else if negb (a1 g =? a1 p) then (false, [0; 1])
  else if negb (a2 g =? a2 p) then (false, [0; 1; 2])
  else if negb (a3 g =? a3 p) then (false, [0; 1; 2; 3])
  else (true, [0; 1; 2; 3]).

Definition check_effect (s : state) : state :=
  let s' :=
    set_cmp_log (cmp_log s ++ snd (check_outcome (guess s) (password s))) s in
  if fst (check_outcome (guess s) (password s)) then s' else set_correct 0 s'.

(** The bus traffic of the two feedback screens. *)
Definition wrong_bytes : list Z :=
  command_bytes 0x01
  ++ (command_bytes 0x85 ++ text_bytes "WRONG")
  ++ (command_bytes 0xC4 ++ text_bytes "PASSWORD").

Definition unlocked_bytes : list Z :=
  command_bytes 0x01 ++ (command_bytes 0x84 ++ text_bytes "UNLOCKED").

(** The registers written on the way into check_password and turn_on_led,
    before the outcome is known. *)
Definition disarm_adc (s : state) : state :=
  s |> wr_clr ADC12CTL0 ADC12ENC
    |> wr_clr ADC12IE ADC12IE0
    |> wr TA0CCR0 0
    |> wr TA0CTL MC__STOP
    |> set_data_cnt 0.

(** The bus traffic of lcd_reset and of lcd_initialization. *)
Definition reset_bytes : list Z :=
  [ MASK_FULL; 0x30 + LCD_EN; 0x30; 0x30 + LCD_EN; 0x30; 0x30 + LCD_EN; 0x30;
    0x20 + LCD_EN; 0x20 ].

Definition init_bytes : list Z :=
  reset_bytes ++ command_bytes MODE_FONT ++ command_bytes CURS_BLINK
  ++ command_bytes SHIFTR ++ command_bytes CLEAR_SCREEN ++ begin_bytes.

(** The globals that only main's loop assigns. *)
Definition same_entry (s s' : state) : Prop :=
  password s' = password s /\ guess s' = guess s /\
  data_cnt s' = data_cnt s /\ pressed s' = pressed s /\
  conversion_allowed s' = conversion_allowed s.

(** What stays fixed while a feedback window is open. *)
Definition window_same (a b : state) : Prop :=
  conversion_allowed b = 0 /\ data_cnt b = 0 /\
  correct b = correct a /\ guess b = guess a /\ password b = password a /\
  lcd_bus b = lcd_bus a /\ cmp_log b = cmp_log a /\
  rd LED_PORT b = rd LED_PORT a /\
  rd ADC12MEM0 b = rd ADC12MEM0 a /\
  rd TA0CCR0 b = rd TA0CCR0 a /\
  timer_irq_enabled b = true.

(** ** Concrete states and runs used as examples *)

(** The call of check_password in scenario B of the specification: the
    secret is 1 2 3 4 and the four digits entered are 1 2 9 4. *)
Definition scenario_B : state :=
  {| seconds := 0; password := Arr4 1 2 3 4; guess := Arr4 1 2 9 4;
     data_cnt := 4; pressed := 1; correct := 1; conversion_allowed := 0;
     regs := fun _ => 0; lcd_bus := []; cmp_log := [] |}.


(** A power-up register image, and the state in which the main loop is
    entered from it. *)
Definition hw0 : regfile := fun _ => 0.

(** Entering one digit: the potentiometer reads [d] in the high nibble,
    the button is pressed, the main loop picks the confirmation up. *)
Definition enter (d : Z) : list event :=
  [Conversion (256 * d) 6; Edge; Loop].

(** Scenarios A and B of the specification as event traces. *)
Definition trace_A : list event := enter 1 ++ enter 2 ++ enter 3 ++ enter 4.
Definition trace_B : list event := enter 1 ++ enter 2 ++ enter 9 ++ enter 4.

(** The state a trace leads to from [boot hw0]. *)
Definition after (v : port2_vector) (t : list event) : state :=
  match run v t (boot hw0) with
  | Some s => s
  | None => boot hw0
  end.

(** The potentiometer reads 13 in the high nibble and the button is
    pressed. *)
Definition press_13 : list event := [Conversion 0x0D00 6; Edge].

(** Scenario D of the specification: two button edges before the main
    loop runs. *)
Definition double_press : list event := [Conversion 0x0500 6; Edge; Edge; Loop].

(** Scenario B up to the fourth press: three digits committed, the fourth
    reading taken and the button pressed, the loop not yet run. *)
Definition fourth_press : list event :=
  enter 1 ++ enter 2 ++ enter 9 ++ [Conversion (256 * 4) 6; Edge].


(** ** Vocabulary of the further properties *)

(** The character lcd_display drives for the byte [dat], after its
    [if(dat>0x39 && dat<0x41) dat = 0x39;]. *)
Definition shown (dat : Z) : Z :=
  if (dat >? 0x39) && (dat <? 0x41) then 0x39 else dat.

(** The characters the loop of lcd_text walks over: those before the
    first NUL. *)
Fixpoint c_chars (text : string) : list Z :=
  match text with
  | EmptyString => []
  | String c rest =>
      if char_code c =? 0 then [] else char_code c :: c_chars rest
  end.

(** A bus on which no transfer is half sent: the nibbles strobed so far
    pair up and LCD_EN is low. *)
Definition settled (bus : list Z) : Prop :=
  Nat.even (length (strobes 0 bus)) = true /\
  is_set LCD_EN (last bus 0) = false.

(** [s'] differs from [s] at most in the LCD port registers and the bus,
    and LCD_EN is low in it. *)
Definition lcd_only (s s' : state) : Prop :=
  seconds s' = seconds s /\ password s' = password s /\
  guess s' = guess s /\ data_cnt s' = data_cnt s /\
  pressed s' = pressed s /\ correct s' = correct s /\
  conversion_allowed s' = conversion_allowed s /\
  cmp_log s' = cmp_log s /\
  (forall r, r <> LCD_PORT -> r <> LCD_PORT_DIR -> rd r s' = rd r s) /\
  is_set LCD_EN (rd LCD_PORT s') = false.

(** Conversions completing one after the other, each entering the ISR
    with ADC12IV = 6. *)
Definition readings (raws : list Z) : list event :=
  map (fun raw => Conversion raw 6) raws.

(** What the display receives for one reading while the digit at column
    [col] is being dialled. *)
Definition echo (col raw : Z) : list lcd_xfer :=
  [Cmd (0x80 + col); Dat (0x30 + Z.min (raw mod 4096 / 256) 9)].

(** The entry state reached after scenario B and the three ticks of its
    feedback window. *)
Definition second_attempt : list event := trace_B ++ [Tick; Tick; Tick].
(** * Lemmas *)

(** ** Bits *)

Lemma is_set_lor_hit m v m' :
  is_set m m' = true -> is_set m (Z.lor v m') = true.
Proof. unfold is_set. intros H. now rewrite Z.lor_spec, H, orb_true_r. Qed.

Lemma is_set_lor_miss m v m' :
  is_set m m' = false -> is_set m (Z.lor v m') = is_set m v.
Proof. unfold is_set. intros H. now rewrite Z.lor_spec, H, orb_false_r. Qed.

Lemma is_set_clr_hit m v m' :
  is_set m m' = true -> is_set m (clr v m') = false.
Proof.
  unfold is_set, clr. intros H.
  rewrite Z.land_spec, Z.lnot_spec, H by apply Z.log2_nonneg.
  apply andb_false_r.
Qed.

Lemma is_set_clr_miss m v m' :
  is_set m m' = false -> is_set m (clr v m') = is_set m v.
Proof.
  unfold is_set, clr. intros H.
  rewrite Z.land_spec, Z.lnot_spec, H by apply Z.log2_nonneg.
  apply andb_true_r.
Qed.

Lemma is_set_lxor_hit m v m' :
  is_set m m' = true -> is_set m (Z.lxor v m') = negb (is_set m v).
Proof.
  unfold is_set. intros H. rewrite Z.lxor_spec, H.
  now destruct (Z.testbit v _).
Qed.

Lemma is_set_lxor_miss m v m' :
  is_set m m' = false -> is_set m (Z.lxor v m') = is_set m v.
Proof.
  unfold is_set. intros H. rewrite Z.lxor_spec, H.
  now destruct (Z.testbit v _).
Qed.

Create Rewrite HintDb bits.
#[export] Hint Rewrite is_set_lor_hit is_set_lor_miss is_set_clr_hit
  is_set_clr_miss is_set_lxor_hit is_set_lxor_miss using reflexivity : bits.

Lemma u8_small v : 0 <= v < 256 -> u8 v = v.
Proof. intros H. unfold u8. now apply Z.mod_small. Qed.

(** ** The display driver only drives the LCD port *)

Lemma lcd_emit_app b1 b2 s :
  lcd_emit b2 (lcd_emit b1 s) = lcd_emit (b1 ++ b2) s.
Proof. unfold lcd_emit. now rewrite fold_left_app. Qed.

Lemma lcd_command_emit cmd s :
  lcd_command cmd s = lcd_emit (command_bytes cmd) s.
Proof. reflexivity. Qed.

Lemma lcd_display_emit dat s :
  lcd_display dat s = lcd_emit (display_bytes dat) s.
Proof. reflexivity. Qed.

Lemma lcd_text_loop_emit text :
  forall s, lcd_text_loop text s = lcd_emit (text_bytes text) s.
Proof.
  induction text as [|c rest IH]; intros s; simpl.
  - reflexivity.
  - destruct (char_code c =? 0); [reflexivity|].
    now rewrite IH, lcd_display_emit, lcd_emit_app.
Qed.

Lemma lcd_text_emit text pos s :
  lcd_text text pos s = lcd_emit (command_bytes pos ++ text_bytes text) s.
Proof.
  unfold lcd_text.
  now rewrite lcd_text_loop_emit, lcd_command_emit, lcd_emit_app.
Qed.

Lemma lcd_begin_loop_emit i s :
  lcd_begin_loop i s =
  lcd_emit (concat (repeat (display_bytes ASCII_CONV) (iterations_left i))) s.
Proof.
  funelim (lcd_begin_loop i s).
  - rewrite H, lcd_display_emit, lcd_emit_app.
    replace (iterations_left i) with (S (iterations_left (i + 1)))
      by (unfold iterations_left; lia).
    reflexivity.
  - replace (iterations_left i) with O by (unfold iterations_left; lia).
    reflexivity.
Qed.

Lemma lcd_begin_emit s : lcd_begin s = lcd_emit begin_bytes s.
Proof.
  unfold lcd_begin.
  rewrite lcd_text_emit, lcd_begin_loop_emit, !lcd_command_emit, !lcd_emit_app.
  reflexivity.
Qed.

Lemma lcd_out_regs v s r :
  reg_eqb LCD_PORT r = false -> regs (lcd_out v s) r = regs s r.
Proof.
  intros H. unfold lcd_out, wr, upd. cbn [regs set_lcd_bus set_regs].
  now rewrite H.
Qed.

Lemma lcd_emit_frame b : forall s,
  seconds (lcd_emit b s) = seconds s /\
  password (lcd_emit b s) = password s /\
  guess (lcd_emit b s) = guess s /\
  data_cnt (lcd_emit b s) = data_cnt s /\
  pressed (lcd_emit b s) = pressed s /\
  correct (lcd_emit b s) = correct s /\
  conversion_allowed (lcd_emit b s) = conversion_allowed s /\
  cmp_log (lcd_emit b s) = cmp_log s /\
  lcd_bus (lcd_emit b s) = lcd_bus s ++ b /\
  forall r, reg_eqb LCD_PORT r = false -> regs (lcd_emit b s) r = regs s r.
Proof.
  unfold lcd_emit. induction b as [|v l IH]; intros s; cbn [fold_left].
  - rewrite app_nil_r. repeat split; reflexivity.
  - destruct (IH (lcd_out v s))
      as (H1 & H2 & H3 & H4 & H5 & H6 & H7 & H8 & H9 & H10).
    rewrite H1, H2, H3, H4, H5, H6, H7, H8, H9.
    repeat split; try reflexivity.
    + cbn [lcd_out lcd_bus set_lcd_bus]. now rewrite <- app_assoc.
    + intros r Hr. rewrite H10 by exact Hr. now apply lcd_out_regs.
Qed.

Section EmitProjections.
Variables (b : list Z) (s : state).

Lemma seconds_emit : seconds (lcd_emit b s) = seconds s.
Proof. apply lcd_emit_frame. Qed.
Lemma password_emit : password (lcd_emit b s) = password s.
Proof. apply lcd_emit_frame. Qed.
Lemma guess_emit : guess (lcd_emit b s) = guess s.
Proof. apply lcd_emit_frame. Qed.
Lemma data_cnt_emit : data_cnt (lcd_emit b s) = data_cnt s.
Proof. apply lcd_emit_frame. Qed.
Lemma pressed_emit : pressed (lcd_emit b s) = pressed s.
Proof. apply lcd_emit_frame. Qed.
Lemma correct_emit : correct (lcd_emit b s) = correct s.
Proof. apply lcd_emit_frame. Qed.
Lemma conversion_allowed_emit :
  conversion_allowed (lcd_emit b s) = conversion_allowed s.
Proof. apply lcd_emit_frame. Qed.
Lemma cmp_log_emit : cmp_log (lcd_emit b s) = cmp_log s.
Proof. apply lcd_emit_frame. Qed.
Lemma lcd_bus_emit : lcd_bus (lcd_emit b s) = lcd_bus s ++ b.
Proof. apply lcd_emit_frame. Qed.
Lemma regs_emit r :
  reg_eqb LCD_PORT r = false -> regs (lcd_emit b s) r = regs s r.
Proof. apply lcd_emit_frame. Qed.

End EmitProjections.

Create Rewrite HintDb sem.
#[export] Hint Rewrite seconds_emit password_emit guess_emit data_cnt_emit
  pressed_emit correct_emit conversion_allowed_emit cmp_log_emit
  lcd_bus_emit : sem.
#[export] Hint Rewrite regs_emit using reflexivity : sem.

(** Rewrite the driver calls of the goal into [lcd_emit]. *)
Ltac lcd_norm :=
  repeat match goal with
    | |- context [lcd_begin ?s] => rewrite (lcd_begin_emit s)
    | |- context [lcd_text ?t ?p ?s] => rewrite (lcd_text_emit t p s)
    | |- context [lcd_command ?c ?s] => rewrite (lcd_command_emit c s)
    | |- context [lcd_display ?d ?s] => rewrite (lcd_display_emit d s)
    end.

(** Push field and register reads through assignments. *)
Ltac fields :=
  cbn [seconds password guess data_cnt pressed correct conversion_allowed regs
       lcd_bus cmp_log set_seconds set_guess set_data_cnt set_pressed
       set_correct set_conversion_allowed set_regs set_lcd_bus set_cmp_log
       rd wr wr_or wr_clr wr_xor upd reg_eqb __delay_cycles
       LED_PORT LED_PORT_DIR BUTTON_PORT_DIR BUTTON_INT_EN BUTTON_FLAG
       BUTTON_EDGE_SEL LCD_PORT LCD_PORT_DIR startup].

Ltac fields_in H :=
  cbn [seconds password guess data_cnt pressed correct conversion_allowed regs
       lcd_bus cmp_log set_seconds set_guess set_data_cnt set_pressed
       set_correct set_conversion_allowed set_regs set_lcd_bus set_cmp_log
       rd wr wr_or wr_clr wr_xor upd reg_eqb startup] in H.

(** Forget which bytes are sent: the frame lemmas hold for any. *)
Ltac abstract_bytes :=
  repeat match goal with
    | |- context [lcd_emit ?b _] =>
        tryif is_var b then fail else (generalize b; intro)
    end.

Ltac sem :=
  unfold timer_irq_enabled, adc_enabled, adc_irq_enabled, led_right,
    led_wrong, led_alive, feedback_state, rd, LED_PORT, LED_PORT_DIR,
    BUTTON_PORT_DIR, BUTTON_INT_EN, BUTTON_FLAG, BUTTON_EDGE_SEL, LCD_PORT_DIR;
  lcd_norm; abstract_bytes; fields;
  repeat (progress (autorewrite with sem bits; unfold rd; fields)).

(** ** The comparison loop of check_password *)

Lemma check_loop_step i s (H : i < 4) :
  check_loop i s =
  g <- get4 (guess s) i ;;
  p <- get4 (password s) i ;;
  let s := set_cmp_log (cmp_log s ++ [i]) s in
  if negb (g =? p) then Some (set_correct 0 s) else check_loop (i + 1) s.
Proof.
  simp check_loop. destruct (Z_lt_dec i 4) as [?|?]; [reflexivity|lia].
Qed.

Lemma check_loop_exit i s (H : ~ i < 4) : check_loop i s = Some s.
Proof.
  simp check_loop. destruct (Z_lt_dec i 4) as [?|?]; [lia|reflexivity].
Qed.

Lemma check_loop_run s : check_loop 0 s = Some (check_effect s).
Proof.
  destruct s as [sec pw g dc pr co ca rg bus cl].
  destruct pw as [p0 p1 p2 p3], g as [g0 g1 g2 g3].
  unfold check_effect, check_outcome.
  rewrite check_loop_step by lia; cbn.
  destruct (g0 =? p0); cbn; [|reflexivity].
  rewrite check_loop_step by lia; cbn; rewrite <- app_assoc; cbn.
  destruct (g1 =? p1); cbn; [|reflexivity].
  rewrite check_loop_step by lia; cbn; rewrite <- app_assoc; cbn.
  destruct (g2 =? p2); cbn; [|reflexivity].
  rewrite check_loop_step by lia; cbn; rewrite <- app_assoc; cbn.
  destruct (g3 =? p3); cbn; [|reflexivity].
  now rewrite check_loop_exit by lia.
Qed.

Lemma arr4_eq_iff g p : match_all g p <-> g = p.
Proof.
  split.
  - intros H. destruct g as [g0 g1 g2 g3], p as [p0 p1 p2 p3].
    pose proof (H 0 ltac:(lia)) as H0. pose proof (H 1 ltac:(lia)) as H1.
    pose proof (H 2 ltac:(lia)) as H2. pose proof (H 3 ltac:(lia)) as H3.
    cbn in *. congruence.
  - intros -> i _. reflexivity.
Qed.

Lemma check_outcome_match g p :
  match_all g p -> check_outcome g p = (true, [0; 1; 2; 3]).
Proof.
  intros H. apply arr4_eq_iff in H. subst p. unfold check_outcome.
  now rewrite !Z.eqb_refl.
Qed.

Lemma check_outcome_mismatch g p k :
  first_mismatch g p k -> check_outcome g p = (false, upto k).
Proof.
  intros (Hk & Hne & Hlt). unfold check_outcome.
  destruct g as [g0 g1 g2 g3], p as [p0 p1 p2 p3]. cbn [a0 a1 a2 a3].
  assert (k = 0 \/ k = 1 \/ k = 2 \/ k = 3) as [-> | [-> | [-> | ->]]] by lia.
  - cbn in Hne. destruct (Z.eqb_spec g0 p0); [congruence|reflexivity].
  - pose proof (Hlt 0 ltac:(lia)) as H0. cbn in Hne, H0.
    injection H0 as ->. rewrite Z.eqb_refl.
    destruct (Z.eqb_spec g1 p1); [congruence|reflexivity].
  - pose proof (Hlt 0 ltac:(lia)) as H0. pose proof (Hlt 1 ltac:(lia)) as H1.
    cbn in Hne, H0, H1. injection H0 as ->. injection H1 as ->.
    rewrite !Z.eqb_refl.
    destruct (Z.eqb_spec g2 p2); [congruence|reflexivity].
  - pose proof (Hlt 0 ltac:(lia)) as H0. pose proof (Hlt 1 ltac:(lia)) as H1.
    pose proof (Hlt 2 ltac:(lia)) as H2.
    cbn in Hne, H0, H1, H2. injection H0 as ->. injection H1 as ->.
    injection H2 as ->. rewrite !Z.eqb_refl.
    destruct (Z.eqb_spec g3 p3); [congruence|reflexivity].
Qed.

(** Either all digits agree or there is a first mismatch. *)
Lemma match_or_mismatch g p :
  match_all g p \/ exists k, first_mismatch g p k.
Proof.
  destruct g as [g0 g1 g2 g3], p as [p0 p1 p2 p3].
  destruct (Z.eq_dec g0 p0) as [-> | N0].
  2:{ right. exists 0. repeat split; try lia. cbn. congruence. }
  destruct (Z.eq_dec g1 p1) as [-> | N1].
  2:{ right. exists 1. repeat split; try lia. cbn. congruence.
      intros j Hj. assert (j = 0) as -> by lia. reflexivity. }
  destruct (Z.eq_dec g2 p2) as [-> | N2].
  2:{ right. exists 2. repeat split; try lia. cbn. congruence.
      intros j Hj. assert (j = 0 \/ j = 1) as [-> | ->] by lia; reflexivity. }
  destruct (Z.eq_dec g3 p3) as [-> | N3].
  2:{ right. exists 3. repeat split; try lia. cbn. congruence.
      intros j Hj. assert (j = 0 \/ j = 1 \/ j = 2) as [->|[-> | ->]] by lia; reflexivity. }
  left. intros i _. reflexivity.
Qed.

(** ** Straight-line forms of the operations *)

Lemma turn_on_led_wrong s :
  correct s = 0 ->
  turn_on_led s =
  s |> wr TA0CTL (Z.lor TASSEL__ACLK MC__UP)
    |> lcd_emit wrong_bytes
    |> wr TA0CCR0 ONE_SECOND
    |> wr_or TA0CCTL0 CCIE
    |> wr_or LED_PORT BIT4.
Proof.
  intros H. unfold turn_on_led, __delay_cycles. fields. rewrite H.
  cbn [Z.eqb]. cbv iota.
  lcd_norm. rewrite !lcd_emit_app. reflexivity.
Qed.

Lemma turn_on_led_right s :
  correct s = 1 ->
  turn_on_led s =
  s |> wr TA0CTL (Z.lor TASSEL__ACLK MC__UP)
    |> lcd_emit unlocked_bytes
    |> wr TA0CCR0 ONE_SECOND
    |> wr_or TA0CCTL0 CCIE
    |> wr_or LED_PORT BIT3.
Proof.
  intros H. unfold turn_on_led. fields. rewrite H. cbn [Z.eqb Pos.eqb]. cbv iota.
  lcd_norm. rewrite !lcd_emit_app. reflexivity.
Qed.

Lemma check_password_run s :
  check_password s = Some (turn_on_led (check_effect (disarm_adc s))).
Proof.
  unfold check_password. fold (disarm_adc s). now rewrite check_loop_run.
Qed.

Lemma timer_counting s :
  0 <= seconds s < 2 ->
  Timer_A_CCR0_ISR s =
  s |> set_seconds (seconds s + 1) |> wr_clr TA0CCTL0 CCIFG.
Proof.
  intros H. unfold Timer_A_CCR0_ISR. fields.
  rewrite u8_small by lia.
  destruct (Z.gtb_spec (seconds s + 1) 2); [lia|reflexivity].
Qed.

Lemma timer_restart s :
  seconds s = 2 ->
  Timer_A_CCR0_ISR s =
  s |> set_seconds 3
    |> wr_clr LED_PORT (if negb (correct s =? 0) then BIT3 else BIT4)
    |> wr_clr TA0CCTL0 CCIE
    |> lcd_emit (command_bytes 0x01 ++ begin_bytes)
    |> set_correct 1
    |> set_seconds 0
    |> wr TA0CCR0 8191
    |> wr_or ADC12CTL0 ADC12ENC
    |> set_conversion_allowed 1
    |> wr_or ADC12IE ADC12IE0
    |> wr_clr TA0CCTL0 CCIFG.
Proof.
  intros H. unfold Timer_A_CCR0_ISR. fields. rewrite H.
  change (u8 (2 + 1)) with 3. change (3 >? 2) with true. cbv iota.
  lcd_norm. rewrite lcd_emit_app.
  destruct (negb (correct s =? 0)); reflexivity.
Qed.

Lemma adc_isr_echo iv s :
  iv = 6 -> conversion_allowed s <> 0 ->
  ADC12ISR iv s =
  s |> lcd_emit (command_bytes (0x80 + data_cnt s)
                 ++ display_bytes (adc_nibble s + ASCII_CONV))
    |> wr_xor LED_PORT BIT5
    |> wr_clr ADC12IFG ADC12IFG0.
Proof.
  intros -> H. unfold ADC12ISR. cbn [Z.eqb Pos.eqb]. cbv iota.
  destruct (Z.eqb_spec (conversion_allowed s) 0); [contradiction|].
  cbn [negb]. lcd_norm. now rewrite lcd_emit_app.
Qed.

Lemma adc_isr_quiet iv s :
  iv <> 6 \/ conversion_allowed s = 0 ->
  ADC12ISR iv s = s |> wr_xor LED_PORT BIT5 |> wr_clr ADC12IFG ADC12IFG0.
Proof.
  intros H. unfold ADC12ISR.
  destruct (Z.eqb_spec iv 6); [|reflexivity].
  destruct H as [H|H]; [contradiction|]. now rewrite H.
Qed.

Lemma adc_nibble_range s : 0 <= adc_nibble s < 16.
Proof.
  unfold adc_nibble. change 0x0F with (Z.ones 4).
  rewrite Z.land_ones by lia. apply Z.mod_pos_bound. lia.
Qed.

Lemma loop_idle s : pressed s <> 1 -> main_loop_body s = Some s.
Proof.
  intros H. unfold main_loop_body.
  destruct (Z.eqb_spec (pressed s) 1); [contradiction|reflexivity].
Qed.

Lemma loop_discard s :
  pressed s = 1 -> conversion_allowed s = 0 -> data_cnt s <= 3 ->
  main_loop_body s = Some (set_pressed 0 s).
Proof.
  intros Hp Hc Hd. unfold main_loop_body. rewrite Hp, Hc. cbn [Z.eqb Pos.eqb negb bind].
  destruct (Z.gtb_spec (data_cnt s) 3); [lia|reflexivity].
Qed.

Lemma set4_in_range a i v :
  0 <= i < 4 -> exists a', set4 a i v = Some a' /\
    get4 a' i = Some v /\
    forall j, j <> i -> get4 a' j = get4 a j.
Proof.
  intros H. assert (i = 0 \/ i = 1 \/ i = 2 \/ i = 3) as [-> | [-> | [-> | ->]]] by lia;
  (eexists; split; [reflexivity|]; split; [reflexivity|]);
  intros j Hj; unfold get4; cbn [a0 a1 a2 a3];
  repeat match goal with |- context [j =? ?c] => destruct (Z.eqb_spec j c); try lia end;
  reflexivity.
Qed.

Lemma loop_accept s :
  pressed s = 1 -> conversion_allowed s <> 0 -> 0 <= data_cnt s < 3 ->
  exists g, set4 (guess s) (data_cnt s) (adc_nibble s) = Some g /\
    main_loop_body s =
    Some (s |> set_guess g |> set_data_cnt (data_cnt s + 1) |> set_pressed 0).
Proof.
  intros Hp Hc Hd. unfold main_loop_body. rewrite Hp. cbn [Z.eqb Pos.eqb].
  destruct (Z.eqb_spec (conversion_allowed s) 0); [contradiction|]. cbn [negb].
  rewrite (u8_small (adc_nibble s)) by (pose proof (adc_nibble_range s); lia).
  destruct (set4_in_range (guess s) (data_cnt s) (adc_nibble s)) as (g & Hg & _); [lia|].
  exists g. split; [exact Hg|]. rewrite Hg. cbn [bind]. fields.
  rewrite u8_small by lia.
  destruct (Z.gtb_spec (data_cnt s + 1) 3); [lia|reflexivity].
Qed.

Lemma loop_validate s :
  pressed s = 1 -> conversion_allowed s <> 0 -> data_cnt s = 3 ->
  main_loop_body s =
  Some (s |> set_guess (Arr4 (a0 (guess s)) (a1 (guess s)) (a2 (guess s))
                             (adc_nibble s))
          |> set_data_cnt 4
          |> set_conversion_allowed 0
          |> disarm_adc |> check_effect |> turn_on_led
          |> set_pressed 0).
Proof.
  intros Hp Hc Hd. unfold main_loop_body. rewrite Hp, Hd. cbn [Z.eqb Pos.eqb].
  destruct (Z.eqb_spec (conversion_allowed s) 0); [contradiction|]. cbn [negb].
  rewrite (u8_small (adc_nibble s)) by (pose proof (adc_nibble_range s); lia).
  cbn [set4 Z.eqb Pos.eqb bind]. fields. rewrite Hd.
  change (u8 (3 + 1)) with 4. change (4 >? 3) with true. cbv iota.
  now rewrite check_password_run.
Qed.

(** ** Initialisation *)

Lemma lcd_reset_emit s :
  lcd_reset s = lcd_emit reset_bytes (wr LCD_PORT_DIR MASK_FULL s).
Proof. reflexivity. Qed.

Lemma lcd_initialization_emit s :
  lcd_initialization s = lcd_emit init_bytes (wr LCD_PORT_DIR MASK_FULL s).
Proof.
  unfold lcd_initialization. rewrite lcd_reset_emit. lcd_norm.
  now rewrite !lcd_emit_app.
Qed.

(** ** The invariant *)

Ltac splits := repeat match goal with |- _ /\ _ => split end.

Lemma boot_inv hw : Inv (boot hw).
Proof.
  unfold boot, main_init. rewrite lcd_initialization_emit.
  unfold Inv, entry_phase.
  splits; try (left; splits).
  all: sem.
  all: try reflexivity; try lia.
Qed.

Ltac raw_status :=
  unfold entry_phase, feedback_window, timer_irq_enabled, adc_enabled,
    adc_irq_enabled, led_right, led_wrong, led_alive, rd, BUTTON_INT_EN,
    BUTTON_EDGE_SEL, LED_PORT in *.

Ltac close :=
  first [ assumption | lia
        | match goal with |- _ = _ => first [reflexivity | congruence] end ].
Ltac finish := first [ close | left; close | right; close ].

(** Split an [Inv] goal for a state in the entry phase, or in the window. *)
Ltac inv_entry :=
  unfold Inv, entry_phase; split; [|split; [|split; [|split; [|left; splits]]]].
Ltac inv_window :=
  unfold Inv, feedback_window; split; [|split; [|split; [|split; [|right; splits]]]].


Lemma inv_loop s s' : Inv s -> main_loop_body s = Some s' -> Inv s'.
Proof.
  intros (Hdc & Hpr & Hie & Hies & Hph) Hstep.
  destruct Hpr as [Hpr|Hpr].
  { rewrite loop_idle in Hstep by lia. injection Hstep as <-.
    unfold Inv. auto. }
  raw_status. destruct Hph as [Hph|Hph].
  - destruct Hph as (Hca & Hco & Hsec & Hti & Hae & Hai & Hlr & Hlw).
    assert (data_cnt s < 3 \/ data_cnt s = 3) as [Hlt|Heq] by lia.
    + destruct (loop_accept s) as (g & _ & Hrun); try lia.
      rewrite Hrun in Hstep. injection Hstep as <-.
      inv_entry; sem; finish.
    + rewrite loop_validate in Hstep by lia. injection Hstep as <-.
      unfold check_effect.
      destruct (check_outcome _ _) as [[|] log]; cbn [fst snd].
      * rewrite turn_on_led_right by (unfold disarm_adc; sem; finish).
        unfold disarm_adc. inv_window; sem; rewrite ?Hco; finish.
      * rewrite turn_on_led_wrong by (unfold disarm_adc; sem; finish).
        unfold disarm_adc. inv_window; sem; finish.
  - destruct Hph as (Hca & Hd0 & Hco & Hsec & Hti & Hae & Hai & Hlr & Hlw).
    rewrite loop_discard in Hstep by lia. injection Hstep as <-.
    inv_window; sem; finish.
Qed.

Lemma inv_tick v s s' :
  Inv s -> step v Tick s = Some s' -> Inv s'.
Proof.
  intros (Hdc & Hpr & Hie & Hies & Hph) Hstep.
  cbn [step] in Hstep. raw_status.
  destruct Hph as [Hph|Hph].
  - destruct Hph as (Hca & Hco & Hsec & Hti & Hae & Hai & Hlr & Hlw).
    rewrite Hti in Hstep. discriminate.
  - destruct Hph as (Hca & Hd0 & Hco & Hsec & Hti & Hae & Hai & Hlr & Hlw).
    rewrite Hti in Hstep. injection Hstep as <-.
    assert (seconds s < 2 \/ seconds s = 2) as [Hlt|Heq] by lia.
    + rewrite timer_counting by (sem; lia).
      inv_window; sem; finish.
    + rewrite timer_restart by (sem; lia).
      inv_entry; sem; try finish.
      all: destruct Hco as [Hco|Hco]; rewrite Hco in *;
        cbn [Z.eqb Pos.eqb negb] in *; autorewrite with bits; finish.
Qed.

Lemma inv_conversion v raw iv s s' :
  Inv s -> step v (Conversion raw iv) s = Some s' -> Inv s'.
Proof.
  intros (Hdc & Hpr & Hie & Hies & Hph) Hstep.
  cbn [step] in Hstep. raw_status.
  destruct Hph as [Hph|Hph].
  - destruct Hph as (Hca & Hco & Hsec & Hti & Hae & Hai & Hlr & Hlw).
    rewrite Hae in Hstep.
    replace (is_set ADC12IE0 (regs (wr_or ADC12IFG ADC12IFG0 (wr ADC12MEM0 (raw mod 4096) s)) ADC12IE))
      with true in Hstep by (sem; congruence).
    injection Hstep as <-.
    assert (ADC12ISR iv (wr_or ADC12IFG ADC12IFG0 (wr ADC12MEM0 (raw mod 4096) s)) =
            wr_clr ADC12IFG ADC12IFG0 (wr_xor LED_PORT BIT5 (wr_or ADC12IFG ADC12IFG0 (wr ADC12MEM0 (raw mod 4096) s)))
            \/ exists b, ADC12ISR iv (wr_or ADC12IFG ADC12IFG0 (wr ADC12MEM0 (raw mod 4096) s)) =
            wr_clr ADC12IFG ADC12IFG0 (wr_xor LED_PORT BIT5 (lcd_emit b (wr_or ADC12IFG ADC12IFG0 (wr ADC12MEM0 (raw mod 4096) s))))) as [->|[b ->]].
    { destruct (Z.eq_dec iv 6) as [E|E].
      - right. eexists. apply adc_isr_echo; [exact E|]. sem. lia.
      - left. apply adc_isr_quiet. now left. }
    + inv_entry; sem; finish.
    + inv_entry; sem; finish.
  - destruct Hph as (Hca & Hd0 & Hco & Hsec & Hti & Hae & Hai & Hlr & Hlw).
    rewrite Hae in Hstep. discriminate.
Qed.

Lemma inv_edge v s s' :
  Inv s -> step v Edge s = Some s' -> Inv s'.
Proof.
  intros (Hdc & Hpr & Hie & Hies & Hph) Hstep.
  cbn [step] in Hstep. raw_status. rewrite Hies in Hstep.
  replace (is_set BIT4 (regs (wr_or BUTTON_FLAG BIT4 s) P2IE)) with true in Hstep
    by (sem; congruence).
  injection Hstep as <-.
  destruct Hph as [Hph|Hph].
  - destruct Hph as (Hca & Hco & Hsec & Hti & Hae & Hai & Hlr & Hlw).
    destruct v; cbn [port2_isr]; inv_entry; sem; finish.
  - destruct Hph as (Hca & Hd0 & Hco & Hsec & Hti & Hae & Hai & Hlr & Hlw).
    destruct v; cbn [port2_isr]; inv_window; sem; finish.
Qed.

Lemma step_inv v e s s' : Inv s -> step v e s = Some s' -> Inv s'.
Proof.
  destruct e.
  - apply inv_loop.
  - apply inv_conversion.
  - apply inv_tick.
  - apply inv_edge.
Qed.

Lemma reachable_inv v s : reachable v s -> Inv s.
Proof.
  induction 1 as [hw|s e s' _ IH Hstep].
  - apply boot_inv.
  - exact (step_inv v e s s' IH Hstep).
Qed.


(** ** Frames: what each function leaves alone *)

Lemma turn_on_led_frame s :
  same_entry s (turn_on_led s) /\
  seconds (turn_on_led s) = seconds s /\
  correct (turn_on_led s) = correct s /\
  cmp_log (turn_on_led s) = cmp_log s.
Proof.
  unfold same_entry, turn_on_led, __delay_cycles. fields.
  destruct (correct s =? 0); [|destruct (correct s =? 1)];
    splits; sem; reflexivity.
Qed.

Lemma check_effect_frame s :
  same_entry s (check_effect s) /\
  seconds (check_effect s) = seconds s /\
  regs (check_effect s) = regs s /\
  lcd_bus (check_effect s) = lcd_bus s.
Proof.
  unfold same_entry, check_effect.
  destruct (fst (check_outcome (guess s) (password s))); splits; reflexivity.
Qed.

Lemma check_effect_correct s :
  correct (check_effect s) =
  if fst (check_outcome (guess s) (password s)) then correct s else 0.
Proof.
  unfold check_effect.
  destruct (fst (check_outcome (guess s) (password s))); reflexivity.
Qed.

Lemma check_effect_cmp_log s :
  cmp_log (check_effect s) =
  cmp_log s ++ snd (check_outcome (guess s) (password s)).
Proof.
  unfold check_effect.
  destruct (fst (check_outcome (guess s) (password s))); reflexivity.
Qed.

(** check_password leaves the entry globals alone except for [data_cnt],
    which it zeroes; it never touches [seconds]; and it can only clear
    [correct]. *)
Lemma check_password_frame s s' :
  check_password s = Some s' ->
  password s' = password s /\ guess s' = guess s /\ data_cnt s' = 0 /\
  pressed s' = pressed s /\ conversion_allowed s' = conversion_allowed s /\
  seconds s' = seconds s /\
  correct s' =
    (if fst (check_outcome (guess s) (password s)) then correct s else 0) /\
  cmp_log s' = cmp_log s ++ snd (check_outcome (guess s) (password s)).
Proof.
  rewrite check_password_run. intros [= <-].
  destruct (turn_on_led_frame (check_effect (disarm_adc s)))
    as ((T1 & T2 & T3 & T4 & T5) & T6 & T7 & T8).
  destruct (check_effect_frame (disarm_adc s))
    as ((E1 & E2 & E3 & E4 & E5) & E6 & _).
  rewrite T1, T2, T3, T4, T5, T6, T7, T8, E1, E2, E3, E4, E5, E6,
    check_effect_correct, check_effect_cmp_log.
  unfold disarm_adc. splits; reflexivity.
Qed.

Lemma ADC12ISR_frame iv s :
  same_entry s (ADC12ISR iv s) /\
  seconds (ADC12ISR iv s) = seconds s /\
  correct (ADC12ISR iv s) = correct s /\
  cmp_log (ADC12ISR iv s) = cmp_log s.
Proof.
  unfold same_entry, ADC12ISR.
  destruct (iv =? 6); [destruct (negb (conversion_allowed s =? 0))|];
    splits; sem; reflexivity.
Qed.

(** The timer ISR in general: it counts, and past 2 it restarts entry. *)
Lemma timer_below s :
  u8 (seconds s + 1) <= 2 ->
  Timer_A_CCR0_ISR s =
  s |> set_seconds (u8 (seconds s + 1)) |> wr_clr TA0CCTL0 CCIFG.
Proof.
  intros H. unfold Timer_A_CCR0_ISR. fields.
  destruct (Z.gtb_spec (u8 (seconds s + 1)) 2); [lia|reflexivity].
Qed.

Lemma timer_above s :
  u8 (seconds s + 1) > 2 ->
  Timer_A_CCR0_ISR s =
  s |> set_seconds (u8 (seconds s + 1))
    |> wr_clr LED_PORT (if negb (correct s =? 0) then BIT3 else BIT4)
    |> wr_clr TA0CCTL0 CCIE
    |> lcd_emit (command_bytes 0x01 ++ begin_bytes)
    |> set_correct 1
    |> set_seconds 0
    |> wr TA0CCR0 8191
    |> wr_or ADC12CTL0 ADC12ENC
    |> set_conversion_allowed 1
    |> wr_or ADC12IE ADC12IE0
    |> wr_clr TA0CCTL0 CCIFG.
Proof.
  intros H. unfold Timer_A_CCR0_ISR. fields.
  destruct (Z.gtb_spec (u8 (seconds s + 1)) 2); [|lia].
  lcd_norm. rewrite lcd_emit_app.
  destruct (negb (correct s =? 0)); reflexivity.
Qed.

Lemma Timer_frame s :
  password (Timer_A_CCR0_ISR s) = password s /\
  guess (Timer_A_CCR0_ISR s) = guess s /\
  data_cnt (Timer_A_CCR0_ISR s) = data_cnt s /\
  pressed (Timer_A_CCR0_ISR s) = pressed s /\
  cmp_log (Timer_A_CCR0_ISR s) = cmp_log s.
Proof.
  destruct (Z_le_gt_dec (u8 (seconds s + 1)) 2) as [H|H].
  - rewrite timer_below by exact H. splits; reflexivity.
  - rewrite timer_above by exact H. splits; sem; reflexivity.
Qed.

(** ** Facts used by the claims *)

Lemma upto_length k : 0 <= k -> Z.of_nat (length (upto k)) = k + 1.
Proof.
  intros H. unfold upto. rewrite length_map, length_seq. lia.
Qed.

Lemma mismatch_not_match g p k : first_mismatch g p k -> ~ match_all g p.
Proof. intros (Hk & Hne & _) H. apply Hne, H, Hk. Qed.


(** ** Operations on arbitrary states *)

(** The shape of one loop iteration that finds [pressed] set: the state
    after the store (or the unchanged state), then possibly validation. *)
Lemma loop_pressed_cases s s' :
  pressed s = 1 -> main_loop_body s = Some s' ->
  exists m,
    (conversion_allowed s = 0 /\ m = s \/
     conversion_allowed s <> 0 /\
     exists g, set4 (guess s) (data_cnt s) (adc_nibble s) = Some g /\
       m = s |> set_guess g |> set_data_cnt (u8 (data_cnt s + 1))) /\
    (data_cnt m <= 3 /\ s' = set_pressed 0 m \/
     data_cnt m > 3 /\
     exists a, check_password (set_conversion_allowed 0 m) = Some a /\
       s' = set_pressed 0 a).
Proof.
  intros Hp. unfold main_loop_body. rewrite Hp. cbn [Z.eqb Pos.eqb].
  rewrite (u8_small (adc_nibble s)) by (pose proof (adc_nibble_range s); lia).
  destruct (Z.eqb_spec (conversion_allowed s) 0) as [Hc|Hc]; cbn [negb bind].
  - intros H. exists s. split; [left; now split|].
    destruct (Z.gtb_spec (data_cnt s) 3) as [Hd|Hd].
    + right. split; [lia|].
      destruct (check_password (set_conversion_allowed 0 s)) as [a|];
        [|discriminate].
      cbn [bind] in H. injection H as <-. now exists a.
    + left. cbn [bind] in H. injection H as <-. split; [lia|reflexivity].
  - destruct (set4 (guess s) (data_cnt s) (adc_nibble s)) as [g|];
      [|discriminate].
    cbn [bind]. intros H.
    exists (s |> set_guess g |> set_data_cnt (u8 (data_cnt s + 1))).
    split; [right; split; [exact Hc|now exists g]|].
    fields. fields_in H.
    destruct (Z.gtb_spec (u8 (data_cnt s + 1)) 3) as [Hd|Hd].
    + right. split; [lia|].
      destruct (check_password _) as [a|]; [|discriminate].
      cbn [bind] in H. injection H as <-. now exists a.
    + left. cbn [bind] in H. injection H as <-. split; [lia|reflexivity].
Qed.

(** Whatever the state, an operation that ends with [conversion_allowed]
    set ends with [correct = 1], provided that was so before it. *)
Lemma accepting_correct_step v e s s' :
  (conversion_allowed s <> 0 -> correct s = 1) ->
  step v e s = Some s' ->
  conversion_allowed s' <> 0 -> correct s' = 1.
Proof.
  intros I Hstep. destruct e as [|raw iv| |]; cbn [step] in Hstep.
  - destruct (Z.eq_dec (pressed s) 1) as [Hp|Hp].
    2:{ rewrite loop_idle in Hstep by exact Hp. now injection Hstep as <-. }
    destruct (loop_pressed_cases s s' Hp Hstep) as (m & Hm & Hs').
    assert (Im : conversion_allowed m = conversion_allowed s /\
                 correct m = correct s).
    { destruct Hm as [[_ ->]|[_ (g & _ & ->)]]; now split. }
    destruct Im as [Im1 Im2].
    destruct Hs' as [[_ ->]|[_ (a & Ha & ->)]]; fields.
    + rewrite Im1, Im2. exact I.
    + apply check_password_frame in Ha.
      destruct Ha as (_ & _ & _ & _ & Hca & _). rewrite Hca. fields.
      congruence.
  - destruct (adc_enabled s); [|discriminate].
    destruct (adc_irq_enabled _); injection Hstep as <-.
    + destruct (ADC12ISR_frame iv
                  (wr_or ADC12IFG ADC12IFG0 (wr ADC12MEM0 (raw mod 4096) s)))
        as ((_ & _ & _ & _ & Hca) & _ & Hco & _).
      rewrite Hca, Hco. exact I.
    + exact I.
  - destruct (timer_irq_enabled s); [|discriminate]. injection Hstep as <-.
    set (x := wr_or TA0CCTL0 CCIFG s).
    destruct (Z_le_gt_dec (u8 (seconds x + 1)) 2) as [H|H].
    + rewrite timer_below by exact H. exact I.
    + rewrite timer_above by exact H. intros _. sem. reflexivity.
  - destruct (is_set BIT4 (rd BUTTON_EDGE_SEL s)).
    + destruct (is_set BIT4 (rd BUTTON_INT_EN _)); injection Hstep as <-.
      * destruct v; exact I.
      * exact I.
    + injection Hstep as <-. exact I.
Qed.

(** ** Runs *)

Lemma run_app v t1 t2 s :
  run v (t1 ++ t2) s = s' <- run v t1 s ;; run v t2 s'.
Proof.
  revert s. induction t1 as [|e t1 IH]; intros s; cbn [run app bind].
  - reflexivity.
  - destruct (step v e s) as [s1|]; cbn [bind]; [apply IH|reflexivity].
Qed.

Lemma run_reachable v t : forall s s',
  reachable v s -> run v t s = Some s' -> reachable v s'.
Proof.
  induction t as [|e t IH]; intros s s' R H; cbn [run] in H.
  - now injection H as <-.
  - destruct (step v e s) as [s1|] eqn:E; [|discriminate].
    cbn [bind] in H. apply (IH s1 s'); [|exact H].
    exact (reach_step v s e s1 R E).
Qed.

Lemma after_reachable v t :
  run v t (boot hw0) <> None -> reachable v (after v t).
Proof.
  unfold after. destruct (run v t (boot hw0)) as [s|] eqn:E; [|congruence].
  intros _. exact (run_reachable v t (boot hw0) s (reach_boot v hw0) E).
Qed.


(** The example traces run to completion. *)
Lemma trace_B_runs :
  run InputLatch (trace_B ++ [Tick; Tick; Tick]) (boot hw0) <> None.
Proof. vm_compute. discriminate. Qed.

(** ** The feedback window *)

Lemma ticks_cons e t :
  ticks (e :: t) = (match e with Tick => 1 | _ => 0 end) + ticks t.
Proof. unfold ticks. destruct e; cbn [filter length]; lia. Qed.

Lemma ticks_nonneg t : 0 <= ticks t.
Proof. unfold ticks. lia. Qed.

(** One operation inside the window: only a tick advances [seconds], and
    nothing else that the window shows changes. *)
Lemma window_step v e a b :
  Inv a -> feedback_window a -> step v e a = Some b ->
  seconds a + (match e with Tick => 1 | _ => 0 end) <= 2 ->
  window_same a b /\
  seconds b = seconds a + (match e with Tick => 1 | _ => 0 end).
Proof.
  intros (Hdc & Hpr & Hie & Hies & _) Hw Hstep Hle.
  unfold window_same. raw_status.
  destruct Hw as (Hca & Hd0 & Hco & Hsec & Hti & Hae & Hai & Hlr & Hlw).
  destruct e as [|raw iv| |]; cbn [step] in Hstep.
  - destruct Hpr as [Hpr|Hpr].
    + rewrite loop_idle in Hstep by lia. injection Hstep as <-.
      splits; finish.
    + rewrite loop_discard in Hstep by lia. injection Hstep as <-.
      splits; sem; finish.
  - unfold adc_enabled, rd in Hstep. rewrite Hae in Hstep. discriminate.
  - unfold timer_irq_enabled, rd in Hstep. rewrite Hti in Hstep.
    injection Hstep as <-.
    rewrite timer_counting by (sem; lia). splits; sem; finish.
  - unfold rd, BUTTON_EDGE_SEL, BUTTON_INT_EN in Hstep. rewrite Hies in Hstep. cbv zeta in Hstep.
    replace (is_set BIT4 (regs (wr_or BUTTON_FLAG BIT4 a) P2IE)) with true
      in Hstep by (sem; congruence).
    injection Hstep as <-.
    destruct v; cbn [port2_isr]; splits; sem; finish.
Qed.

Lemma window_same_refl a : feedback_window a -> window_same a a.
Proof.
  intros (Hca & Hd0 & _ & _ & Hti & _). unfold window_same.
  splits; finish.
Qed.

Lemma window_same_trans a m b :
  window_same a m -> window_same m b -> window_same a b.
Proof.
  unfold window_same.
  intros (A1 & A2 & A3 & A4 & A5 & A6 & A7 & A8 & A9 & A10 & A11)
         (B1 & B2 & B3 & B4 & B5 & B6 & B7 & B8 & B9 & B10 & B11).
  splits; congruence.
Qed.

Lemma inv_window_phase s :
  Inv s -> conversion_allowed s = 0 -> feedback_window s.
Proof.
  intros (_ & _ & _ & _ & [P|P]) H; [|exact P].
  destruct P as (P & _). congruence.
Qed.

Lemma inv_entry_phase s :
  Inv s -> conversion_allowed s <> 0 -> entry_phase s.
Proof.
  intros (_ & _ & _ & _ & [P|P]) H; [exact P|].
  destruct P as (P & _). congruence.
Qed.

(** Any run inside the window that contains at most [2 - seconds] ticks
    stays inside it. *)
Lemma window_run v t : forall a b,
  Inv a -> feedback_window a -> run v t a = Some b ->
  seconds a + ticks t <= 2 ->
  Inv b /\ feedback_window b /\ window_same a b /\
  seconds b = seconds a + ticks t.
Proof.
  induction t as [|e t IH]; intros a b Ia Wa Hrun Hle.
  - cbn [run] in Hrun. injection Hrun as <-.
    splits; try assumption.
    + now apply window_same_refl.
    + unfold ticks. cbn. lia.
  - cbn [run] in Hrun. rewrite ticks_cons in Hle |- *.
    pose proof (ticks_nonneg t) as Ht.
    destruct (step v e a) as [m|] eqn:E; [|discriminate]. cbn [bind] in Hrun.
    destruct (window_step v e a m Ia Wa E) as (Sam & Hsec); [lia|].
    pose proof (step_inv v e a m Ia E) as Im.
    assert (Wm : feedback_window m) by (apply inv_window_phase; [exact Im|apply Sam]).
    destruct (IH m b Im Wm Hrun) as (Ib & Wb & Smb & Hsb); [lia|].
    splits; try assumption.
    + exact (window_same_trans a m b Sam Smb).
    + lia.
Qed.

(** The fourth accepted confirmation: validation and arming. *)
Lemma arming s :
  Inv s -> pressed s = 1 -> conversion_allowed s <> 0 -> data_cnt s = 3 ->
  exists a,
    main_loop_body s = Some a /\
    feedback_window a /\ seconds a = 0 /\ pressed a = 0 /\
    rd TA0CCR0 a = ONE_SECOND /\
    guess a = Arr4 (a0 (guess s)) (a1 (guess s)) (a2 (guess s)) (adc_nibble s) /\
    password a = password s /\
    cmp_log a = cmp_log s ++ snd (check_outcome (guess a) (password s)) /\
    (if fst (check_outcome (guess a) (password s))
     then correct a = 1 /\ lcd_bus a = lcd_bus s ++ unlocked_bytes
     else correct a = 0 /\ lcd_bus a = lcd_bus s ++ wrong_bytes).
Proof.
  intros I Hp Hc Hd.
  pose proof (inv_entry_phase s I Hc) as E.
  destruct I as (Hdc & Hpr & Hie & Hies & _). raw_status.
  destruct E as (Hca & Hco & Hsec & Hti & Hae & Hai & Hlr & Hlw).
  eexists. split; [apply loop_validate; assumption|].
  unfold check_effect, disarm_adc. fields.
  destruct (check_outcome
              (Arr4 (a0 (guess s)) (a1 (guess s)) (a2 (guess s)) (adc_nibble s))
              (password s)) as [[|] log] eqn:Eo; cbn [fst snd].
  - rewrite turn_on_led_right by (sem; finish).
    splits; sem; rewrite ?Eo, ?Hco; cbn [fst snd]; try finish.
    split; finish.
  - rewrite turn_on_led_wrong by (sem; finish).
    splits; sem; rewrite ?Eo; cbn [fst snd]; try finish.
    split; finish.
Qed.

(** ** What the display receives *)

Lemma decode_wrong :
  lcd_decode wrong_bytes =
  Cmd 0x01 :: text_at 0x85 "WRONG" ++ text_at 0xC4 "PASSWORD".
Proof. vm_compute. reflexivity. Qed.

Lemma decode_unlocked :
  lcd_decode unlocked_bytes = Cmd 0x01 :: text_at 0x84 "UNLOCKED".
Proof. vm_compute. reflexivity. Qed.

Lemma decode_restart :
  lcd_decode (command_bytes 0x01 ++ begin_bytes) = Cmd 0x01 :: entry_screen.
Proof. vm_compute. reflexivity. Qed.

Lemma decode_init_tail :
  lcd_decode (command_bytes CLEAR_SCREEN ++ begin_bytes) = Cmd 0x01 :: entry_screen.
Proof. vm_compute. reflexivity. Qed.

(** The character sent for a nibble is its digit, with 10..15 shown as 9. *)
Lemma decode_digit n :
  0 <= n < 16 ->
  lcd_decode (display_bytes (n + ASCII_CONV)) = [Dat (ASCII_CONV + Z.min n 9)].
Proof.
  intros H. rewrite <- (Z2Nat.id n) by lia.
  assert (Hk : (Z.to_nat n < 16)%nat) by lia.
  revert Hk. generalize (Z.to_nat n). intros k Hk.
  do 16 (destruct k as [|k]; [vm_compute; reflexivity|]).
  lia.
Qed.





Lemma press_13_runs : run InputLatch press_13 (boot hw0) <> None.
Proof. vm_compute. discriminate. Qed.


(** A delivered tick means the window is open. *)
Lemma tick_in_window v s c :
  Inv s -> step v Tick s = Some c ->
  feedback_window s /\ c = Timer_A_CCR0_ISR (wr_or TA0CCTL0 CCIFG s).
Proof.
  intros I Hstep. cbn [step] in Hstep.
  destruct (timer_irq_enabled s) eqn:E; [|discriminate].
  injection Hstep as <-. split; [|reflexivity].
  destruct I as (_ & _ & _ & _ & [P|P]); [|exact P].
  destruct P as (_ & _ & _ & P & _). congruence.
Qed.

(** The tick that ends the window. *)
Lemma window_end v s c :
  Inv s -> seconds s = 2 -> step v Tick s = Some c ->
  entry_phase c /\ data_cnt c = 0 /\
  guess c = guess s /\ password c = password s /\ pressed c = pressed s /\
  cmp_log c = cmp_log s /\
  rd TA0CCR0 c = 8191 /\
  lcd_bus c = lcd_bus s ++ command_bytes 0x01 ++ begin_bytes.
Proof.
  intros I Hs Hstep.
  destruct (tick_in_window v s c I Hstep) as (W & ->).
  destruct I as (Hdc & Hpr & Hie & Hies & _). raw_status.
  destruct W as (Hca & Hd0 & Hco & Hsec & Hti & Hae & Hai & Hlr & Hlw).
  rewrite timer_restart by (sem; lia).
  unfold entry_phase. splits; sem; try finish.
  all: destruct Hco as [Hco|Hco]; rewrite Hco in *;
    cbn [Z.eqb Pos.eqb negb] in *; autorewrite with bits; finish.
Qed.


Lemma fourth_press_runs : run InputLatch fourth_press (boot hw0) <> None.
Proof. vm_compute. discriminate. Qed.


(** After arming, a run with fewer than three ticks is still in the
    window opened by the state [a]. *)
Lemma armed_run v s a t b :
  Inv s -> pressed s = 1 -> conversion_allowed s <> 0 -> data_cnt s = 3 ->
  step v Loop s = Some a -> run v t a = Some b -> ticks t < 3 ->
  Inv b /\ feedback_window b /\ window_same a b /\ seconds b = ticks t.
Proof.
  intros I Hp Hc Hd Ha Hrun Ht.
  pose proof (step_inv v Loop s a I Ha) as Ia.
  destruct (arming s I Hp Hc Hd) as (a' & Ha' & W & Hs & _).
  cbn [step] in Ha. rewrite Ha in Ha'. injection Ha' as <-.
  destruct (window_run v t a b Ia W Hrun) as (Ib & Wb & Sab & Hsb); [lia|].
  splits; try assumption. lia.
Qed.


(** ** Outcome, feedback state and the ADC registers *)

Lemma check_outcome_fst g p :
  fst (check_outcome g p) = true <-> match_all g p.
Proof.
  destruct (match_or_mismatch g p) as [M|[k M]].
  - rewrite (check_outcome_match g p M). cbn. tauto.
  - rewrite (check_outcome_mismatch g p k M). cbn.
    pose proof (mismatch_not_match g p k M). split; [discriminate|tauto].
Qed.

Lemma feedback_not_idle s :
  feedback_state s <> Idle <-> conversion_allowed s = 0.
Proof.
  unfold feedback_state.
  destruct (Z.eqb_spec (conversion_allowed s) 0) as [E|E]; cbn [negb].
  - split; [tauto|]. intros _. destruct (negb _); discriminate.
  - split; [congruence|contradiction].
Qed.

Lemma turn_on_led_other s :
  correct s <> 0 -> correct s <> 1 ->
  turn_on_led s = wr TA0CTL (Z.lor TASSEL__ACLK MC__UP) s.
Proof.
  intros H0 H1. unfold turn_on_led. fields.
  destruct (Z.eqb_spec (correct s) 0); [contradiction|].
  destruct (Z.eqb_spec (correct s) 1); [contradiction|reflexivity].
Qed.

(** turn_on_led does not touch the ADC control registers. *)
Lemma turn_on_led_adc s :
  adc_enabled (turn_on_led s) = adc_enabled s /\
  adc_irq_enabled (turn_on_led s) = adc_irq_enabled s.
Proof.
  destruct (Z.eq_dec (correct s) 0) as [H0|H0];
    [|destruct (Z.eq_dec (correct s) 1) as [H1|H1]].
  - rewrite turn_on_led_wrong by exact H0. split; sem; reflexivity.
  - rewrite turn_on_led_right by exact H1. split; sem; reflexivity.
  - rewrite turn_on_led_other by assumption. split; sem; reflexivity.
Qed.

Lemma check_password_adc s s' :
  check_password s = Some s' ->
  adc_enabled s' = false /\ adc_irq_enabled s' = false.
Proof.
  rewrite check_password_run. intros [= <-].
  destruct (turn_on_led_adc (check_effect (disarm_adc s))) as [-> ->].
  unfold adc_enabled, adc_irq_enabled, rd.
  destruct (check_effect_frame (disarm_adc s)) as (_ & _ & -> & _).
  unfold disarm_adc. split; sem; reflexivity.
Qed.


(** ** The scenarios of the specification, run on the machine *)

(** Scenario A: the digits 1 2 3 4 unlock. *)
Example scenario_A_unlocks :
  feedback_state (after InputLatch trace_A) = Success /\
  led_right (after InputLatch trace_A) = true /\
  led_wrong (after InputLatch trace_A) = false /\
  cmp_log (after InputLatch trace_A) = [0; 1; 2; 3].
Proof. vm_compute. repeat split. Qed.

(** Scenario B: the digits 1 2 9 4 do not, and three comparisons are
    made. *)
Example scenario_B_fails :
  feedback_state (after InputLatch trace_B) = Failure /\
  led_wrong (after InputLatch trace_B) = true /\
  led_right (after InputLatch trace_B) = false /\
  cmp_log (after InputLatch trace_B) = [0; 1; 2].
Proof. vm_compute. repeat split. Qed.

(** Scenario D: two edges before the loop runs commit one digit. *)
Example scenario_D_one_digit :
  data_cnt (after InputLatch double_press) = 1 /\
  pressed (after InputLatch double_press) = 0 /\
  to_list (guess (after InputLatch double_press)) = [5; 0; 0; 0].
Proof. vm_compute. repeat split. Qed.

(** ** The button request *)

Lemma reg_eqb_refl r : reg_eqb r r = true.
Proof. destruct r; reflexivity. Qed.

(** [R |= m] twice is [R |= m] once. *)
Lemma wr_or_idem r m s : wr_or r m (wr_or r m s) = wr_or r m s.
Proof.
  unfold wr_or, wr, rd, set_regs. cbn [seconds password guess data_cnt pressed
    correct conversion_allowed regs lcd_bus cmp_log].
  f_equal. extensionality r'. unfold upd. rewrite reg_eqb_refl.
  destruct (reg_eqb r r'); [|reflexivity].
  now rewrite <- Z.lor_assoc, Z.lor_diag.
Qed.

(** In the states of a run the P2.4 request is enabled, so an edge runs
    the handler. *)
Lemma edge_delivered v s :
  Inv s -> step v Edge s = Some (port2_isr v (wr_or BUTTON_FLAG BIT4 s)).
Proof.
  intros (_ & _ & Hie & Hies & _). cbn [step]. rewrite Hies. cbv zeta.
  assert (H : is_set BIT4 (rd BUTTON_INT_EN (wr_or BUTTON_FLAG BIT4 s)) = true).
  { rewrite <- Hie. sem. reflexivity. }
  rewrite H. reflexivity.
Qed.

(** The state an edge leads to is a fixed point of a further edge. *)
Lemma edge_settles v s s1 :
  step v Edge s = Some s1 -> step v Edge s1 = Some s1.
Proof.
  cbn [step].
  destruct (is_set BIT4 (rd BUTTON_EDGE_SEL s)) eqn:Hes.
  2:{ intros [= <-]. now rewrite Hes. }
  cbv zeta.
  destruct (is_set BIT4 (rd BUTTON_INT_EN (wr_or BUTTON_FLAG BIT4 s))) eqn:Hie;
    intros [= <-].
  - assert (E1 : is_set BIT4
        (rd BUTTON_EDGE_SEL (port2_isr v (wr_or BUTTON_FLAG BIT4 s))) = true)
      by (rewrite <- Hes; destruct v; reflexivity).
    rewrite E1.
    assert (E2 : wr_or BUTTON_FLAG BIT4 (port2_isr v (wr_or BUTTON_FLAG BIT4 s))
                 = port2_isr v (wr_or BUTTON_FLAG BIT4 s)).
    { destruct v. cbn [port2_isr].
      change (wr_or BUTTON_FLAG BIT4 (set_pressed 1 (wr_or BUTTON_FLAG BIT4 s)))
        with (set_pressed 1 (wr_or BUTTON_FLAG BIT4 (wr_or BUTTON_FLAG BIT4 s))).
      now rewrite wr_or_idem. }
    rewrite E2.
    assert (E3 : is_set BIT4
        (rd BUTTON_INT_EN (port2_isr v (wr_or BUTTON_FLAG BIT4 s))) = true)
      by (rewrite <- Hie; destruct v; reflexivity).
    rewrite E3. f_equal. destruct v. reflexivity.
  - assert (E1 : is_set BIT4 (rd BUTTON_EDGE_SEL (wr_or BUTTON_FLAG BIT4 s)) = true)
      by (rewrite <- Hes; reflexivity).
    rewrite E1, wr_or_idem, Hie. reflexivity.
Qed.

(** Who writes [pressed]: the handler of the button request sets it, a
    loop iteration that finds it set clears it, and nothing else changes
    it. *)
Lemma pressed_writers v e s s' :
  step v e s = Some s' -> pressed s' <> pressed s ->
  (e = Edge /\ pressed s' = 1) \/
  (e = Loop /\ pressed s = 1 /\ pressed s' = 0).
Proof.
  intros Hstep Hne. destruct e as [|raw iv| |]; cbn [step] in Hstep.
  - right. split; [reflexivity|].
    destruct (Z.eq_dec (pressed s) 1) as [Hp|Hp].
    2:{ rewrite loop_idle in Hstep by exact Hp. injection Hstep as <-.
        now elim Hne. }
    split; [exact Hp|].
    destruct (loop_pressed_cases s s' Hp Hstep) as (m & _ & Hs').
    destruct Hs' as [[_ ->]|[_ (a & _ & ->)]]; reflexivity.
  - exfalso. apply Hne.
    destruct (adc_enabled s); [|discriminate].
    destruct (adc_irq_enabled _); injection Hstep as <-; [|reflexivity].
    now destruct (ADC12ISR_frame iv
                    (wr_or ADC12IFG ADC12IFG0 (wr ADC12MEM0 (raw mod 4096) s)))
      as ((_ & _ & _ & Hp & _) & _).
  - exfalso. apply Hne.
    destruct (timer_irq_enabled s); [|discriminate]. injection Hstep as <-.
    now destruct (Timer_frame (wr_or TA0CCTL0 CCIFG s)) as (_ & _ & _ & Hp & _).
  - left. split; [reflexivity|].
    destruct (is_set BIT4 (rd BUTTON_EDGE_SEL s)).
    + destruct (is_set BIT4 (rd BUTTON_INT_EN _)); injection Hstep as <-.
      * destruct v. reflexivity.
      * now elim Hne.
    + injection Hstep as <-. now elim Hne.
Qed.

(** * The claims *)

(** C1.  check_password, entered with [correct = 1] (which holds at every
    validation, see C9), always returns; it leaves [correct = 1] (Success)
    exactly when the guess agrees with the secret at all four indices and
    sets [correct = 0] (Failure) otherwise.  The comparisons are made in
    index order and stop at the first mismatch: if the first mismatch is
    at index [k], the indices compared are exactly [0 .. k], that is
    [k + 1] comparisons; with no mismatch all four are compared. *)
Theorem check_password_validates (s : state) (Hc : correct s = 1) :
  exists s',
    check_password s = Some s' /\
    (match_all (guess s) (password s) ->
       correct s' = 1 /\ cmp_log s' = cmp_log s ++ [0; 1; 2; 3]) /\
    (forall k, first_mismatch (guess s) (password s) k ->
       correct s' = 0 /\ cmp_log s' = cmp_log s ++ upto k /\
       Z.of_nat (length (upto k)) = k + 1) /\
    (correct s' = 1 <-> match_all (guess s) (password s)) /\
    (correct s' = 0 <-> ~ match_all (guess s) (password s)) /\
    (conversion_allowed s = 0 ->
       (feedback_state s' = Success <-> match_all (guess s) (password s)) /\
       (feedback_state s' = Failure <-> ~ match_all (guess s) (password s))).
Proof.
  destruct (check_password s) as [s'|] eqn:E.
  2:{ rewrite check_password_run in E. discriminate. }
  exists s'. split; [reflexivity|].
  destruct (check_password_frame s s' E)
    as (_ & _ & _ & _ & Hca & _ & Hco & Hlog).
  rewrite Hc in Hco.
  assert (Hyes : match_all (guess s) (password s) ->
                 correct s' = 1 /\ cmp_log s' = cmp_log s ++ [0; 1; 2; 3]).
  { intros M. rewrite (check_outcome_match _ _ M) in Hco, Hlog. now split. }
  assert (Hno : forall k, first_mismatch (guess s) (password s) k ->
                 correct s' = 0 /\ cmp_log s' = cmp_log s ++ upto k /\
                 Z.of_nat (length (upto k)) = k + 1).
  { intros k M. rewrite (check_outcome_mismatch _ _ _ M) in Hco, Hlog.
    splits; [exact Hco|exact Hlog|]. apply upto_length. destruct M; lia. }
  assert (H1 : correct s' = 1 <-> match_all (guess s) (password s)).
  { split; [|apply Hyes]. intros H.
    destruct (match_or_mismatch (guess s) (password s)) as [M|[k M]]; [exact M|].
    apply Hno in M. lia. }
  assert (H0 : correct s' = 0 <-> ~ match_all (guess s) (password s)).
  { split.
    - intros H M. apply Hyes in M. lia.
    - intros N.
      destruct (match_or_mismatch (guess s) (password s)) as [M|[k M]];
        [contradiction|]. now apply Hno in M. }
  splits; try assumption.
  - intros Z0. unfold feedback_state. rewrite Hca, Z0. cbn [Z.eqb negb].
    destruct (match_or_mismatch (guess s) (password s)) as [M|[k M]].
    + destruct (Hyes M) as [-> _]. cbn. split; split; try tauto; discriminate.
    + pose proof (mismatch_not_match _ _ _ M) as N.
      destruct (Hno k M) as [-> _]. cbn. split; split; try tauto; discriminate.
Qed.

(** Scenario B: secret 1 2 3 4 against guess 1 2 9 4 gives Failure after
    exactly the three comparisons at indices 0, 1 and 2. *)
Lemma check_password_validates_witness :
  correct scenario_B = 1 /\
  exists s', check_password scenario_B = Some s' /\
    correct s' = 0 /\ cmp_log s' = [0; 1; 2] /\ feedback_state s' = Failure.
Proof.
  split; [reflexivity|].
  destruct (check_password_validates scenario_B eq_refl)
    as (s' & E & _ & Hno & _ & _ & Hfb).
  exists s'. split; [exact E|].
  assert (M : first_mismatch (guess scenario_B) (password scenario_B) 2).
  { unfold first_mismatch. split; [lia|]. split; [discriminate|].
    intros j Hj. assert (j = 0 \/ j = 1) as [-> | ->] by lia; reflexivity. }
  destruct (Hno 2 M) as (H0 & Hlog & _).
  split; [exact H0|]. split; [exact Hlog|].
  apply Hfb; [reflexivity|]. exact (mismatch_not_match _ _ _ M).
Defined.

(** C2.  The Input Latch handler is not in src/main.c and is modelled
    from the specification.  With it, a qualifying edge (falling edge
    selected and the P2.4 interrupt enabled, as they are in every state
    of a run) runs the handler, which sets [pressed] to 1 whatever the
    state, also when [pressed] is set already or feedback is shown, and
    changes no other global.  [pressed] has no other writers than these
    two: only the handler changes it to 1, and only a loop iteration that
    finds it set changes it to 0.  A second edge before the main loop has
    consumed the first leaves the machine exactly as the first edge left
    it, so every run continues as if there had been one edge: the
    confirmation is overwritten, not queued. *)
Theorem confirm_edge_latches_once
  (v : port2_vector) (s : state)
  (Hes : is_set BIT4 (rd BUTTON_EDGE_SEL s) = true)
  (Hie : is_set BIT4 (rd BUTTON_INT_EN s) = true) :
  (exists s',
     step v Edge s = Some s' /\ pressed s' = 1 /\
     seconds s' = seconds s /\ password s' = password s /\
     guess s' = guess s /\ data_cnt s' = data_cnt s /\
     correct s' = correct s /\
     conversion_allowed s' = conversion_allowed s /\
     step v Edge s' = Some s') /\
  (forall x, reachable v x ->
     exists x', step v Edge x = Some x' /\ pressed x' = 1) /\
  (forall e x x', step v e x = Some x' -> pressed x' <> pressed x ->
     (e = Edge /\ pressed x' = 1) \/
     (e = Loop /\ pressed x = 1 /\ pressed x' = 0)) /\
  (forall x t, run v (Edge :: Edge :: t) x = run v (Edge :: t) x).
Proof.
  split; [|split; [|split]].
  - assert (E : step v Edge s =
                Some (port2_isr v (wr_or BUTTON_FLAG BIT4 s))).
    { cbn [step]. rewrite Hes. cbv zeta.
      assert (H : is_set BIT4
                    (rd BUTTON_INT_EN (wr_or BUTTON_FLAG BIT4 s)) = true)
        by (rewrite <- Hie; sem; reflexivity).
      rewrite H. reflexivity. }
    exists (port2_isr v (wr_or BUTTON_FLAG BIT4 s)).
    split; [exact E|].
    split; [destruct v; reflexivity|].
    repeat (split; [destruct v; reflexivity|]).
    exact (edge_settles v s _ E).
  - intros x R. pose proof (reachable_inv v x R) as I.
    exists (port2_isr v (wr_or BUTTON_FLAG BIT4 x)).
    split; [exact (edge_delivered v x I)|destruct v; reflexivity].
  - exact (pressed_writers v).
  - intros x t. cbn [run].
    destruct (step v Edge x) as [x1|] eqn:E; [|reflexivity].
    cbn [bind]. rewrite (edge_settles v x x1 E). reflexivity.
Qed.

(** The first press after power-up sets [pressed]; pressing twice before
    the loop runs commits what pressing once commits. *)
Lemma confirm_edge_latches_once_witness :
  is_set BIT4 (rd BUTTON_EDGE_SEL (boot hw0)) = true /\
  is_set BIT4 (rd BUTTON_INT_EN (boot hw0)) = true /\
  pressed (boot hw0) = 0 /\
  (exists s', step InputLatch Edge (boot hw0) = Some s' /\ pressed s' = 1) /\
  run InputLatch [Edge; Edge; Loop] (boot hw0) =
    run InputLatch [Edge; Loop] (boot hw0).
Proof.
  assert (Hes : is_set BIT4 (rd BUTTON_EDGE_SEL (boot hw0)) = true)
    by (vm_compute; reflexivity).
  assert (Hie : is_set BIT4 (rd BUTTON_INT_EN (boot hw0)) = true)
    by (vm_compute; reflexivity).
  destruct (confirm_edge_latches_once InputLatch (boot hw0) Hes Hie)
    as ((s' & Hs & Hp & _) & _ & _ & Hrun).
  split; [exact Hes|]. split; [exact Hie|].
  split; [vm_compute; reflexivity|].
  split; [exists s'; now split|].
  exact (Hrun (boot hw0) [Loop]).
Defined.

(** C3.  On a confirmation the main loop stores the raw high nibble of
    ADC12MEM0, a value in 0..15, into [guess[data_cnt]] unchanged.  The
    clamp to 9 exists only on the display path: lcd_display, called by
    the ADC ISR, shows nibbles 10..15 as the character '9'.  So for a
    nibble above 9 the digit shown and the digit stored differ, and the
    stored digit is not the clamped one the claim describes. *)
Theorem stored_digit_is_unclamped
  (v : port2_vector) (s : state) (R : reachable v s)
  (Hp : pressed s = 1) (Hc : conversion_allowed s <> 0) :
  exists s',
    step v Loop s = Some s' /\
    get4 (guess s') (data_cnt s) = Some (adc_nibble s) /\
    0 <= adc_nibble s < 16 /\
    lcd_bus (ADC12ISR 6 s) =
      lcd_bus s ++ command_bytes (0x80 + data_cnt s)
                ++ display_bytes (adc_nibble s + ASCII_CONV) /\
    lcd_decode (display_bytes (adc_nibble s + ASCII_CONV)) =
      [Dat (ASCII_CONV + Z.min (adc_nibble s) 9)].
Proof.
  pose proof (reachable_inv v s R) as I.
  pose proof (adc_nibble_range s) as Hn.
  assert (Hbus : lcd_bus (ADC12ISR 6 s) =
                 lcd_bus s ++ command_bytes (0x80 + data_cnt s)
                 ++ display_bytes (adc_nibble s + ASCII_CONV)).
  { rewrite adc_isr_echo by (first [assumption|lia]). sem. reflexivity. }
  assert (Hdec := decode_digit (adc_nibble s) Hn).
  cbn [step].
  assert (data_cnt s < 3 \/ data_cnt s = 3) as [Hlt|Heq]
    by (destruct I as (? & _); lia).
  - destruct (loop_accept s Hp Hc) as (g & Hg & Hrun);
      [destruct I as (? & _); lia|].
    eexists. split; [exact Hrun|]. fields.
    destruct (set4_in_range (guess s) (data_cnt s) (adc_nibble s))
      as (g' & Hg' & Hget & _); [destruct I as (? & _); lia|].
    rewrite Hg in Hg'. injection Hg' as <-.
    split; [exact Hget|]. split; [exact Hn|]. split; [exact Hbus|exact Hdec].
  - destruct (arming s I Hp Hc Heq) as (a & Hrun & _ & _ & _ & _ & Hg & _).
    exists a. split; [exact Hrun|]. rewrite Hg, Heq.
    split; [reflexivity|]. split; [exact Hn|].
    split; [rewrite <- Heq; exact Hbus|exact Hdec].
Qed.

(** A reading of 0x0D00: the display shows '9' (0x39), [guess[0]]
    receives 13. *)
Lemma stored_digit_is_unclamped_witness :
  reachable InputLatch (after InputLatch press_13) /\
  pressed (after InputLatch press_13) = 1 /\
  conversion_allowed (after InputLatch press_13) <> 0 /\
  rd ADC12MEM0 (after InputLatch press_13) = 0x0D00 /\
  exists s',
    step InputLatch Loop (after InputLatch press_13) = Some s' /\
    get4 (guess s') 0 = Some 13 /\
    lcd_decode (display_bytes (13 + ASCII_CONV)) = [Dat 0x39].
Proof.
  pose proof (after_reachable InputLatch _ press_13_runs) as R.
  assert (Hp : pressed (after InputLatch press_13) = 1)
    by (vm_compute; reflexivity).
  assert (Hc : conversion_allowed (after InputLatch press_13) <> 0)
    by (vm_compute; discriminate).
  assert (Hm : rd ADC12MEM0 (after InputLatch press_13) = 0x0D00)
    by (vm_compute; reflexivity).
  destruct (stored_digit_is_unclamped InputLatch _ R Hp Hc)
    as (s' & Hrun & Hget & _ & _ & Hdec).
  assert (Hd : data_cnt (after InputLatch press_13) = 0)
    by (vm_compute; reflexivity).
  assert (Hn : adc_nibble (after InputLatch press_13) = 13)
    by (vm_compute; reflexivity).
  rewrite Hd, Hn in Hget. rewrite Hn in Hdec.
  split; [exact R|]. split; [exact Hp|]. split; [exact Hc|].
  split; [exact Hm|]. exists s'.
  split; [exact Hrun|]. split; [exact Hget|exact Hdec].
Defined.

(** C4, as the code has it.  The tick that ends a feedback window (the
    one delivered with [seconds = 2]) leaves [data_cnt = 0],
    [correct = 1], [conversion_allowed = 1] and [seconds = 0], the values
    they have when the main loop is first entered, restores TA0CCR0 and
    redraws the entry screen.  [guess] is not cleared: it keeps the four
    digits of the entry just validated. *)
Theorem feedback_end_restores_entry
  (v : port2_vector) (s c : state) (R : reachable v s)
  (Hs : seconds s = 2) (Ht : step v Tick s = Some c) :
  data_cnt c = 0 /\ correct c = 1 /\ conversion_allowed c = 1 /\
  seconds c = 0 /\ feedback_state c = Idle /\
  (forall hw,
     data_cnt c = data_cnt (boot hw) /\ correct c = correct (boot hw) /\
     conversion_allowed c = conversion_allowed (boot hw) /\
     seconds c = seconds (boot hw) /\
     rd TA0CCR0 c = rd TA0CCR0 (boot hw)) /\
  guess c = guess s /\
  lcd_bus c = lcd_bus s ++ command_bytes 0x01 ++ begin_bytes /\
  lcd_decode (command_bytes 0x01 ++ begin_bytes) = Cmd 0x01 :: entry_screen.
Proof.
  pose proof (reachable_inv v s R) as I.
  destruct (window_end v s c I Hs Ht)
    as (E & Hd & Hg & _ & _ & _ & Hccr & Hbus).
  destruct E as (Hca & Hco & Hsec & _).
  splits; try assumption.
  - unfold feedback_state. rewrite Hca. reflexivity.
  - intros hw. rewrite Hd, Hco, Hca, Hsec, Hccr.
    unfold boot, main_init. rewrite lcd_initialization_emit.
    splits; sem; reflexivity.
  - exact decode_restart.
Qed.

(** The third tick after scenario B. *)
Lemma feedback_end_restores_entry_witness :
  reachable InputLatch (after InputLatch (trace_B ++ [Tick; Tick])) /\
  seconds (after InputLatch (trace_B ++ [Tick; Tick])) = 2 /\
  step InputLatch Tick (after InputLatch (trace_B ++ [Tick; Tick])) =
    Some (after InputLatch (trace_B ++ [Tick; Tick; Tick])) /\
  data_cnt (after InputLatch (trace_B ++ [Tick; Tick; Tick])) = 0 /\
  conversion_allowed (after InputLatch (trace_B ++ [Tick; Tick; Tick])) = 1.
Proof.
  assert (Hrun : run InputLatch (trace_B ++ [Tick; Tick]) (boot hw0) <> None)
    by (vm_compute; discriminate).
  pose proof (after_reachable InputLatch _ Hrun) as R.
  assert (Hs : seconds (after InputLatch (trace_B ++ [Tick; Tick])) = 2)
    by (vm_compute; reflexivity).
  assert (Ht : step InputLatch Tick (after InputLatch (trace_B ++ [Tick; Tick])) =
               Some (after InputLatch (trace_B ++ [Tick; Tick; Tick])))
    by (vm_compute; reflexivity).
  destruct (feedback_end_restores_entry InputLatch _ _ R Hs Ht)
    as (Hd & _ & Hca & _).
  split; [exact R|]. split; [exact Hs|]. split; [exact Ht|].
  split; [exact Hd|exact Hca].
Defined.

(** C4 as stated fails: after scenario B and its three ticks the window
    has completed, yet [guess] is 1 2 9 4 and not the all-zero array it is
    after initialisation. *)
Lemma feedback_end_keeps_guess :
  reachable InputLatch (after InputLatch (trace_B ++ [Tick; Tick])) /\
  seconds (after InputLatch (trace_B ++ [Tick; Tick])) = 2 /\
  step InputLatch Tick (after InputLatch (trace_B ++ [Tick; Tick])) =
    Some (after InputLatch (trace_B ++ [Tick; Tick; Tick])) /\
  conversion_allowed (after InputLatch (trace_B ++ [Tick; Tick; Tick])) = 1 /\
  to_list (guess (after InputLatch (trace_B ++ [Tick; Tick; Tick]))) =
    [1; 2; 9; 4] /\
  to_list (guess (after InputLatch (trace_B ++ [Tick; Tick; Tick]))) <>
    [0; 0; 0; 0] /\
  to_list (guess (boot hw0)) = [0; 0; 0; 0].
Proof.
  assert (Hrun : run InputLatch (trace_B ++ [Tick; Tick]) (boot hw0) <> None)
    by (vm_compute; discriminate).
  split; [exact (after_reachable InputLatch _ Hrun)|].
  split; [vm_compute; reflexivity|].
  split; [vm_compute; reflexivity|].
  split; [vm_compute; reflexivity|].
  split; [vm_compute; reflexivity|].
  split; [vm_compute; discriminate|].
  vm_compute; reflexivity.
Qed.

(** C5, as the code has it.  An iteration that finds [pressed] set clears
    it.  With [conversion_allowed] set it writes the raw nibble into the
    one slot [guess[data_cnt]], leaving the other slots alone, and
    increments [data_cnt]: for the first three digits the iteration ends
    with [data_cnt] one higher; for the fourth ([data_cnt = 3]) the
    validation that runs in the same iteration zeroes [data_cnt] again
    and clears [conversion_allowed].  With [conversion_allowed] clear the
    confirmation is dropped: [guess] and [data_cnt] are unchanged. *)
Theorem confirmation_consumed
  (v : port2_vector) (s : state) (R : reachable v s) (Hp : pressed s = 1) :
  exists s',
    step v Loop s = Some s' /\ pressed s' = 0 /\
    (conversion_allowed s <> 0 ->
       get4 (guess s') (data_cnt s) = Some (adc_nibble s) /\
       (forall j, j <> data_cnt s -> get4 (guess s') j = get4 (guess s) j) /\
       (data_cnt s < 3 ->
          data_cnt s' = data_cnt s + 1 /\
          conversion_allowed s' = conversion_allowed s) /\
       (data_cnt s = 3 -> data_cnt s' = 0 /\ conversion_allowed s' = 0)) /\
    (conversion_allowed s = 0 ->
       guess s' = guess s /\ data_cnt s' = data_cnt s /\
       conversion_allowed s' = 0).
Proof.
  pose proof (reachable_inv v s R) as I.
  assert (Hdc : 0 <= data_cnt s <= 3) by apply I.
  cbn [step].
  destruct (Z.eq_dec (conversion_allowed s) 0) as [Hc|Hc].
  - exists (set_pressed 0 s). split; [apply loop_discard; lia|].
    split; [reflexivity|]. split; [contradiction|].
    intros _. now splits.
  - destruct (set4_in_range (guess s) (data_cnt s) (adc_nibble s))
      as (g & Hg & Hget & Hoth); [lia|].
    assert (data_cnt s < 3 \/ data_cnt s = 3) as [Hlt|Heq] by lia.
    + destruct (loop_accept s Hp Hc) as (g' & Hg' & Hrun); [lia|].
      rewrite Hg in Hg'. injection Hg' as <-.
      eexists. split; [exact Hrun|]. fields.
      split; [reflexivity|]. split; [|contradiction].
      intros _. split; [exact Hget|]. split; [exact Hoth|].
      split; [intros _; now split|intros E; lia].
    + destruct (arming s I Hp Hc Heq)
        as (a & Hrun & W & _ & Hpa & _ & Hga & _).
      exists a. split; [exact Hrun|]. split; [exact Hpa|].
      split; [|contradiction]. intros _.
      assert (Hgg : guess a = g).
      { rewrite Hga. rewrite Heq in Hg. cbn in Hg. now injection Hg. }
      rewrite Hgg. split; [exact Hget|]. split; [exact Hoth|].
      split; [intros E; lia|intros _; split; apply W].
Qed.

(** The fourth confirmation of scenario B. *)
Lemma confirmation_consumed_witness :
  reachable InputLatch (after InputLatch fourth_press) /\
  pressed (after InputLatch fourth_press) = 1 /\
  exists s',
    step InputLatch Loop (after InputLatch fourth_press) = Some s' /\
    pressed s' = 0 /\ get4 (guess s') 3 = Some 4 /\ data_cnt s' = 0.
Proof.
  pose proof (after_reachable InputLatch _ fourth_press_runs) as R.
  assert (Hp : pressed (after InputLatch fourth_press) = 1)
    by (vm_compute; reflexivity).
  assert (Hc : conversion_allowed (after InputLatch fourth_press) <> 0)
    by (vm_compute; discriminate).
  assert (Hd : data_cnt (after InputLatch fourth_press) = 3)
    by (vm_compute; reflexivity).
  assert (Hn : adc_nibble (after InputLatch fourth_press) = 4)
    by (vm_compute; reflexivity).
  destruct (confirmation_consumed InputLatch _ R Hp)
    as (s' & Hrun & Hp' & Hacc & _).
  destruct (Hacc Hc) as (Hget & _ & _ & Hfour).
  destruct (Hfour Hd) as (Hd' & _).
  rewrite Hd, Hn in Hget.
  split; [exact R|]. split; [exact Hp|]. exists s'.
  split; [exact Hrun|]. split; [exact Hp'|]. split; [exact Hget|exact Hd'].
Defined.

(** C5 as stated fails at the fourth accepted confirmation: the iteration
    starts with [data_cnt = 3] and ends with [data_cnt = 0], not 4. *)
Lemma fourth_confirmation_resets_index :
  reachable InputLatch (after InputLatch fourth_press) /\
  pressed (after InputLatch fourth_press) = 1 /\
  conversion_allowed (after InputLatch fourth_press) = 1 /\
  data_cnt (after InputLatch fourth_press) = 3 /\
  step InputLatch Loop (after InputLatch fourth_press) =
    Some (after InputLatch trace_B) /\
  data_cnt (after InputLatch trace_B) = 0 /\
  data_cnt (after InputLatch trace_B) <>
    data_cnt (after InputLatch fourth_press) + 1.
Proof.
  split; [exact (after_reachable InputLatch _ fourth_press_runs)|].
  split; [vm_compute; reflexivity|].
  split; [vm_compute; reflexivity|].
  split; [vm_compute; reflexivity|].
  split; [vm_compute; reflexivity|].
  split; [vm_compute; reflexivity|].
  vm_compute. discriminate.
Qed.

(** C6.  The iteration that accepts the fourth digit clears
    [conversion_allowed].  From there, along any sequence of operations
    that contains fewer than three timer ticks, it stays clear and the
    tick interrupt stays enabled; the third tick sets it again.  No main
    loop iteration, button edge or conversion changes it in between. *)
Theorem accepting_flag_closed_for_window
  (v : port2_vector) (s : state) (R : reachable v s)
  (Hp : pressed s = 1) (Hc : conversion_allowed s <> 0)
  (Hd : data_cnt s = 3) :
  exists a,
    step v Loop s = Some a /\
    conversion_allowed a = 0 /\
    (forall t b, run v t a = Some b -> ticks t < 3 ->
       conversion_allowed b = 0 /\ exists c, step v Tick b = Some c) /\
    (forall t b c, run v t a = Some b -> ticks t = 2 ->
       step v Tick b = Some c -> conversion_allowed c = 1).
Proof.
  pose proof (reachable_inv v s R) as I.
  destruct (arming s I Hp Hc Hd) as (a & Ha & W & _).
  exists a. split; [exact Ha|]. split; [apply W|]. split.
  - intros t b Hrun Ht.
    destruct (armed_run v s a t b I Hp Hc Hd Ha Hrun Ht) as (_ & Wb & _).
    split; [apply Wb|].
    destruct Wb as (_ & _ & _ & _ & Hti & _).
    cbn [step]. rewrite Hti. eexists. reflexivity.
  - intros t b c Hrun Ht Hstep.
    destruct (armed_run v s a t b I Hp Hc Hd Ha Hrun) as (Ib & _ & _ & Hs);
      [lia|].
    destruct (window_end v b c Ib) as (E & _); [lia|exact Hstep|]. apply E.
Qed.

(** Scenario B: a tick, a button press picked up by the loop, and a
    second tick leave the flag clear; the third tick sets it. *)
Lemma accepting_flag_closed_for_window_witness :
  reachable InputLatch (after InputLatch fourth_press) /\
  pressed (after InputLatch fourth_press) = 1 /\
  conversion_allowed (after InputLatch fourth_press) <> 0 /\
  data_cnt (after InputLatch fourth_press) = 3 /\
  exists a,
    step InputLatch Loop (after InputLatch fourth_press) = Some a /\
    conversion_allowed a = 0 /\
    (forall b, run InputLatch [Tick; Edge; Loop; Tick] a = Some b ->
       conversion_allowed b = 0) /\
    (forall b c, run InputLatch [Tick; Edge; Loop; Tick] a = Some b ->
       step InputLatch Tick b = Some c -> conversion_allowed c = 1).
Proof.
  pose proof (after_reachable InputLatch _ fourth_press_runs) as R.
  assert (Hp : pressed (after InputLatch fourth_press) = 1)
    by (vm_compute; reflexivity).
  assert (Hc : conversion_allowed (after InputLatch fourth_press) <> 0)
    by (vm_compute; discriminate).
  assert (Hd : data_cnt (after InputLatch fourth_press) = 3)
    by (vm_compute; reflexivity).
  destruct (accepting_flag_closed_for_window InputLatch _ R Hp Hc Hd)
    as (a & Ha & Hca & Hstay & Hend).
  split; [exact R|]. split; [exact Hp|]. split; [exact Hc|].
  split; [exact Hd|]. exists a.
  split; [exact Ha|]. split; [exact Hca|]. split.
  - intros b Hb. apply (Hstay _ b Hb). vm_compute. reflexivity.
  - intros b c Hb Hcc. apply (Hend _ b c Hb); [reflexivity|exact Hcc].
Defined.

(** C7.  After arming, [seconds] is 0.  While fewer than two ticks have
    been delivered, the next tick does nothing but add 1 to [seconds]
    (and clear the interrupt flag the hardware set).  Before the third
    tick nothing of the restart has happened: the display, the LEDs, the
    tick interrupt enable, [correct] and [conversion_allowed] are as
    arming left them.  The third tick turns both indicators off, disables
    the tick interrupt, clears the display and redraws the entry screen,
    and restarts entry ([seconds = 0], [correct = 1],
    [conversion_allowed = 1], TA0CCR0 back to 8191, ADC re-enabled). *)
Theorem feedback_window_three_ticks
  (v : port2_vector) (s : state) (R : reachable v s)
  (Hp : pressed s = 1) (Hc : conversion_allowed s <> 0)
  (Hd : data_cnt s = 3) :
  exists a,
    step v Loop s = Some a /\ seconds a = 0 /\
    (led_right a = true \/ led_wrong a = true) /\
    (forall t b, run v t a = Some b -> ticks t < 2 ->
       step v Tick b =
       Some (b |> wr_or TA0CCTL0 CCIFG
               |> set_seconds (seconds b + 1)
               |> wr_clr TA0CCTL0 CCIFG)) /\
    (forall t b, run v t a = Some b -> ticks t < 3 ->
       seconds b = ticks t /\ conversion_allowed b = 0 /\
       timer_irq_enabled b = true /\ correct b = correct a /\
       lcd_bus b = lcd_bus a /\ rd LED_PORT b = rd LED_PORT a /\
       rd TA0CCR0 b = ONE_SECOND) /\
    (forall t b, run v t a = Some b -> ticks t = 2 ->
       exists c,
         step v Tick b = Some c /\
         led_right c = false /\ led_wrong c = false /\
         timer_irq_enabled c = false /\
         lcd_bus c = lcd_bus b ++ command_bytes 0x01 ++ begin_bytes /\
         seconds c = 0 /\ correct c = 1 /\ conversion_allowed c = 1 /\
         data_cnt c = 0 /\ rd TA0CCR0 c = 8191 /\
         adc_enabled c = true /\ adc_irq_enabled c = true) /\
    lcd_decode (command_bytes 0x01 ++ begin_bytes) = Cmd 0x01 :: entry_screen.
Proof.
  pose proof (reachable_inv v s R) as I.
  destruct (arming s I Hp Hc Hd) as (a & Ha & W & Hs & _ & Hccr & _).
  exists a. split; [exact Ha|]. split; [exact Hs|]. split.
  { destruct W as (_ & _ & Hco & _ & _ & _ & _ & Hlr & Hlw).
    destruct Hco as [Hco|Hco]; rewrite Hco in Hlr, Hlw; [now right|now left]. }
  split; [|split; [|split; [|exact decode_restart]]].
  - intros t b Hrun Ht.
    destruct (armed_run v s a t b I Hp Hc Hd Ha Hrun) as (_ & Wb & _ & Hsb);
      [lia|].
    destruct Wb as (_ & _ & _ & _ & Hti & _).
    cbn [step]. rewrite Hti.
    rewrite timer_counting by (fields; pose proof (ticks_nonneg t); lia).
    reflexivity.
  - intros t b Hrun Ht.
    destruct (armed_run v s a t b I Hp Hc Hd Ha Hrun Ht)
      as (_ & _ & Sab & Hsb).
    destruct Sab as (S1 & _ & S3 & _ & _ & S6 & _ & S8 & _ & S10 & S11).
    rewrite S10. now splits.
  - intros t b Hrun Ht.
    destruct (armed_run v s a t b I Hp Hc Hd Ha Hrun) as (Ib & Wb & _ & Hsb);
      [lia|].
    destruct Wb as (_ & _ & _ & _ & Hti & _).
    destruct (step v Tick b) as [c|] eqn:Hstep.
    2:{ cbn [step] in Hstep. rewrite Hti in Hstep. discriminate. }
    exists c. split; [reflexivity|].
    destruct (window_end v b c Ib) as (E & Hd0 & _ & _ & _ & _ & Hc8 & Hbus);
      [lia|exact Hstep|].
    destruct E as (E1 & E2 & E3 & E4 & E5 & E6 & E7 & E8).
    now splits.
Qed.

(** Scenario B: one tick, two ticks, and the third. *)
Lemma feedback_window_three_ticks_witness :
  reachable InputLatch (after InputLatch fourth_press) /\
  pressed (after InputLatch fourth_press) = 1 /\
  conversion_allowed (after InputLatch fourth_press) <> 0 /\
  data_cnt (after InputLatch fourth_press) = 3 /\
  exists a,
    step InputLatch Loop (after InputLatch fourth_press) = Some a /\
    seconds a = 0 /\
    (forall b, run InputLatch [Tick] a = Some b -> seconds b = 1) /\
    (forall b, run InputLatch [Tick; Tick] a = Some b ->
       seconds b = 2 /\
       exists c, step InputLatch Tick b = Some c /\
         seconds c = 0 /\ conversion_allowed c = 1 /\
         led_wrong c = false /\ timer_irq_enabled c = false).
Proof.
  pose proof (after_reachable InputLatch _ fourth_press_runs) as R.
  assert (Hp : pressed (after InputLatch fourth_press) = 1)
    by (vm_compute; reflexivity).
  assert (Hc : conversion_allowed (after InputLatch fourth_press) <> 0)
    by (vm_compute; discriminate).
  assert (Hd : data_cnt (after InputLatch fourth_press) = 3)
    by (vm_compute; reflexivity).
  destruct (feedback_window_three_ticks InputLatch _ R Hp Hc Hd)
    as (a & Ha & Hs & _ & _ & Hin & Hend & _).
  split; [exact R|]. split; [exact Hp|]. split; [exact Hc|].
  split; [exact Hd|]. exists a.
  split; [exact Ha|]. split; [exact Hs|]. split.
  - intros b Hb. destruct (Hin [Tick] b Hb) as (H1 & _).
    + vm_compute. reflexivity.
    + exact H1.
  - intros b Hb. split.
    + destruct (Hin [Tick; Tick] b Hb) as (H2 & _).
      * vm_compute. reflexivity.
      * exact H2.
    + destruct (Hend [Tick; Tick] b Hb eq_refl)
        as (c & Hc1 & _ & Hc3 & Hc4 & _ & Hc6 & _ & Hc8 & _).
      exists c. split; [exact Hc1|]. split; [exact Hc6|].
      split; [exact Hc8|]. split; [exact Hc3|exact Hc4].
Defined.

(** C8.  The iteration that accepts the fourth digit validates and arms:
    afterwards [seconds] is 0, TA0CCR0 holds ONE_SECOND, the CCR0
    interrupt is enabled; on Failure the display has received a clear
    command, "WRONG" at 0x85 and "PASSWORD" at 0xC4, and the wrong-answer
    LED is on; on Success it has received a clear command and "UNLOCKED"
    at 0x84, and the right-answer LED is on.  Success is reported exactly
    when the guess matches the secret. *)
Theorem arming_effects
  (v : port2_vector) (s : state) (R : reachable v s)
  (Hp : pressed s = 1) (Hc : conversion_allowed s <> 0)
  (Hd : data_cnt s = 3) :
  exists a,
    step v Loop s = Some a /\
    seconds a = 0 /\ rd TA0CCR0 a = ONE_SECOND /\
    timer_irq_enabled a = true /\
    (feedback_state a = Success <-> match_all (guess a) (password a)) /\
    (feedback_state a = Failure <-> ~ match_all (guess a) (password a)) /\
    (feedback_state a = Failure ->
       lcd_bus a = lcd_bus s ++ wrong_bytes /\
       led_wrong a = true /\ led_right a = false) /\
    (feedback_state a = Success ->
       lcd_bus a = lcd_bus s ++ unlocked_bytes /\
       led_right a = true /\ led_wrong a = false) /\
    lcd_decode wrong_bytes =
      Cmd 0x01 :: text_at 0x85 "WRONG" ++ text_at 0xC4 "PASSWORD" /\
    lcd_decode unlocked_bytes = Cmd 0x01 :: text_at 0x84 "UNLOCKED".
Proof.
  pose proof (reachable_inv v s R) as I.
  destruct (arming s I Hp Hc Hd)
    as (a & Ha & W & Hs & _ & Hccr & _ & Hpw & _ & Hout).
  destruct W as (Hca & _ & _ & _ & Hti & _ & _ & Hlr & Hlw).
  exists a. split; [exact Ha|]. split; [exact Hs|]. split; [exact Hccr|].
  split; [exact Hti|].
  rewrite Hpw. unfold feedback_state. rewrite Hca. cbn [Z.eqb negb].
  pose proof (check_outcome_fst (guess a) (password s)) as Hm.
  destruct (fst (check_outcome (guess a) (password s)));
    destruct Hout as (Hco & Hbus); rewrite Hco in *; cbn [Z.eqb Pos.eqb negb].
  - assert (M : match_all (guess a) (password s)) by now apply Hm.
    split; [tauto|]. split; [split; [discriminate|tauto]|].
    split; [discriminate|]. split; [intros _; now splits|].
    split; [exact decode_wrong|exact decode_unlocked].
  - assert (N : ~ match_all (guess a) (password s)).
    { intros M. apply Hm in M. discriminate. }
    split; [split; [discriminate|tauto]|]. split; [tauto|].
    split; [intros _; now splits|]. split; [discriminate|].
    split; [exact decode_wrong|exact decode_unlocked].
Qed.

(** Arming at the fourth confirmation of scenario B. *)
Lemma arming_effects_witness :
  reachable InputLatch (after InputLatch fourth_press) /\
  pressed (after InputLatch fourth_press) = 1 /\
  conversion_allowed (after InputLatch fourth_press) <> 0 /\
  data_cnt (after InputLatch fourth_press) = 3 /\
  exists a,
    step InputLatch Loop (after InputLatch fourth_press) = Some a /\
    seconds a = 0 /\ rd TA0CCR0 a = 32767 /\ timer_irq_enabled a = true.
Proof.
  pose proof (after_reachable InputLatch _ fourth_press_runs) as R.
  assert (Hp : pressed (after InputLatch fourth_press) = 1)
    by (vm_compute; reflexivity).
  assert (Hc : conversion_allowed (after InputLatch fourth_press) <> 0)
    by (vm_compute; discriminate).
  assert (Hd : data_cnt (after InputLatch fourth_press) = 3)
    by (vm_compute; reflexivity).
  destruct (arming_effects InputLatch _ R Hp Hc Hd)
    as (a & Ha & Hs & Hccr & Hti & _).
  split; [exact R|]. split; [exact Hp|]. split; [exact Hc|].
  split; [exact Hd|]. exists a.
  split; [exact Ha|]. split; [exact Hs|]. split; [exact Hccr|exact Hti].
Defined.

(** C9.  In every reachable state, [conversion_allowed] set implies
    [correct = 1]; every operation preserves this, from any state at all;
    check_password never sets [correct] to 1 (it leaves it or clears it);
    the timer ISR sets [correct = 1] together with
    [conversion_allowed = 1] when its count passes 2; and both are 1 when
    the main loop is entered. *)
Theorem correct_set_while_accepting
  (v : port2_vector) (s : state) (R : reachable v s) :
  (conversion_allowed s <> 0 -> correct s = 1) /\
  (forall e x x',
     (conversion_allowed x <> 0 -> correct x = 1) ->
     step v e x = Some x' ->
     conversion_allowed x' <> 0 -> correct x' = 1) /\
  (forall x x', check_password x = Some x' ->
     correct x' = correct x \/ correct x' = 0) /\
  (forall x, u8 (seconds x + 1) > 2 ->
     correct (Timer_A_CCR0_ISR x) = 1 /\
     conversion_allowed (Timer_A_CCR0_ISR x) = 1) /\
  (forall hw, correct (boot hw) = 1 /\ conversion_allowed (boot hw) = 1).
Proof.
  assert (I : conversion_allowed s <> 0 -> correct s = 1).
  { induction R as [hw|s e s' _ IH Hstep].
    - intros _. destruct (boot_inv hw) as (_ & _ & _ & _ & [P|P]).
      + apply P.
      + destruct P as (P & _). unfold boot, main_init in P.
        rewrite lcd_initialization_emit in P. revert P. sem. discriminate.
    - exact (accepting_correct_step v e s s' IH Hstep). }
  splits.
  - exact I.
  - intros e x x'. exact (accepting_correct_step v e x x').
  - intros x x' H. apply check_password_frame in H.
    destruct H as (_ & _ & _ & _ & _ & _ & H & _). rewrite H.
    destruct (fst _); [now left|now right].
  - intros x H. rewrite timer_above by exact H. split; sem; reflexivity.
  - intros hw. unfold boot, main_init. rewrite lcd_initialization_emit.
    split; sem; reflexivity.
Qed.

(** After a failed entry (scenario B) and its three ticks, entry is open
    again and [correct] is back to 1. *)
Lemma correct_set_while_accepting_witness :
  reachable InputLatch (after InputLatch (trace_B ++ [Tick; Tick; Tick])) /\
  conversion_allowed (after InputLatch (trace_B ++ [Tick; Tick; Tick])) <> 0 /\
  correct (after InputLatch (trace_B ++ [Tick; Tick; Tick])) = 1.
Proof.
  pose proof (after_reachable InputLatch _ trace_B_runs) as R.
  destruct (correct_set_while_accepting InputLatch _ R) as (H & _).
  assert (N : conversion_allowed
                (after InputLatch (trace_B ++ [Tick; Tick; Tick])) <> 0)
    by (vm_compute; discriminate).
  split; [exact R|]. split; [exact N|]. exact (H N).
Defined.

(** C10.  While feedback is shown ([conversion_allowed] clear), ADC12ENC
    and ADC12IE0 are clear, so no conversion is delivered and the ADC ISR
    does not run; any operation that leaves the machine in the window
    leaves ADC12MEM0, the display and the alive LED untouched.
    check_password clears the two bits from any state, and the timer ISR
    sets them again when it restarts entry. *)
Theorem sampler_off_during_feedback
  (v : port2_vector) (s : state) (R : reachable v s)
  (Hf : feedback_state s <> Idle) :
  adc_enabled s = false /\ adc_irq_enabled s = false /\
  (forall raw iv, step v (Conversion raw iv) s = None) /\
  (forall e s', step v e s = Some s' -> feedback_state s' <> Idle ->
     rd ADC12MEM0 s' = rd ADC12MEM0 s /\ lcd_bus s' = lcd_bus s /\
     led_alive s' = led_alive s) /\
  (forall x x', check_password x = Some x' ->
     adc_enabled x' = false /\ adc_irq_enabled x' = false) /\
  (forall x, u8 (seconds x + 1) > 2 ->
     adc_enabled (Timer_A_CCR0_ISR x) = true /\
     adc_irq_enabled (Timer_A_CCR0_ISR x) = true).
Proof.
  pose proof (reachable_inv v s R) as I.
  apply feedback_not_idle in Hf.
  pose proof (inv_window_phase s I Hf) as W.
  pose proof W as (_ & _ & _ & Hsec & _ & Hae & Hai & _).
  split; [exact Hae|]. split; [exact Hai|]. split.
  { intros raw iv. cbn [step]. now rewrite Hae. }
  split; [|split].
  - intros e s' Hstep Hf'. apply feedback_not_idle in Hf'.
    assert (Hle : seconds s + match e with Tick => 1 | _ => 0 end <= 2).
    { destruct e; try lia.
      destruct (Z.eq_dec (seconds s) 2) as [E|E]; [|lia].
      destruct (window_end v s s' I E Hstep) as ((E1 & _) & _). congruence. }
    destruct (window_step v e s s' I W Hstep Hle) as (Sam & _).
    destruct Sam as (_ & _ & _ & _ & _ & S6 & _ & S8 & S9 & _).
    split; [exact S9|]. split; [exact S6|].
    unfold led_alive. now rewrite S8.
  - exact check_password_adc.
  - intros x Hx. rewrite timer_above by exact Hx. split; sem; reflexivity.
Qed.

(** After scenario B and one tick the ADC is off and a conversion cannot
    be delivered. *)
Lemma sampler_off_during_feedback_witness :
  reachable InputLatch (after InputLatch (trace_B ++ [Tick])) /\
  feedback_state (after InputLatch (trace_B ++ [Tick])) <> Idle /\
  adc_enabled (after InputLatch (trace_B ++ [Tick])) = false /\
  adc_irq_enabled (after InputLatch (trace_B ++ [Tick])) = false /\
  step InputLatch (Conversion 0x0500 6) (after InputLatch (trace_B ++ [Tick]))
    = None.
Proof.
  assert (Hrun : run InputLatch (trace_B ++ [Tick]) (boot hw0) <> None)
    by (vm_compute; discriminate).
  pose proof (after_reachable InputLatch _ Hrun) as R.
  assert (Hf : feedback_state (after InputLatch (trace_B ++ [Tick])) <> Idle)
    by (vm_compute; discriminate).
  destruct (sampler_off_during_feedback InputLatch _ R Hf)
    as (Hae & Hai & Hno & _).
  split; [exact R|]. split; [exact Hf|]. split; [exact Hae|].
  split; [exact Hai|]. exact (Hno 0x0500 6).
Defined.

(** * Further properties of the code *)

(** ** The display protocol: composing and decoding bus traffic *)

Lemma last_cons (b : list Z) : forall v d, last (v :: b) d = last b v.
Proof.
  induction b as [|w b IH]; intros v d; [reflexivity|].
  change (last (v :: w :: b) d) with (last (w :: b) d).
  now rewrite (IH w d), (IH w v).
Qed.

Lemma last_app_default (b1 : list Z) : forall b2 d,
  last (b1 ++ b2) d = last b2 (last b1 d).
Proof.
  induction b1 as [|v b1 IH]; intros b2 d; [reflexivity|].
  cbn [app]. now rewrite !last_cons, IH.
Qed.

Lemma strobes_app b1 : forall p b2,
  strobes p (b1 ++ b2) = strobes p b1 ++ strobes (last b1 p) b2.
Proof.
  induction b1 as [|v b1 IH]; intros p b2; [reflexivity|].
  cbn [app strobes]. rewrite IH, last_cons.
  destruct (is_set LCD_EN p && negb (is_set LCD_EN v)); reflexivity.
Qed.

(** With LCD_EN low before it, a byte sequence is read as from rest. *)
Lemma strobes_idle p b :
  is_set LCD_EN p = false -> strobes p b = strobes 0 b.
Proof.
  intros H. destruct b as [|v b]; [reflexivity|].
  cbn [strobes]. rewrite H. reflexivity.
Qed.

Lemma pair_nibbles_app l2 : forall n l1,
  length l1 = (2 * n)%nat ->
  pair_nibbles (l1 ++ l2) = pair_nibbles l1 ++ pair_nibbles l2.
Proof.
  induction n as [|n IH]; intros l1 H.
  - destruct l1; [reflexivity|discriminate].
  - destruct l1 as [|[rs hi] [|[rs' lo] l1]]; try (cbn in H; lia).
    cbn [app pair_nibbles]. rewrite IH by (cbn in H; lia). reflexivity.
Qed.

Lemma decode_app b1 b2 :
  settled b1 -> lcd_decode (b1 ++ b2) = lcd_decode b1 ++ lcd_decode b2.
Proof.
  intros [E L]. unfold lcd_decode. rewrite strobes_app.
  rewrite (strobes_idle (last b1 0) b2 L).
  apply Nat.even_spec in E. destruct E as [n E].
  now apply pair_nibbles_app with n.
Qed.

Lemma settled_nil : settled [].
Proof. split; reflexivity. Qed.

Lemma settled_app b1 b2 : settled b1 -> settled b2 -> settled (b1 ++ b2).
Proof.
  intros [E1 L1] [E2 L2]. split.
  - rewrite strobes_app, (strobes_idle _ _ L1), length_app, Nat.even_add, E1, E2.
    reflexivity.
  - rewrite last_app_default. destruct b2 as [|v b2]; [exact L1|].
    now rewrite last_cons, <- (last_cons b2 v 0).
Qed.

(** The boolean form of [settled], for closed byte lists. *)
Lemma settled_closed b :
  Nat.even (length (strobes 0 b)) && negb (is_set LCD_EN (last b 0)) = true ->
  settled b.
Proof.
  intros H. apply andb_prop in H. destruct H as [H1 H2].
  split; [exact H1|now apply negb_true_iff].
Qed.

(** A check that holds of each of the 256 bytes holds of any byte. *)
Lemma byte_forall (f : Z -> bool) :
  forallb f (map Z.of_nat (seq 0 256)) = true ->
  forall c, 0 <= c < 256 -> f c = true.
Proof.
  intros H c Hc. rewrite forallb_forall in H. apply H.
  rewrite <- (Z2Nat.id c) by lia. apply in_map, in_seq. lia.
Qed.

Lemma command_bytes_decode cmd :
  lcd_decode (command_bytes cmd) = [Cmd (u8 cmd)] /\ settled (command_bytes cmd).
Proof.
  assert (R : 0 <= u8 cmd < 256) by (apply Z.mod_pos_bound; lia).
  assert (E : command_bytes cmd = command_bytes (u8 cmd)).
  { unfold command_bytes. now rewrite (u8_small (u8 cmd)). }
  rewrite E. generalize dependent (u8 cmd). clear. intros c Hc.
  pose (f := fun c =>
    match lcd_decode (command_bytes c) with
    | [Cmd b] => b =? c
    | _ => false
    end
    && Nat.even (length (strobes 0 (command_bytes c)))
    && negb (is_set LCD_EN (last (command_bytes c) 0))).
  assert (F : f c = true) by (apply byte_forall; [vm_compute; reflexivity|exact Hc]).
  unfold f in F. apply andb_prop in F. destruct F as [F F3].
  apply andb_prop in F. destruct F as [F1 F2].
  split; [|split; [exact F2|now apply negb_true_iff]].
  destruct (lcd_decode (command_bytes c)) as [|[b|b] [|? ?]]; try discriminate.
  apply Z.eqb_eq in F1. now subst.
Qed.

Lemma display_bytes_decode dat :
  lcd_decode (display_bytes dat) = [Dat (shown (u8 dat))] /\
  settled (display_bytes dat).
Proof.
  assert (R : 0 <= u8 dat < 256) by (apply Z.mod_pos_bound; lia).
  assert (E : display_bytes dat = display_bytes (u8 dat)).
  { unfold display_bytes. now rewrite (u8_small (u8 dat)). }
  rewrite E. generalize dependent (u8 dat). clear. intros c Hc.
  pose (f := fun c =>
    match lcd_decode (display_bytes c) with
    | [Dat b] => b =? shown c
    | _ => false
    end
    && Nat.even (length (strobes 0 (display_bytes c)))
    && negb (is_set LCD_EN (last (display_bytes c) 0))).
  assert (F : f c = true) by (apply byte_forall; [vm_compute; reflexivity|exact Hc]).
  unfold f in F. apply andb_prop in F. destruct F as [F F3].
  apply andb_prop in F. destruct F as [F1 F2].
  split; [|split; [exact F2|now apply negb_true_iff]].
  destruct (lcd_decode (display_bytes c)) as [|[b|b] [|? ?]]; try discriminate.
  apply Z.eqb_eq in F1. now subst.
Qed.

Lemma char_code_range c : 0 <= char_code c < 256.
Proof.
  unfold char_code. pose proof (nat_ascii_bounded c). lia.
Qed.

Lemma text_bytes_decode text :
  lcd_decode (text_bytes text) = map (fun c => Dat (shown c)) (c_chars text) /\
  settled (text_bytes text).
Proof.
  induction text as [|c rest [IH1 IH2]]; [split; [reflexivity|apply settled_nil]|].
  cbn [text_bytes c_chars]. destruct (char_code c =? 0).
  - split; [reflexivity|apply settled_nil].
  - destruct (display_bytes_decode (char_code c)) as [D1 D2].
    split; [|now apply settled_app].
    rewrite decode_app, D1, IH1 by exact D2.
    now rewrite (u8_small _ (char_code_range c)).
Qed.

Lemma emit_transfer b s :
  settled (lcd_bus s) -> settled b ->
  lcd_decode (lcd_bus (lcd_emit b s)) = lcd_decode (lcd_bus s) ++ lcd_decode b /\
  settled (lcd_bus (lcd_emit b s)).
Proof.
  intros Hs Hb. rewrite lcd_bus_emit. split.
  - now apply decode_app.
  - now apply settled_app.
Qed.

(** ** The driver functions of lcd.c *)

(** X1.  lcd_command(cmd) sends exactly one complete command transfer:
    on a bus with no transfer half sent, the display controller reads
    everything it read before followed by the single command byte
    [cmd mod 256] (upper nibble first, LCD_RS low), and the bus is again
    left with no transfer half sent. *)
Theorem lcd_command_transfer cmd s :
  settled (lcd_bus s) ->
  lcd_decode (lcd_bus (lcd_command cmd s)) =
    lcd_decode (lcd_bus s) ++ [Cmd (cmd mod 256)] /\
  settled (lcd_bus (lcd_command cmd s)).
Proof.
  intros Hs. rewrite lcd_command_emit.
  destruct (command_bytes_decode cmd) as [D S].
  destruct (emit_transfer (command_bytes cmd) s Hs S) as [E1 E2].
  rewrite E1, D. now split.
Qed.

(** The argument 0x185 is truncated to the command 0x85. *)
Lemma lcd_command_transfer_witness :
  settled (lcd_bus scenario_B) /\
  lcd_decode (lcd_bus (lcd_command 0x185 scenario_B)) =
    lcd_decode (lcd_bus scenario_B) ++ [Cmd 0x85] /\
  settled (lcd_bus (lcd_command 0x185 scenario_B)).
Proof.
  split; [apply settled_nil|].
  apply (lcd_command_transfer 0x185 scenario_B). apply settled_nil.
Defined.

(** X2.  lcd_display(dat) sends exactly one complete character transfer
    (LCD_RS high).  The character is [dat mod 256], except that every
    byte from 0x3A to 0x40 (the seven characters between '9' and 'A',
    '@' included) is replaced by 0x39, the digit 9; bytes up to 0x39 and
    from 0x41 on go out unchanged. *)
Theorem lcd_display_transfer dat s :
  settled (lcd_bus s) ->
  lcd_decode (lcd_bus (lcd_display dat s)) =
    lcd_decode (lcd_bus s) ++
    [Dat (if (0x39 <? dat mod 256) && (dat mod 256 <? 0x41) then 0x39
          else dat mod 256)] /\
  settled (lcd_bus (lcd_display dat s)).
Proof.
  intros Hs. rewrite lcd_display_emit.
  destruct (display_bytes_decode dat) as [D S].
  destruct (emit_transfer (display_bytes dat) s Hs S) as [E1 E2].
  rewrite E1, D. split; [|exact E2].
  unfold shown, u8. now rewrite Z.gtb_ltb.
Qed.

(** The character '@' (0x40) is shown as '9'. *)
Lemma lcd_display_transfer_witness :
  settled (lcd_bus scenario_B) /\
  lcd_decode (lcd_bus (lcd_display 0x40 scenario_B)) =
    lcd_decode (lcd_bus scenario_B) ++ [Dat 0x39] /\
  settled (lcd_bus (lcd_display 0x40 scenario_B)).
Proof.
  split; [apply settled_nil|].
  apply (lcd_display_transfer 0x40 scenario_B). apply settled_nil.
Defined.

(** X3.  lcd_text(text, pos) sends the cursor command [pos mod 256] and
    then one character transfer for each character of [text] before its
    first NUL, in order, each passed through the replacement of
    lcd_display (0x3A..0x40 become '9').  For an empty text only the
    cursor command is sent; nothing after a NUL is sent. *)
Theorem lcd_text_transfer text pos s :
  settled (lcd_bus s) ->
  lcd_decode (lcd_bus (lcd_text text pos s)) =
    lcd_decode (lcd_bus s) ++
    Cmd (pos mod 256) :: map (fun c => Dat (shown c)) (c_chars text) /\
  settled (lcd_bus (lcd_text text pos s)).
Proof.
  intros Hs. rewrite lcd_text_emit.
  destruct (command_bytes_decode pos) as [D1 S1].
  destruct (text_bytes_decode text) as [D2 S2].
  destruct (emit_transfer (command_bytes pos ++ text_bytes text) s Hs) as [E1 E2].
  { now apply settled_app. }
  rewrite E1, decode_app, D1, D2 by exact S1. now split.
Qed.

(** The text 'A', ':', NUL, 'B' at 0xC1: "A9" is shown, 'B' is not
    sent. *)
Lemma lcd_text_transfer_witness :
  settled (lcd_bus scenario_B) /\
  lcd_decode
    (lcd_bus (lcd_text (String "A" (String ":" (String zero (String "B" EmptyString))))
                       0xC1 scenario_B)) =
    lcd_decode (lcd_bus scenario_B) ++ [Cmd 0xC1; Dat 0x41; Dat 0x39].
Proof.
  split; [apply settled_nil|].
  apply (lcd_text_transfer
           (String "A" (String ":" (String zero (String "B" EmptyString))))
           0xC1 scenario_B).
  apply settled_nil.
Defined.

Lemma emit_only b s :
  b <> [] -> settled b ->
  lcd_only s (lcd_emit b s) /\
  rd LCD_PORT_DIR (lcd_emit b s) = rd LCD_PORT_DIR s.
Proof.
  intros Hb [_ L].
  destruct (lcd_emit_frame b s)
    as (H1 & H2 & H3 & H4 & H5 & H6 & H7 & H8 & _ & H10).
  unfold lcd_only, rd.
  splits; try assumption.
  - intros r Hr _. apply H10. destruct r; try reflexivity. now elim Hr.
  - rewrite <- L. f_equal. clear - Hb. revert s.
    induction b as [|v b IH]; intros s; [now elim Hb|].
    destruct b as [|w b].
    + unfold lcd_emit, lcd_out, wr, upd. reflexivity.
    + change (lcd_emit (v :: w :: b) s) with (lcd_emit (w :: b) (lcd_out v s)).
      rewrite IH by discriminate. reflexivity.
  - now apply H10.
Qed.

Lemma lcd_only_dir v s s' :
  lcd_only (wr LCD_PORT_DIR v s) s' -> lcd_only s s'.
Proof.
  unfold lcd_only. intros (H1 & H2 & H3 & H4 & H5 & H6 & H7 & H8 & H9 & H10).
  splits; try assumption.
  intros r Hr Hd. rewrite (H9 r Hr Hd). unfold rd, wr, upd. cbn [regs set_regs].
  destruct r; try reflexivity. now elim Hd.
Qed.

Lemma settled_wrong : settled wrong_bytes.
Proof. apply settled_closed. vm_compute. reflexivity. Qed.

Lemma settled_unlocked : settled unlocked_bytes.
Proof. apply settled_closed. vm_compute. reflexivity. Qed.

Lemma settled_restart : settled (command_bytes 0x01 ++ begin_bytes).
Proof. apply settled_closed. vm_compute. reflexivity. Qed.

Lemma settled_begin : settled begin_bytes.
Proof. apply settled_closed. vm_compute. reflexivity. Qed.

Lemma settled_reset : settled reset_bytes.
Proof. apply settled_closed. vm_compute. reflexivity. Qed.

Lemma settled_init : settled init_bytes.
Proof. apply settled_closed. vm_compute. reflexivity. Qed.

(** X4.  The six functions of lcd.c touch nothing but the display: each
    leaves every global of main.c and every register other than the LCD
    port (P8OUT) and its direction register (P8DIR) unchanged, and
    returns with LCD_EN low.  lcd_command, lcd_display, lcd_text and
    lcd_begin leave P8DIR unchanged too; lcd_reset and lcd_initialization
    set it to 0xFF (all pins outputs). *)
Theorem lcd_driver_frame s cmd dat text pos :
  (lcd_only s (lcd_command cmd s) /\
   rd LCD_PORT_DIR (lcd_command cmd s) = rd LCD_PORT_DIR s) /\
  (lcd_only s (lcd_display dat s) /\
   rd LCD_PORT_DIR (lcd_display dat s) = rd LCD_PORT_DIR s) /\
  (lcd_only s (lcd_text text pos s) /\
   rd LCD_PORT_DIR (lcd_text text pos s) = rd LCD_PORT_DIR s) /\
  (lcd_only s (lcd_begin s) /\
   rd LCD_PORT_DIR (lcd_begin s) = rd LCD_PORT_DIR s) /\
  (lcd_only s (lcd_reset s) /\ rd LCD_PORT_DIR (lcd_reset s) = 0xFF) /\
  (lcd_only s (lcd_initialization s) /\
   rd LCD_PORT_DIR (lcd_initialization s) = 0xFF).
Proof.
  rewrite lcd_command_emit, lcd_display_emit, lcd_text_emit, lcd_begin_emit,
    lcd_reset_emit, lcd_initialization_emit.
  split; [|split; [|split; [|split; [|split]]]].
  - apply emit_only; [discriminate|apply command_bytes_decode].
  - apply emit_only; [discriminate|apply display_bytes_decode].
  - apply emit_only; [discriminate|].
    apply settled_app; [apply command_bytes_decode|apply text_bytes_decode].
  - apply emit_only; [discriminate|apply settled_begin].
  - destruct (emit_only reset_bytes (wr LCD_PORT_DIR MASK_FULL s)) as [O D];
      [discriminate|apply settled_reset|].
    split; [exact (lcd_only_dir _ _ _ O)|]. rewrite D. reflexivity.
  - destruct (emit_only init_bytes (wr LCD_PORT_DIR MASK_FULL s)) as [O D];
      [discriminate|apply settled_init|].
    split; [exact (lcd_only_dir _ _ _ O)|]. rewrite D. reflexivity.
Qed.

(** ** The bus along a run *)

Lemma no_traffic s s' :
  lcd_bus s' = lcd_bus s -> exists b, lcd_bus s' = lcd_bus s ++ b /\ settled b.
Proof.
  intros H. exists []. rewrite app_nil_r. split; [exact H|apply settled_nil].
Qed.

Lemma turn_on_led_bus s :
  exists b, lcd_bus (turn_on_led s) = lcd_bus s ++ b /\ settled b.
Proof.
  destruct (Z.eq_dec (correct s) 0) as [H0|H0];
    [|destruct (Z.eq_dec (correct s) 1) as [H1|H1]].
  - rewrite turn_on_led_wrong by exact H0. exists wrong_bytes.
    split; [sem; reflexivity|apply settled_wrong].
  - rewrite turn_on_led_right by exact H1. exists unlocked_bytes.
    split; [sem; reflexivity|apply settled_unlocked].
  - rewrite turn_on_led_other by assumption. now apply no_traffic.
Qed.

Lemma check_password_bus s s' :
  check_password s = Some s' ->
  exists b, lcd_bus s' = lcd_bus s ++ b /\ settled b.
Proof.
  rewrite check_password_run. intros [= <-].
  destruct (turn_on_led_bus (check_effect (disarm_adc s))) as (b & Hb & Sb).
  exists b. split; [|exact Sb]. rewrite Hb.
  destruct (check_effect_frame (disarm_adc s)) as (_ & _ & _ & ->).
  reflexivity.
Qed.

(** Every operation appends whole transfers to the bus, or nothing. *)
Lemma step_bus v e s s' :
  step v e s = Some s' ->
  exists b, lcd_bus s' = lcd_bus s ++ b /\ settled b.
Proof.
  intros Hstep. destruct e as [|raw iv| |]; cbn [step] in Hstep.
  - destruct (Z.eq_dec (pressed s) 1) as [Hp|Hp].
    2:{ rewrite loop_idle in Hstep by exact Hp. injection Hstep as <-.
        now apply no_traffic. }
    destruct (loop_pressed_cases s s' Hp Hstep) as (m & Hm & Hs').
    assert (Bm : lcd_bus m = lcd_bus s).
    { destruct Hm as [[_ ->]|[_ (g & _ & ->)]]; reflexivity. }
    destruct Hs' as [[_ ->]|[_ (a & Ha & ->)]].
    + apply no_traffic. exact Bm.
    + apply check_password_bus in Ha. destruct Ha as (b & Hb & Sb).
      exists b. split; [|exact Sb]. cbn [lcd_bus set_pressed].
      rewrite Hb. cbn [lcd_bus set_conversion_allowed]. now rewrite Bm.
  - destruct (adc_enabled s); [|discriminate].
    set (x := wr_or ADC12IFG ADC12IFG0 (wr ADC12MEM0 (raw mod 4096) s)) in *.
    assert (Bx : lcd_bus x = lcd_bus s) by reflexivity.
    destruct (adc_irq_enabled x); injection Hstep as <-.
    2:{ now apply no_traffic. }
    rewrite <- Bx. clearbody x.
    destruct (Z.eq_dec iv 6) as [E|E];
      [destruct (Z.eq_dec (conversion_allowed x) 0) as [C|C]|].
    + rewrite adc_isr_quiet by now right. now apply no_traffic.
    + rewrite adc_isr_echo by assumption.
      exists (command_bytes (0x80 + data_cnt x)
              ++ display_bytes (adc_nibble x + ASCII_CONV)).
      split; [sem; reflexivity|].
      apply settled_app; [apply command_bytes_decode|apply display_bytes_decode].
    + rewrite adc_isr_quiet by now left. now apply no_traffic.
  - destruct (timer_irq_enabled s); [|discriminate]. injection Hstep as <-.
    set (x := wr_or TA0CCTL0 CCIFG s).
    assert (Bx : lcd_bus x = lcd_bus s) by reflexivity.
    rewrite <- Bx. clearbody x.
    destruct (Z_le_gt_dec (u8 (seconds x + 1)) 2) as [H|H].
    + rewrite timer_below by exact H. now apply no_traffic.
    + rewrite timer_above by exact H. exists (command_bytes 0x01 ++ begin_bytes).
      split; [sem; reflexivity|apply settled_restart].
  - destruct (is_set BIT4 (rd BUTTON_EDGE_SEL s)).
    + destruct (is_set BIT4 (rd BUTTON_INT_EN _)); injection Hstep as <-.
      * destruct v; now apply no_traffic.
      * now apply no_traffic.
    + injection Hstep as <-. now apply no_traffic.
Qed.

Lemma boot_bus hw : lcd_bus (boot hw) = init_bytes.
Proof.
  unfold boot, main_init. rewrite lcd_initialization_emit. sem. reflexivity.
Qed.

Lemma reachable_settled v s : reachable v s -> settled (lcd_bus s).
Proof.
  induction 1 as [hw|s e s' _ IH Hstep].
  - rewrite boot_bus. apply settled_init.
  - destruct (step_bus v e s s' Hstep) as (b & -> & Sb).
    now apply settled_app.
Qed.

(** The entry state after a failed attempt and its feedback window. *)
Lemma second_attempt_reachable :
  reachable InputLatch (after InputLatch second_attempt).
Proof. exact (after_reachable InputLatch second_attempt trace_B_runs). Qed.

Lemma second_attempt_accepting :
  conversion_allowed (after InputLatch second_attempt) <> 0.
Proof. vm_compute. discriminate. Qed.

Lemma second_attempt_index : data_cnt (after InputLatch second_attempt) = 0.
Proof. vm_compute. reflexivity. Qed.

(** X5.  Between operations the display bus never holds a half-sent
    transfer: in every reachable state the nibbles strobed so far pair up
    and LCD_EN is low.  So whatever is driven next is read by the display
    controller on its own, after all that was read before. *)
Theorem display_traffic_is_whole_transfers v s more :
  reachable v s ->
  settled (lcd_bus s) /\
  lcd_decode (lcd_bus s ++ more) = lcd_decode (lcd_bus s) ++ lcd_decode more.
Proof.
  intros R. pose proof (reachable_settled v s R) as S.
  split; [exact S|now apply decode_app].
Qed.

(** After a failed attempt and its window, a further "WRONG" screen is
    read as the clear command followed by the two texts. *)
Lemma display_traffic_is_whole_transfers_witness :
  reachable InputLatch (after InputLatch second_attempt) /\
  lcd_decode (lcd_bus (after InputLatch second_attempt) ++ wrong_bytes) =
    lcd_decode (lcd_bus (after InputLatch second_attempt))
    ++ Cmd 0x01 :: text_at 0x85 "WRONG" ++ text_at 0xC4 "PASSWORD".
Proof.
  pose proof second_attempt_reachable as R.
  split; [exact R|].
  destruct (display_traffic_is_whole_transfers InputLatch _ wrong_bytes R)
    as (_ & H).
  rewrite H, decode_wrong. reflexivity.
Defined.

(** ** Initialisation *)

(** X6.  The part of main before the loop brings the machine to the same
    entry state from any power-up register contents: watchdog held, the
    three LEDs off, P2.4 an input with its falling-edge interrupt enabled
    and no request pending, the ADC on and enabled with its interrupt
    enabled and no request pending, TA0 counting ACLK up to 8191 with its
    interrupt disabled, the LCD port all outputs; the display has
    received the reset sequence (read as 0x33, 0x32), function set 0x28,
    display control 0x0C, entry mode 0x06, clear 0x01 and the entry
    screen. *)
Theorem main_init_from_any_registers hw :
  entry_phase (boot hw) /\ data_cnt (boot hw) = 0 /\ pressed (boot hw) = 0 /\
  led_alive (boot hw) = false /\
  is_set BIT4 (rd BUTTON_PORT_DIR (boot hw)) = false /\
  is_set BIT4 (rd BUTTON_EDGE_SEL (boot hw)) = true /\
  is_set BIT4 (rd BUTTON_FLAG (boot hw)) = false /\
  is_set BIT4 (rd BUTTON_INT_EN (boot hw)) = true /\
  is_set ADC12IFG0 (rd ADC12IFG (boot hw)) = false /\
  rd WDTCTL (boot hw) = 0x5A80 /\
  rd ADC12CTL0 (boot hw) = 0x12 /\ rd ADC12CTL1 (boot hw) = 0x404 /\
  rd ADC12MCTL0 (boot hw) = 14 /\
  rd TA0CCTL0 (boot hw) = 0x80 /\ rd TA0CCR0 (boot hw) = 8191 /\
  rd TA0CTL (boot hw) = 0x110 /\
  rd LCD_PORT_DIR (boot hw) = 0xFF /\
  lcd_decode (lcd_bus (boot hw)) =
    [Cmd 0x33; Cmd 0x32; Cmd 0x28; Cmd 0x0C; Cmd 0x06; Cmd 0x01]
    ++ entry_screen.
Proof.
  assert (I := boot_inv hw). destruct I as (_ & _ & _ & _ & [E|W]).
  2:{ destruct W as (W & _). exfalso. revert W. unfold boot, main_init.
      rewrite lcd_initialization_emit. sem. discriminate. }
  split; [exact E|]. rewrite boot_bus.
  unfold boot, main_init. rewrite lcd_initialization_emit.
  splits; sem; reflexivity.
Qed.

(** ** Invariants of the machine *)

Lemma inv_loop_runs s : Inv s -> exists s', main_loop_body s = Some s'.
Proof.
  intros I.
  destruct (Z.eq_dec (pressed s) 1) as [Hp|Hp].
  2:{ exists s. now apply loop_idle. }
  destruct (Z.eq_dec (conversion_allowed s) 0) as [Hc|Hc].
  - destruct I as (Hdc & _). eexists. apply loop_discard; [exact Hp|exact Hc|lia].
  - destruct (Z.eq_dec (data_cnt s) 3) as [Hd|Hd].
    + destruct (arming s I Hp Hc Hd) as (a & Ha & _). now exists a.
    + destruct I as (Hdc & _).
      destruct (loop_accept s Hp Hc) as (g & _ & Hrun); [lia|].
      eexists. exact Hrun.
Qed.

(** X7.  The store [guess[data_cnt] = ...] of the main loop has no bounds
    check of its own, and it never needs one: in every reachable state
    [data_cnt] is between 0 and 3, and a loop iteration started there
    completes without an access past the end of [guess]. *)
Theorem loop_store_in_bounds v s :
  reachable v s ->
  0 <= data_cnt s <= 3 /\ exists s', step v Loop s = Some s'.
Proof.
  intros R. pose proof (reachable_inv v s R) as I.
  split; [apply I|]. cbn [step]. now apply inv_loop_runs.
Qed.

(** With the fourth confirmation pending ([data_cnt = 3]) the iteration
    still completes. *)
Lemma loop_store_in_bounds_witness :
  reachable InputLatch (after InputLatch fourth_press) /\
  data_cnt (after InputLatch fourth_press) = 3 /\
  exists s', step InputLatch Loop (after InputLatch fourth_press) = Some s'.
Proof.
  pose proof (after_reachable InputLatch _ fourth_press_runs) as R.
  destruct (loop_store_in_bounds InputLatch _ R) as (_ & H).
  split; [exact R|]. split; [vm_compute; reflexivity|exact H].
Defined.

(** X8.  The interrupt sources take turns, and a delivered request runs
    its handler.  While digits are accepted ([conversion_allowed] set)
    the timer interrupt is disabled, so no tick is delivered and
    [seconds] is 0, and a completed conversion always runs ADC12ISR on
    the new reading.  While feedback is shown a tick always runs
    Timer_A_CCR0_ISR, [seconds] is at most 2, and no conversion is
    delivered.  In every reachable state a button edge sets the P2.4
    request flag and runs the Input Latch handler, which leaves
    [pressed = 1]. *)
Theorem interrupts_follow_phase v s raw iv :
  reachable v s ->
  (conversion_allowed s <> 0 ->
     seconds s = 0 /\ step v Tick s = None /\
     step v (Conversion raw iv) s =
       Some (ADC12ISR iv
               (wr_or ADC12IFG ADC12IFG0 (wr ADC12MEM0 (raw mod 4096) s)))) /\
  (conversion_allowed s = 0 ->
     0 <= seconds s <= 2 /\
     step v Tick s = Some (Timer_A_CCR0_ISR (wr_or TA0CCTL0 CCIFG s)) /\
     step v (Conversion raw iv) s = None) /\
  step v Edge s = Some (port2_isr v (wr_or BUTTON_FLAG BIT4 s)) /\
  pressed (port2_isr v (wr_or BUTTON_FLAG BIT4 s)) = 1 /\
  is_set BIT4 (rd BUTTON_FLAG (port2_isr v (wr_or BUTTON_FLAG BIT4 s))) = true.
Proof.
  intros R. pose proof (reachable_inv v s R) as I.
  split; [|split; [|split; [|split]]].
  - intros Hc. pose proof (inv_entry_phase s I Hc) as E.
    destruct E as (_ & _ & Hsec & Hti & Hae & Hai & _).
    cbn [step]. rewrite Hti, Hae. split; [exact Hsec|]. split; [reflexivity|].
    cbv zeta.
    assert (H : adc_irq_enabled
                  (wr_or ADC12IFG ADC12IFG0 (wr ADC12MEM0 (raw mod 4096) s))
                = true) by (rewrite <- Hai; sem; reflexivity).
    rewrite H. reflexivity.
  - intros Hc. pose proof (inv_window_phase s I Hc) as W.
    destruct W as (_ & _ & _ & Hsec & Hti & Hae & _).
    cbn [step]. rewrite Hti, Hae.
    split; [exact Hsec|]. split; reflexivity.
  - exact (edge_delivered v s I).
  - destruct v. reflexivity.
  - destruct v. cbn [port2_isr]. sem. reflexivity.
Qed.

(** In the entry state after a failed attempt no tick is delivered, and
    a conversion with an unused cause still runs the ISR, which toggles
    the alive LED. *)
Lemma interrupts_follow_phase_witness :
  reachable InputLatch (after InputLatch second_attempt) /\
  conversion_allowed (after InputLatch second_attempt) <> 0 /\
  step InputLatch Tick (after InputLatch second_attempt) = None /\
  exists s',
    step InputLatch (Conversion 0x0123 2) (after InputLatch second_attempt)
      = Some s' /\
    led_alive s' = negb (led_alive (after InputLatch second_attempt)).
Proof.
  pose proof second_attempt_reachable as R.
  pose proof second_attempt_accepting as N.
  destruct (interrupts_follow_phase InputLatch _ 0x0123 2 R) as (H & _).
  destruct (H N) as (_ & Ht & Hc).
  split; [exact R|]. split; [exact N|]. split; [exact Ht|].
  eexists. split; [exact Hc|].
  vm_compute. reflexivity.
Defined.

(** X9.  The two answer LEDs show the feedback state and nothing else:
    in every reachable state the right-answer LED (P4.3) is on exactly
    when the state is Success, the wrong-answer LED (P4.4) exactly when
    it is Failure; so both are off while digits are accepted and they are
    never on together. *)
Theorem leds_show_feedback v s :
  reachable v s ->
  (led_right s = true <-> feedback_state s = Success) /\
  (led_wrong s = true <-> feedback_state s = Failure) /\
  (led_right s = true -> led_wrong s = true -> False).
Proof.
  intros R. pose proof (reachable_inv v s R) as I.
  destruct (Z.eq_dec (conversion_allowed s) 0) as [Hc|Hc].
  - pose proof (inv_window_phase s I Hc) as W.
    destruct W as (_ & _ & Hco & _ & _ & _ & _ & Hlr & Hlw).
    unfold feedback_state. rewrite Hlr, Hlw, Hc.
    destruct Hco as [-> | ->]; cbn; splits; try split; congruence.
  - pose proof (inv_entry_phase s I Hc) as E.
    destruct E as (Hca & _ & _ & _ & _ & _ & Hlr & Hlw).
    unfold feedback_state. rewrite Hlr, Hlw, Hca. cbn.
    splits; try split; congruence.
Qed.

(** One tick into the window of scenario B the wrong-answer LED is on. *)
Lemma leds_show_feedback_witness :
  reachable InputLatch (after InputLatch (trace_B ++ [Tick])) /\
  led_wrong (after InputLatch (trace_B ++ [Tick])) = true /\
  led_right (after InputLatch (trace_B ++ [Tick])) = false.
Proof.
  assert (Hrun : run InputLatch (trace_B ++ [Tick]) (boot hw0) <> None)
    by (vm_compute; discriminate).
  pose proof (after_reachable InputLatch _ Hrun) as R.
  destruct (leds_show_feedback InputLatch _ R) as (_ & (_ & H) & _).
  assert (F : feedback_state (after InputLatch (trace_B ++ [Tick])) = Failure)
    by (vm_compute; reflexivity).
  split; [exact R|]. split; [exact (H F)|]. vm_compute. reflexivity.
Defined.

(** ** What the operations leave alone *)

(** The three interrupt handlers never write the data of the entry. *)
Lemma handler_frame v e s s' :
  e <> Loop -> step v e s = Some s' ->
  guess s' = guess s /\ data_cnt s' = data_cnt s /\
  password s' = password s /\ cmp_log s' = cmp_log s.
Proof.
  intros He Hstep. destruct e as [|raw iv| |]; cbn [step] in Hstep.
  - now elim He.
  - destruct (adc_enabled s); [|discriminate].
    destruct (adc_irq_enabled _); injection Hstep as <-; [|now splits].
    destruct (ADC12ISR_frame iv
                (wr_or ADC12IFG ADC12IFG0 (wr ADC12MEM0 (raw mod 4096) s)))
      as ((Hpw & Hg & Hd & _) & _ & _ & Hl).
    now splits.
  - destruct (timer_irq_enabled s); [|discriminate]. injection Hstep as <-.
    destruct (Timer_frame (wr_or TA0CCTL0 CCIFG s)) as (Hpw & Hg & Hd & _ & Hl).
    now splits.
  - destruct (is_set BIT4 (rd BUTTON_EDGE_SEL s)).
    + destruct (is_set BIT4 (rd BUTTON_INT_EN _)); injection Hstep as <-;
        [destruct v|]; now splits.
    + injection Hstep as <-. now splits.
Qed.

Lemma step_password v e s s' :
  step v e s = Some s' -> password s' = password s.
Proof.
  intros Hstep.
  assert (e = Loop \/ e <> Loop) as [-> | Ne]
    by (destruct e; [now left|right; discriminate ..]).
  2:{ now destruct (handler_frame v e s s' Ne Hstep) as (_ & _ & H & _). }
  cbn [step] in Hstep.
  destruct (Z.eq_dec (pressed s) 1) as [Hp|Hp].
  2:{ rewrite loop_idle in Hstep by exact Hp. now injection Hstep as <-. }
  destruct (loop_pressed_cases s s' Hp Hstep) as (m & Hm & Hs').
  assert (Bm : password m = password s).
  { destruct Hm as [[_ ->]|[_ (g & _ & ->)]]; reflexivity. }
  destruct Hs' as [[_ ->]|[_ (a & Ha & ->)]]; [exact Bm|].
  apply check_password_frame in Ha. destruct Ha as (Ha & _).
  cbn [password set_pressed]. rewrite Ha. exact Bm.
Qed.

Lemma secret_fixed v s : reachable v s -> password s = Arr4 1 2 3 4.
Proof.
  induction 1 as [hw|s e s' _ IH Hstep].
  - unfold boot, main_init. rewrite lcd_initialization_emit. sem. reflexivity.
  - rewrite (step_password v e s s' Hstep). exact IH.
Qed.

(** X10.  No code path assigns [password]: in every reachable state, and
    after any run from it (any number of attempts, feedback windows and
    interrupts), the secret is still 1 2 3 4. *)
Theorem password_never_written v s :
  reachable v s ->
  password s = Arr4 1 2 3 4 /\
  forall t s', run v t s = Some s' -> password s' = Arr4 1 2 3 4.
Proof.
  intros R. split; [exact (secret_fixed v s R)|].
  intros t s' Hrun. apply (secret_fixed v).
  exact (run_reachable v t s s' R Hrun).
Qed.

(** After a failed attempt with the digits 1 2 9 4. *)
Lemma password_never_written_witness :
  reachable InputLatch (after InputLatch second_attempt) /\
  password (after InputLatch second_attempt) = Arr4 1 2 3 4 /\
  guess (after InputLatch second_attempt) = Arr4 1 2 9 4.
Proof.
  pose proof second_attempt_reachable as R.
  split; [exact R|].
  split; [exact (proj1 (password_never_written InputLatch _ R))|].
  vm_compute. reflexivity.
Defined.

(** X11.  ADC12ISR, for any value read from ADC12IV and in any state:
    it writes no global of the program and not ADC12MEM0; it toggles the
    alive LED (P4.5) on every invocation and leaves the two answer LEDs
    as they are; it clears ADC12IFG0; and unless the cause is 6 and
    [conversion_allowed] is set it sends nothing to the display. *)
Theorem adc_isr_effects iv s :
  same_entry s (ADC12ISR iv s) /\
  seconds (ADC12ISR iv s) = seconds s /\
  correct (ADC12ISR iv s) = correct s /\
  rd ADC12MEM0 (ADC12ISR iv s) = rd ADC12MEM0 s /\
  led_alive (ADC12ISR iv s) = negb (led_alive s) /\
  led_right (ADC12ISR iv s) = led_right s /\
  led_wrong (ADC12ISR iv s) = led_wrong s /\
  is_set ADC12IFG0 (rd ADC12IFG (ADC12ISR iv s)) = false /\
  (iv <> 6 \/ conversion_allowed s = 0 ->
     lcd_bus (ADC12ISR iv s) = lcd_bus s).
Proof.
  destruct (ADC12ISR_frame iv s) as (F1 & F2 & F3 & _).
  split; [exact F1|]. split; [exact F2|]. split; [exact F3|].
  assert (Q : iv <> 6 \/ conversion_allowed s = 0 \/
              (iv = 6 /\ conversion_allowed s <> 0)) by lia.
  destruct Q as [Q|[Q|[Q1 Q2]]].
  - rewrite adc_isr_quiet by now left. splits; sem; reflexivity.
  - rewrite adc_isr_quiet by now right. splits; sem; reflexivity.
  - rewrite adc_isr_echo by assumption. splits; sem; try reflexivity.
    intros [H|H]; contradiction.
Qed.

(** X12.  [guess], [data_cnt] and [password] are written by the main loop
    only: whatever the state, an operation other than a loop iteration
    (the ADC ISR, the timer ISR, the button request) leaves the three and
    the record of comparisons unchanged.  So the ISRs never race with the
    main loop on the digits. *)
Theorem handlers_leave_entry_data v e s s' :
  e <> Loop -> step v e s = Some s' ->
  guess s' = guess s /\ data_cnt s' = data_cnt s /\
  password s' = password s /\ cmp_log s' = cmp_log s.
Proof. exact (handler_frame v e s s'). Qed.

(** The tick that ends the window of scenario B keeps the digits
    1 2 9 4. *)
Lemma handlers_leave_entry_data_witness :
  Tick <> Loop /\
  (exists s', step InputLatch Tick (after InputLatch (trace_B ++ [Tick; Tick]))
              = Some s' /\
     guess s' = Arr4 1 2 9 4 /\ data_cnt s' = 0).
Proof.
  split; [discriminate|].
  destruct (step InputLatch Tick (after InputLatch (trace_B ++ [Tick; Tick])))
    as [s'|] eqn:E; [|exfalso; revert E; vm_compute; discriminate].
  exists s'. split; [reflexivity|].
  destruct (handlers_leave_entry_data InputLatch Tick _ s'
              ltac:(discriminate) E) as (Hg & Hd & _).
  rewrite Hg, Hd. split; vm_compute; reflexivity.
Defined.

(** X13.  check_password returns from any state, whatever [data_cnt]
    holds: it compares index 0 first, and every index at which it
    reads [guess] and [password] is between 0 and 3.  It zeroes
    [data_cnt], leaves [guess], [password], [pressed], [seconds] and
    [conversion_allowed] unchanged, never raises [correct] (it keeps it
    or clears it), and returns with ADC12ENC and ADC12IE0 clear. *)
Theorem check_password_total s :
  exists s' log,
    check_password s = Some s' /\
    cmp_log s' = cmp_log s ++ log /\ hd_error log = Some 0 /\
    Forall (fun i => 0 <= i < 4) log /\
    data_cnt s' = 0 /\ guess s' = guess s /\ password s' = password s /\
    pressed s' = pressed s /\ seconds s' = seconds s /\
    conversion_allowed s' = conversion_allowed s /\
    (correct s' = correct s \/ correct s' = 0) /\
    adc_enabled s' = false /\ adc_irq_enabled s' = false.
Proof.
  destruct (check_password s) as [s'|] eqn:E.
  2:{ rewrite check_password_run in E. discriminate. }
  exists s', (snd (check_outcome (guess s) (password s))).
  split; [reflexivity|].
  destruct (check_password_frame s s' E)
    as (Hpw & Hg & Hd & Hp & Hca & Hsec & Hco & Hlog).
  destruct (check_password_adc s s' E) as [A1 A2].
  split; [exact Hlog|].
  assert (L : hd_error (snd (check_outcome (guess s) (password s))) = Some 0 /\
              Forall (fun i => 0 <= i < 4)
                (snd (check_outcome (guess s) (password s)))).
  { unfold check_outcome.
    repeat match goal with
      |- context [if ?c then _ else _] => destruct c
    end; cbn [snd]; (split; [reflexivity|]);
    repeat (apply Forall_cons; [lia|]); apply Forall_nil. }
  destruct L as [L1 L2].
  splits; try assumption.
  rewrite Hco. destruct (fst _); [now left|now right].
Qed.

(** X14.  turn_on_led switches on [correct] without a default case.  In
    any state it writes no global, leaves the alive LED alone and sets
    TA0CTL to ACLK, up mode.  For [correct = 0] it lights the
    wrong-answer LED, for [correct = 1] the right-answer LED, in both
    cases without switching the other one off, and arms the one-second
    tick (TA0CCR0 = 32767, CCIE set).  For any other value of [correct]
    it sends nothing to the display, lights no LED and arms nothing. *)
Theorem turn_on_led_cases s :
  same_entry s (turn_on_led s) /\
  seconds (turn_on_led s) = seconds s /\
  correct (turn_on_led s) = correct s /\
  rd TA0CTL (turn_on_led s) = 0x110 /\
  led_alive (turn_on_led s) = led_alive s /\
  (correct s = 0 ->
     led_wrong (turn_on_led s) = true /\
     led_right (turn_on_led s) = led_right s /\
     timer_irq_enabled (turn_on_led s) = true /\
     rd TA0CCR0 (turn_on_led s) = 32767) /\
  (correct s = 1 ->
     led_right (turn_on_led s) = true /\
     led_wrong (turn_on_led s) = led_wrong s /\
     timer_irq_enabled (turn_on_led s) = true /\
     rd TA0CCR0 (turn_on_led s) = 32767) /\
  (correct s <> 0 -> correct s <> 1 ->
     lcd_bus (turn_on_led s) = lcd_bus s /\
     rd LED_PORT (turn_on_led s) = rd LED_PORT s /\
     rd TA0CCTL0 (turn_on_led s) = rd TA0CCTL0 s /\
     rd TA0CCR0 (turn_on_led s) = rd TA0CCR0 s).
Proof.
  destruct (turn_on_led_frame s) as (F1 & F2 & F3 & _).
  split; [exact F1|]. split; [exact F2|]. split; [exact F3|].
  destruct (Z.eq_dec (correct s) 0) as [H0|H0];
    [|destruct (Z.eq_dec (correct s) 1) as [H1|H1]].
  - rewrite turn_on_led_wrong by exact H0.
    splits; try (intros; lia); try (intros _; splits); sem; reflexivity.
  - rewrite turn_on_led_right by exact H1.
    splits; try (intros; lia); try (intros _; splits); sem; reflexivity.
  - rewrite turn_on_led_other by assumption.
    splits; try (intros; lia); try (intros _ _; splits); sem; reflexivity.
Qed.

(** X15.  Timer_A_CCR0_ISR in any state: it never writes [guess],
    [password], [data_cnt] or [pressed], leaves the alive LED and
    ADC12MEM0 alone, and always clears CCIFG.  It adds 1 to [seconds] as
    an 8-bit counter; while the result is at most 2 (which includes the
    wrap of 255 to 0) nothing else changes.  Otherwise it restarts the
    entry: [seconds = 0], [correct = 1], [conversion_allowed = 1], timer
    interrupt off, ADC and its interrupt on, TA0CCR0 = 8191, display
    cleared and the entry screen drawn; of the two answer LEDs it
    switches off only the one that [correct] selects. *)
Theorem timer_isr_effects s :
  (password (Timer_A_CCR0_ISR s) = password s /\
   guess (Timer_A_CCR0_ISR s) = guess s /\
   data_cnt (Timer_A_CCR0_ISR s) = data_cnt s /\
   pressed (Timer_A_CCR0_ISR s) = pressed s) /\
  is_set CCIFG (rd TA0CCTL0 (Timer_A_CCR0_ISR s)) = false /\
  led_alive (Timer_A_CCR0_ISR s) = led_alive s /\
  rd ADC12MEM0 (Timer_A_CCR0_ISR s) = rd ADC12MEM0 s /\
  ((seconds s + 1) mod 256 <= 2 ->
     seconds (Timer_A_CCR0_ISR s) = (seconds s + 1) mod 256 /\
     correct (Timer_A_CCR0_ISR s) = correct s /\
     conversion_allowed (Timer_A_CCR0_ISR s) = conversion_allowed s /\
     lcd_bus (Timer_A_CCR0_ISR s) = lcd_bus s /\
     rd LED_PORT (Timer_A_CCR0_ISR s) = rd LED_PORT s /\
     timer_irq_enabled (Timer_A_CCR0_ISR s) = timer_irq_enabled s) /\
  ((seconds s + 1) mod 256 > 2 ->
     seconds (Timer_A_CCR0_ISR s) = 0 /\
     correct (Timer_A_CCR0_ISR s) = 1 /\
     conversion_allowed (Timer_A_CCR0_ISR s) = 1 /\
     timer_irq_enabled (Timer_A_CCR0_ISR s) = false /\
     adc_enabled (Timer_A_CCR0_ISR s) = true /\
     adc_irq_enabled (Timer_A_CCR0_ISR s) = true /\
     rd TA0CCR0 (Timer_A_CCR0_ISR s) = 8191 /\
     lcd_bus (Timer_A_CCR0_ISR s) =
       lcd_bus s ++ command_bytes 0x01 ++ begin_bytes /\
     (correct s <> 0 ->
        led_right (Timer_A_CCR0_ISR s) = false /\
        led_wrong (Timer_A_CCR0_ISR s) = led_wrong s) /\
     (correct s = 0 ->
        led_wrong (Timer_A_CCR0_ISR s) = false /\
        led_right (Timer_A_CCR0_ISR s) = led_right s)).
Proof.
  destruct (Timer_frame s) as (F1 & F2 & F3 & F4 & _).
  split; [now splits|]. fold (u8 (seconds s + 1)).
  destruct (Z_le_gt_dec (u8 (seconds s + 1)) 2) as [H|H].
  - rewrite timer_below by exact H.
    splits; try (intros; lia); try (intros _; splits); sem; reflexivity.
  - rewrite timer_above by exact H.
    destruct (Z.eqb_spec (correct s) 0) as [C|C]; cbn [negb];
      repeat (split; [sem; reflexivity|]);
      (split; [intros; lia|]); intros _;
      repeat (split; [sem; reflexivity|]);
      split; intros N; first [contradiction | split; sem; reflexivity].
Qed.

Lemma set4_nibbles a i v a' :
  set4 a i v = Some a' ->
  Forall (fun d => 0 <= d < 16) (to_list a) -> 0 <= v < 16 ->
  Forall (fun d => 0 <= d < 16) (to_list a').
Proof.
  intros Hs Ha Hv. unfold to_list in *.
  inversion Ha as [|? ? A0 Ha1]; subst. inversion Ha1 as [|? ? A1 Ha2]; subst.
  inversion Ha2 as [|? ? A2 Ha3]; subst. inversion Ha3 as [|? ? A3 _]; subst.
  unfold set4 in Hs.
  repeat match type of Hs with
    | context [if ?c then _ else _] => destruct c
    end; try discriminate; injection Hs as <-; cbn [a0 a1 a2 a3];
  repeat (apply Forall_cons; [assumption|]); apply Forall_nil.
Qed.

Lemma step_guess_nibbles v e s s' :
  step v e s = Some s' ->
  Forall (fun d => 0 <= d < 16) (to_list (guess s)) ->
  Forall (fun d => 0 <= d < 16) (to_list (guess s')).
Proof.
  intros Hstep Hg.
  assert (e = Loop \/ e <> Loop) as [-> | Ne]
    by (destruct e; [now left|right; discriminate ..]).
  2:{ destruct (handler_frame v e s s' Ne Hstep) as (-> & _). exact Hg. }
  cbn [step] in Hstep.
  destruct (Z.eq_dec (pressed s) 1) as [Hp|Hp].
  2:{ rewrite loop_idle in Hstep by exact Hp. now injection Hstep as <-. }
  destruct (loop_pressed_cases s s' Hp Hstep) as (m & Hm & Hs').
  assert (Gm : Forall (fun d => 0 <= d < 16) (to_list (guess m))).
  { destruct Hm as [[_ ->]|[_ (g & Hset & ->)]]; [exact Hg|].
    cbn [guess set_guess set_data_cnt].
    exact (set4_nibbles _ _ _ _ Hset Hg (adc_nibble_range s)). }
  destruct Hs' as [[_ ->]|[_ (a & Ha & ->)]]; [exact Gm|].
  apply check_password_frame in Ha. destruct Ha as (_ & Ha & _).
  cbn [guess set_pressed]. rewrite Ha. exact Gm.
Qed.

(** X16.  Every element of [guess] is a 4-bit value at all times: in
    every reachable state each of the four stored digits is between 0
    and 15 (the values 10 to 15 included, which the display shows
    as 9). *)
Theorem guess_digits_are_nibbles v s :
  reachable v s -> Forall (fun d => 0 <= d < 16) (to_list (guess s)).
Proof.
  induction 1 as [hw|s e s' _ IH Hstep].
  - unfold boot, main_init. rewrite lcd_initialization_emit. sem.
    unfold to_list. cbn [a0 a1 a2 a3].
    repeat (apply Forall_cons; [lia|]). apply Forall_nil.
  - exact (step_guess_nibbles v e s s' Hstep IH).
Qed.

(** After the reading 0x0D00 is confirmed and committed, [guess[0]] is
    13. *)
Lemma guess_digits_are_nibbles_witness :
  reachable InputLatch (after InputLatch (press_13 ++ [Loop])) /\
  guess (after InputLatch (press_13 ++ [Loop])) = Arr4 13 0 0 0 /\
  Forall (fun d => 0 <= d < 16)
    (to_list (guess (after InputLatch (press_13 ++ [Loop])))).
Proof.
  assert (Hrun : run InputLatch (press_13 ++ [Loop]) (boot hw0) <> None)
    by (vm_compute; discriminate).
  pose proof (after_reachable InputLatch _ Hrun) as R.
  split; [exact R|]. split; [vm_compute; reflexivity|].
  exact (guess_digits_are_nibbles InputLatch _ R).
Defined.

(** ** Dialling and confirming digits *)

Lemma nibble_of_reading raw :
  Z.land (Z.shiftr (raw mod 4096) 8) 0x0F = raw mod 4096 / 256.
Proof.
  pose proof (Z.mod_pos_bound raw 4096 ltac:(lia)) as H.
  rewrite Z.shiftr_div_pow2 by lia. change (2 ^ 8) with 256.
  change 0x0F with (Z.ones 4). rewrite Z.land_ones by lia.
  apply Z.mod_small. change (2 ^ 4) with 16. split.
  - apply Z.div_pos; lia.
  - apply Z.div_lt_upper_bound; lia.
Qed.

Lemma reading_of_digit d : 0 <= d < 16 -> (256 * d) mod 4096 / 256 = d.
Proof.
  intros H. rewrite Z.mod_small by lia. rewrite Z.mul_comm.
  apply Z.div_mul. lia.
Qed.

Lemma digit_shown n :
  0 <= n < 16 ->
  shown (u8 (n + ASCII_CONV)) = ASCII_CONV + Z.min n 9.
Proof.
  intros H. rewrite <- (Z2Nat.id n) by lia.
  assert (Hk : (Z.to_nat n < 16)%nat) by lia.
  revert Hk. generalize (Z.to_nat n). intros k Hk.
  do 16 (destruct k as [|k]; [vm_compute; reflexivity|]).
  lia.
Qed.

(** A conversion completing while digits are accepted. *)
Lemma conversion_delivered v s raw :
  Inv s -> conversion_allowed s <> 0 ->
  exists s',
    step v (Conversion raw 6) s = Some s' /\
    same_entry s s' /\ correct s' = correct s /\ seconds s' = seconds s /\
    rd ADC12MEM0 s' = raw mod 4096 /\
    led_alive s' = negb (led_alive s) /\
    lcd_bus s' =
      lcd_bus s ++ command_bytes (0x80 + data_cnt s)
                ++ display_bytes (raw mod 4096 / 256 + ASCII_CONV).
Proof.
  intros I Hc. pose proof (inv_entry_phase s I Hc) as E.
  destruct E as (_ & _ & _ & _ & Hae & Hai & _).
  cbn [step]. rewrite Hae.
  set (x := wr_or ADC12IFG ADC12IFG0 (wr ADC12MEM0 (raw mod 4096) s)).
  assert (Hx : adc_irq_enabled x = true).
  { rewrite <- Hai. unfold x. sem. reflexivity. }
  rewrite Hx. eexists. split; [reflexivity|].
  assert (N : adc_nibble x = raw mod 4096 / 256).
  { unfold adc_nibble, x. sem. apply nibble_of_reading. }
  rewrite adc_isr_echo by (first [reflexivity|exact Hc]).
  rewrite N. change (data_cnt x) with (data_cnt s).
  unfold x, same_entry. splits; sem; reflexivity.
Qed.

Lemma echo_decoded v s raw :
  reachable v s -> conversion_allowed s <> 0 ->
  exists s',
    step v (Conversion raw 6) s = Some s' /\
    same_entry s s' /\ rd ADC12MEM0 s' = raw mod 4096 /\
    led_alive s' = negb (led_alive s) /\
    lcd_decode (lcd_bus s') = lcd_decode (lcd_bus s) ++ echo (data_cnt s) raw.
Proof.
  intros R Hc. pose proof (reachable_inv v s R) as I.
  destruct (conversion_delivered v s raw I Hc)
    as (s' & Hs & Hsame & _ & _ & Hm & Hl & Hb).
  exists s'. split; [exact Hs|]. split; [exact Hsame|].
  split; [exact Hm|]. split; [exact Hl|].
  rewrite Hb.
  destruct (command_bytes_decode (0x80 + data_cnt s)) as [D1 S1].
  destruct (display_bytes_decode (raw mod 4096 / 256 + ASCII_CONV)) as [D2 S2].
  rewrite decode_app by exact (reachable_settled v s R).
  rewrite decode_app by exact S1. rewrite D1, D2.
  rewrite u8_small by (destruct I as (? & _); lia).
  rewrite digit_shown; [reflexivity|].
  pose proof (Z.mod_pos_bound raw 4096 ltac:(lia)). split.
  - apply Z.div_pos; lia.
  - apply Z.div_lt_upper_bound; lia.
Qed.

(** X17.  While digits are accepted, a completed conversion is always
    echoed: the display receives the cursor command for column
    [data_cnt] of the first line (0x80 + data_cnt) and then one
    character, the decimal digit of the top four bits of the 12-bit
    reading, with 10..15 shown as '9'.  The reading is left in ADC12MEM0,
    [guess] and [data_cnt] do not change, and the alive LED toggles. *)
Theorem conversion_echo v s raw :
  reachable v s -> conversion_allowed s <> 0 ->
  exists s',
    step v (Conversion raw 6) s = Some s' /\
    lcd_decode (lcd_bus s') =
      lcd_decode (lcd_bus s)
      ++ [Cmd (0x80 + data_cnt s); Dat (0x30 + Z.min (raw mod 4096 / 256) 9)] /\
    rd ADC12MEM0 s' = raw mod 4096 /\
    guess s' = guess s /\ data_cnt s' = data_cnt s /\
    led_alive s' = negb (led_alive s).
Proof.
  intros R Hc.
  destruct (echo_decoded v s raw R Hc)
    as (s' & Hs & (_ & Hg & Hd & _) & Hm & Hl & Hdec).
  exists s'. now splits.
Qed.

(** The reading 0x0C80 in the entry state after a failed attempt: the
    digit 12 is echoed as '9' at column 0. *)
Lemma conversion_echo_witness :
  reachable InputLatch (after InputLatch second_attempt) /\
  conversion_allowed (after InputLatch second_attempt) <> 0 /\
  exists s',
    step InputLatch (Conversion 0x0C80 6) (after InputLatch second_attempt)
      = Some s' /\
    lcd_decode (lcd_bus s') =
      lcd_decode (lcd_bus (after InputLatch second_attempt))
      ++ [Cmd 0x80; Dat 0x39].
Proof.
  pose proof second_attempt_reachable as R.
  pose proof second_attempt_accepting as N.
  split; [exact R|]. split; [exact N|].
  destruct (conversion_echo InputLatch _ 0x0C80 R N) as (s' & Hs & Hd & _).
  exists s'. split; [exact Hs|].
  rewrite Hd, second_attempt_index. reflexivity.
Defined.

Lemma edge_latched s :
  Inv s ->
  step InputLatch Edge s = Some (set_pressed 1 (wr_or BUTTON_FLAG BIT4 s)).
Proof.
  intros (_ & _ & Hie & Hies & _). cbn [step]. rewrite Hies. cbv zeta.
  assert (H : is_set BIT4 (rd BUTTON_INT_EN (wr_or BUTTON_FLAG BIT4 s)) = true).
  { rewrite <- Hie. sem. reflexivity. }
  rewrite H. reflexivity.
Qed.

(** Entering one digit up to the loop iteration: the reading is latched
    in ADC12MEM0 and [pressed] is set. *)
Lemma digit_confirmed s d :
  Inv s -> conversion_allowed s <> 0 -> 0 <= d < 16 ->
  exists m,
    run InputLatch [Conversion (256 * d) 6; Edge] s = Some m /\
    Inv m /\ pressed m = 1 /\ adc_nibble m = d /\
    conversion_allowed m = conversion_allowed s /\
    data_cnt m = data_cnt s /\ guess m = guess s /\
    password m = password s.
Proof.
  intros I Hc Hd.
  destruct (conversion_delivered InputLatch s (256 * d) I Hc)
    as (s1 & H1 & (Hpw & Hg & Hdc & _ & Hca) & _ & _ & Hm & _).
  pose proof (step_inv _ _ _ _ I H1) as I1.
  pose proof (edge_latched s1 I1) as H2.
  pose proof (step_inv _ _ _ _ I1 H2) as I2.
  exists (set_pressed 1 (wr_or BUTTON_FLAG BIT4 s1)).
  split; [cbn [run]; rewrite H1; cbn [bind]; rewrite H2; reflexivity|].
  split; [exact I2|]. split; [reflexivity|].
  split; [|now splits].
  unfold adc_nibble.
  replace (rd ADC12MEM0 (set_pressed 1 (wr_or BUTTON_FLAG BIT4 s1)))
    with ((256 * d) mod 4096) by (rewrite <- Hm; sem; reflexivity).
  rewrite nibble_of_reading. now apply reading_of_digit.
Qed.

Lemma enter_digit s d :
  Inv s -> conversion_allowed s <> 0 -> 0 <= data_cnt s < 3 -> 0 <= d < 16 ->
  exists s',
    run InputLatch (enter d) s = Some s' /\
    Inv s' /\ conversion_allowed s' <> 0 /\ pressed s' = 0 /\
    data_cnt s' = data_cnt s + 1 /\
    set4 (guess s) (data_cnt s) d = Some (guess s') /\
    password s' = password s.
Proof.
  intros I Hc Hk Hd.
  destruct (digit_confirmed s d I Hc Hd)
    as (m & Hm & Im & Hp & Hn & Hca & Hdc & Hg & Hpw).
  destruct (loop_accept m Hp) as (g & Hset & Hrun); [congruence|lia|].
  pose proof (step_inv InputLatch Loop _ _ Im Hrun) as I'.
  eexists. split.
  { change (enter d) with ([Conversion (256 * d) 6; Edge] ++ [Loop]).
    rewrite run_app, Hm. cbn [bind run step]. rewrite Hrun. reflexivity. }
  split; [exact I'|]. fields.
  rewrite Hca, Hdc, Hpw. rewrite Hg, Hdc, Hn in Hset.
  now splits.
Qed.

Lemma enter_last s d :
  Inv s -> conversion_allowed s <> 0 -> data_cnt s = 3 -> 0 <= d < 16 ->
  exists a,
    run InputLatch (enter d) s = Some a /\
    Inv a /\ feedback_window a /\ seconds a = 0 /\ pressed a = 0 /\
    guess a = Arr4 (a0 (guess s)) (a1 (guess s)) (a2 (guess s)) d /\
    password a = password s /\
    correct a = (if fst (check_outcome (guess a) (password s)) then 1 else 0).
Proof.
  intros I Hc Hk Hd.
  destruct (digit_confirmed s d I Hc Hd)
    as (m & Hm & Im & Hp & Hn & Hca & Hdc & Hg & Hpw).
  destruct (arming m Im Hp)
    as (a & Hrun & W & Hs & Hpa & _ & Hga & Hpwa & _ & Hout);
    [congruence|congruence|].
  pose proof (step_inv InputLatch Loop _ _ Im Hrun) as Ia.
  exists a. split.
  { change (enter d) with ([Conversion (256 * d) 6; Edge] ++ [Loop]).
    rewrite run_app, Hm. cbn [bind run step]. rewrite Hrun. reflexivity. }
  rewrite Hg, Hn in Hga. rewrite Hpw in Hpwa, Hout.
  splits; try assumption.
  destruct (fst (check_outcome (guess a) (password s))); apply Hout.
Qed.

(** Four digits entered from the start of an entry. *)
Lemma attempt_runs s d1 d2 d3 d4 :
  Inv s -> conversion_allowed s <> 0 -> data_cnt s = 0 ->
  0 <= d1 < 16 -> 0 <= d2 < 16 -> 0 <= d3 < 16 -> 0 <= d4 < 16 ->
  exists a,
    run InputLatch (enter d1 ++ enter d2 ++ enter d3 ++ enter d4) s = Some a /\
    Inv a /\ feedback_window a /\ seconds a = 0 /\ pressed a = 0 /\
    guess a = Arr4 d1 d2 d3 d4 /\ password a = password s /\
    correct a =
      (if fst (check_outcome (Arr4 d1 d2 d3 d4) (password s)) then 1 else 0).
Proof.
  intros I Hc Hk H1 H2 H3 H4.
  destruct (enter_digit s d1 I Hc ltac:(lia) H1)
    as (s1 & R1 & I1 & C1 & _ & K1 & G1 & P1).
  destruct (enter_digit s1 d2 I1 C1 ltac:(lia) H2)
    as (s2 & R2 & I2 & C2 & _ & K2 & G2 & P2).
  destruct (enter_digit s2 d3 I2 C2 ltac:(lia) H3)
    as (s3 & R3 & I3 & C3 & _ & K3 & G3 & P3).
  destruct (enter_last s3 d4 I3 C3 ltac:(lia) H4)
    as (a & R4 & Ia & W & Hs & Hp & G4 & P4 & Hco).
  exists a. split.
  { rewrite run_app, R1. cbn [bind]. rewrite run_app, R2. cbn [bind].
    rewrite run_app, R3. cbn [bind]. exact R4. }
  rewrite Hk in G1. rewrite K1, Hk in G2. rewrite K2, K1, Hk in G3.
  cbn [set4 Z.eqb Z.add Pos.eqb Pos.add] in G1, G2, G3.
  injection G1 as G1. injection G2 as G2. injection G3 as G3.
  assert (Ga : guess a = Arr4 d1 d2 d3 d4).
  { rewrite G4, <- G3, <- G2, <- G1. reflexivity. }
  rewrite Ga, P3, P2, P1 in Hco.
  splits; try assumption. congruence.
Qed.

(** X18.  With the Input Latch handler installed, the lock opens for the
    digits 1 2 3 4 and for no others.  From any reachable state at the
    start of an entry, dialling and confirming four digits [d1 .. d4]
    (each a reading 0..15 of the top nibble) always runs to the end,
    leaves exactly those digits in [guess], and ends in Success with the
    right-answer LED on if they are 1 2 3 4, in Failure with the
    wrong-answer LED on otherwise; what an earlier attempt left in
    [guess] plays no part. *)
Theorem four_digits_decide s d1 d2 d3 d4 :
  reachable InputLatch s -> conversion_allowed s <> 0 -> data_cnt s = 0 ->
  0 <= d1 < 16 -> 0 <= d2 < 16 -> 0 <= d3 < 16 -> 0 <= d4 < 16 ->
  exists a,
    run InputLatch (enter d1 ++ enter d2 ++ enter d3 ++ enter d4) s = Some a /\
    guess a = Arr4 d1 d2 d3 d4 /\
    (feedback_state a = Success <-> Arr4 d1 d2 d3 d4 = Arr4 1 2 3 4) /\
    (feedback_state a = Failure <-> Arr4 d1 d2 d3 d4 <> Arr4 1 2 3 4) /\
    (led_right a = true <-> Arr4 d1 d2 d3 d4 = Arr4 1 2 3 4) /\
    (led_wrong a = true <-> Arr4 d1 d2 d3 d4 <> Arr4 1 2 3 4).
Proof.
  intros R Hc Hk H1 H2 H3 H4.
  pose proof (reachable_inv _ s R) as I.
  destruct (attempt_runs s d1 d2 d3 d4 I Hc Hk H1 H2 H3 H4)
    as (a & Hrun & _ & W & _ & _ & Hg & _ & Hco).
  exists a. split; [exact Hrun|]. split; [exact Hg|].
  destruct W as (Hca & _ & _ & _ & _ & _ & _ & Hlr & Hlw).
  rewrite (secret_fixed _ s R) in Hco.
  pose proof (check_outcome_fst (Arr4 d1 d2 d3 d4) (Arr4 1 2 3 4)) as Hf.
  rewrite arr4_eq_iff in Hf.
  unfold feedback_state. rewrite Hlr, Hlw, Hca, Hco.
  destruct (fst (check_outcome (Arr4 d1 d2 d3 d4) (Arr4 1 2 3 4))); cbn.
  - assert (E : Arr4 d1 d2 d3 d4 = Arr4 1 2 3 4) by now apply Hf.
    splits; split; try tauto; try discriminate; intros N; now elim N.
  - assert (E : Arr4 d1 d2 d3 d4 <> Arr4 1 2 3 4).
    { intros E. apply Hf in E. discriminate. }
    splits; split; try tauto; try discriminate; intros N; now elim E.
Qed.

(** After the failed attempt 1 2 9 4 and its window, the digits 1 2 3 4
    unlock. *)
Lemma four_digits_decide_witness :
  reachable InputLatch (after InputLatch second_attempt) /\
  conversion_allowed (after InputLatch second_attempt) <> 0 /\
  data_cnt (after InputLatch second_attempt) = 0 /\
  exists a,
    run InputLatch (enter 1 ++ enter 2 ++ enter 3 ++ enter 4)
      (after InputLatch second_attempt) = Some a /\
    feedback_state a = Success /\ led_right a = true.
Proof.
  pose proof second_attempt_reachable as R.
  pose proof second_attempt_accepting as N.
  pose proof second_attempt_index as K.
  split; [exact R|]. split; [exact N|]. split; [exact K|].
  destruct (four_digits_decide _ 1 2 3 4 R N K
              ltac:(lia) ltac:(lia) ltac:(lia) ltac:(lia))
    as (a & Hrun & _ & (_ & HS) & _ & (_ & HL) & _).
  exists a. split; [exact Hrun|].
  split; [exact (HS eq_refl)|exact (HL eq_refl)].
Defined.

Lemma tick_keeps_pressed v s c :
  step v Tick s = Some c -> pressed c = pressed s.
Proof.
  cbn [step]. destruct (timer_irq_enabled s); [|discriminate].
  intros [= <-].
  destruct (Timer_frame (wr_or TA0CCTL0 CCIFG s)) as (_ & _ & _ & Hp & _).
  exact Hp.
Qed.

(** A tick before the last one of the window. *)
Lemma window_tick s :
  Inv s -> feedback_window s -> seconds s < 2 ->
  exists b, step InputLatch Tick s = Some b /\
    Inv b /\ feedback_window b /\ window_same s b /\ seconds b = seconds s + 1.
Proof.
  intros I W Hs. pose proof W as (_ & _ & _ & _ & Hti & _).
  destruct (step InputLatch Tick s) as [b|] eqn:E.
  2:{ cbn [step] in E. rewrite Hti in E. discriminate. }
  exists b. split; [reflexivity|].
  destruct (window_step _ _ _ _ I W E ltac:(lia)) as (S & Hsec).
  pose proof (step_inv _ _ _ _ I E) as Ib.
  assert (Wb : feedback_window b) by (apply inv_window_phase; [exact Ib|apply S]).
  now splits.
Qed.

(** X19.  An attempt never leaves the lock stuck.  From any reachable
    state at the start of an entry, four confirmed digits followed by
    three ticks always run to the end and lead back to the start of an
    entry: digits are accepted again, [data_cnt] and [pressed] are 0,
    both answer LEDs are off.  The state reached is again one from which
    an attempt can be made; [guess] still holds the four digits of the
    attempt. *)
Theorem attempt_returns_to_entry s d1 d2 d3 d4 :
  reachable InputLatch s -> conversion_allowed s <> 0 -> data_cnt s = 0 ->
  0 <= d1 < 16 -> 0 <= d2 < 16 -> 0 <= d3 < 16 -> 0 <= d4 < 16 ->
  exists c,
    run InputLatch
      ((enter d1 ++ enter d2 ++ enter d3 ++ enter d4) ++ [Tick; Tick; Tick]) s
      = Some c /\
    reachable InputLatch c /\
    conversion_allowed c <> 0 /\ data_cnt c = 0 /\ pressed c = 0 /\
    feedback_state c = Idle /\ led_right c = false /\ led_wrong c = false /\
    guess c = Arr4 d1 d2 d3 d4.
Proof.
  intros R Hc Hk H1 H2 H3 H4.
  pose proof (reachable_inv _ s R) as I.
  destruct (attempt_runs s d1 d2 d3 d4 I Hc Hk H1 H2 H3 H4)
    as (a & Hrun & Ia & W & Hs & Hp & Hg & _).
  destruct (window_tick a Ia W ltac:(lia)) as (b1 & T1 & I1 & W1 & S1 & Q1).
  destruct (window_tick b1 I1 W1 ltac:(lia)) as (b2 & T2 & I2 & W2 & S2 & Q2).
  pose proof W2 as (_ & _ & _ & _ & Hti & _).
  destruct (step InputLatch Tick b2) as [c|] eqn:T3.
  2:{ cbn [step] in T3. rewrite Hti in T3. discriminate. }
  destruct (window_end _ _ _ I2 ltac:(lia) T3)
    as (E & Hd & Hgc & _ & Hpc & _).
  assert (Hall : run InputLatch
            ((enter d1 ++ enter d2 ++ enter d3 ++ enter d4) ++ [Tick; Tick; Tick]) s
            = Some c).
  { rewrite run_app, Hrun. cbn [bind run]. rewrite T1. cbn [bind].
    rewrite T2. cbn [bind]. rewrite T3. reflexivity. }
  exists c. split; [exact Hall|].
  split; [exact (run_reachable _ _ _ _ R Hall)|].
  destruct E as (Hca & _ & _ & _ & _ & _ & Hlr & Hlw).
  unfold feedback_state. rewrite Hca.
  destruct S1 as (_ & _ & _ & G1 & _). destruct S2 as (_ & _ & _ & G2 & _).
  rewrite (tick_keeps_pressed _ _ _ T3), (tick_keeps_pressed _ _ _ T2),
    (tick_keeps_pressed _ _ _ T1).
  splits; try assumption; try reflexivity; congruence.
Qed.

(** A second failed attempt, 7 7 7 7, after the first one. *)
Lemma attempt_returns_to_entry_witness :
  reachable InputLatch (after InputLatch second_attempt) /\
  conversion_allowed (after InputLatch second_attempt) <> 0 /\
  data_cnt (after InputLatch second_attempt) = 0 /\
  exists c,
    run InputLatch
      ((enter 7 ++ enter 7 ++ enter 7 ++ enter 7) ++ [Tick; Tick; Tick])
      (after InputLatch second_attempt) = Some c /\
    conversion_allowed c <> 0 /\ data_cnt c = 0 /\ guess c = Arr4 7 7 7 7.
Proof.
  pose proof second_attempt_reachable as R.
  pose proof second_attempt_accepting as N.
  pose proof second_attempt_index as K.
  split; [exact R|]. split; [exact N|]. split; [exact K|].
  destruct (attempt_returns_to_entry _ 7 7 7 7 R N K
              ltac:(lia) ltac:(lia) ltac:(lia) ltac:(lia))
    as (c & Hrun & _ & Hc & Hd & _ & _ & _ & _ & Hg).
  exists c. now splits.
Defined.

(** A run of conversions while digits are accepted. *)
Lemma readings_run v raws : forall s,
  reachable v s -> conversion_allowed s <> 0 ->
  exists m,
    run v (readings raws) s = Some m /\
    reachable v m /\ same_entry s m /\
    rd ADC12MEM0 m = last (map (fun raw => raw mod 4096) raws) (rd ADC12MEM0 s) /\
    lcd_decode (lcd_bus m) =
      lcd_decode (lcd_bus s) ++ flat_map (echo (data_cnt s)) raws.
Proof.
  induction raws as [|r raws IH]; intros s R Hc.
  - exists s. cbn [readings map run flat_map last]. rewrite app_nil_r.
    unfold same_entry. now splits.
  - destruct (echo_decoded v s r R Hc) as (s1 & H1 & S1 & M1 & _ & D1).
    pose proof (reach_step v s _ s1 R H1) as R1.
    pose proof S1 as (P1 & G1 & K1 & Q1 & C1).
    destruct (IH s1 R1 ltac:(congruence)) as (m & Hm & Rm & Sm & Mm & Dm).
    exists m. split.
    { unfold readings in *. cbn [map run]. rewrite H1. cbn [bind]. exact Hm. }
    split; [exact Rm|]. split.
    { unfold same_entry in *. destruct Sm as (? & ? & ? & ? & ?).
      splits; congruence. }
    split.
    { rewrite Mm, M1. cbn [map]. now rewrite last_cons. }
    rewrite Dm, D1, K1. cbn [flat_map]. now rewrite <- app_assoc.
Qed.

(** X20.  The dial can be turned freely before a digit is confirmed:
    only the last reading counts.  While digits are accepted, any series
    of conversions is echoed reading by reading at the same column (the
    cursor command 0x80 + data_cnt before each character), and changes
    neither [guess] nor [data_cnt]; the confirmation that follows stores
    the top four bits of the last reading, and of no earlier one, in
    [guess[data_cnt]]. *)
Theorem last_reading_is_stored s raws r :
  reachable InputLatch s -> conversion_allowed s <> 0 ->
  exists m s',
    run InputLatch (readings (raws ++ [r])) s = Some m /\
    lcd_decode (lcd_bus m) =
      lcd_decode (lcd_bus s) ++ flat_map (echo (data_cnt s)) (raws ++ [r]) /\
    guess m = guess s /\ data_cnt m = data_cnt s /\
    run InputLatch [Edge; Loop] m = Some s' /\
    get4 (guess s') (data_cnt s) = Some (r mod 4096 / 256).
Proof.
  intros R Hc.
  destruct (readings_run InputLatch (raws ++ [r]) s R Hc)
    as (m & Hm & Rm & (_ & Hg & Hk & _ & Hca) & Hmem & Hdec).
  rewrite map_app in Hmem. cbn [map] in Hmem. rewrite last_last in Hmem.
  pose proof (reachable_inv _ m Rm) as Im.
  pose proof (edge_latched m Im) as He.
  set (p := set_pressed 1 (wr_or BUTTON_FLAG BIT4 m)) in *.
  pose proof (step_inv _ _ _ _ Im He) as Ip.
  assert (Hn : adc_nibble p = r mod 4096 / 256).
  { unfold adc_nibble.
    replace (rd ADC12MEM0 p) with (r mod 4096)
      by (rewrite <- Hmem; unfold p; sem; reflexivity).
    apply nibble_of_reading. }
  assert (Hpp : pressed p = 1) by reflexivity.
  assert (Hcp : conversion_allowed p <> 0) by (unfold p; fields; congruence).
  assert (Hkp : data_cnt p = data_cnt s) by (unfold p; fields; congruence).
  clearbody p.
  assert (exists s', main_loop_body p = Some s' /\
            get4 (guess s') (data_cnt s) = Some (r mod 4096 / 256))
    as (s' & Hs' & Hget).
  { assert (data_cnt p < 3 \/ data_cnt p = 3) as [Hlt|Heq]
      by (destruct Ip as (? & _); lia).
    - destruct (loop_accept p Hpp Hcp) as (g & Hset & Hrun);
        [destruct Ip as (? & _); lia|].
      eexists. split; [exact Hrun|]. fields.
      destruct (set4_in_range (guess p) (data_cnt p) (adc_nibble p))
        as (g' & Hg' & Hget & _); [destruct Ip as (? & _); lia|].
      rewrite Hset in Hg'. injection Hg' as <-.
      now rewrite <- Hkp, <- Hn.
    - destruct (arming p Ip Hpp Hcp Heq) as (a & Hrun & _ & _ & _ & _ & Hga & _).
      exists a. split; [exact Hrun|].
      rewrite Hga, <- Hkp, Heq, Hn. reflexivity. }
  exists m, s'. split; [exact Hm|]. split; [exact Hdec|].
  split; [exact Hg|]. split; [exact Hk|]. split; [|exact Hget].
  cbn [run]. rewrite He. cbn [bind step]. rewrite Hs'. reflexivity.
Qed.

(** The dial passes 3 and 12 and stops at 5: the display shows '3', '9',
    '5' in turn at column 0, and 5 is stored. *)
Lemma last_reading_is_stored_witness :
  reachable InputLatch (after InputLatch second_attempt) /\
  conversion_allowed (after InputLatch second_attempt) <> 0 /\
  exists m s',
    run InputLatch (readings [0x0300; 0x0C00; 0x0500])
      (after InputLatch second_attempt) = Some m /\
    lcd_decode (lcd_bus m) =
      lcd_decode (lcd_bus (after InputLatch second_attempt))
      ++ [Cmd 0x80; Dat 0x33; Cmd 0x80; Dat 0x39; Cmd 0x80; Dat 0x35] /\
    run InputLatch [Edge; Loop] m = Some s' /\
    get4 (guess s') 0 = Some 5.
Proof.
  pose proof second_attempt_reachable as R.
  pose proof second_attempt_accepting as N.
  split; [exact R|]. split; [exact N|].
  destruct (last_reading_is_stored _ [0x0300; 0x0C00] 0x0500 R N)
    as (m & s' & Hm & Hd & _ & _ & Hs' & Hg).
  rewrite second_attempt_index in Hd, Hg.
  exists m, s'. split; [exact Hm|]. split; [exact Hd|].
  split; [exact Hs'|exact Hg].
Defined.
